(** * AWS Backup Actions Framework: the metadata resolver and the export workflows

    A shallow embedding of
    - [src/functions/snapshotMetadata/snapshotMetadata.ts] (the metadata
      Lambda handler, with its numbers as IEEE 754 doubles), and
    - the Step Functions state machines declared with the CDK in
      [EBSBackupMachine], [RDSExportMachine], [DDBExportMachine] and
      [aws-backup-actions-stack.ts],
    - the environment of the handler and the job queues as the stack and
      [BatchCE] build them, and
    - the device search and [retry] of the backup script that the batch
      job runs,
    together with the properties the design specification states about
    them and further properties that the code shows. *)

From Stdlib Require Import ZArith List String Ascii Bool Lia.
From Stdlib Require Import SpecFloat.
From Stdlib Require Import DecimalString DecimalFacts DecimalPos DecimalN DecimalZ.
Import ListNotations.

Set Warnings "-register-all".

Local Open Scope string_scope.
Local Open Scope list_scope.

(* ================================================================== *)
(** * JavaScript strings and arrays, as far as the handler uses them *)
(* ================================================================== *)

Module JS.

(** [s.split(sep)] for a one-character separator.  The result is never
    empty: [''.split(',')] is [['']]. *)
Fixpoint split (sep : ascii) (s : string) : list string :=
  match s with
  | EmptyString => [EmptyString]
  | String c r =>
      if Ascii.eqb c sep then EmptyString :: split sep r
      else match split sep r with
           | h :: t => String c h :: t
           | [] => [String c EmptyString]
           end
  end.

(** [arr.join(sep)] on an array of strings. *)
Definition join (sep : string) (l : list string) : string :=
  String.concat sep l.

(** [arr[i]]: [undefined] (here [None]) outside the array. *)
Definition index {A} (l : list A) (i : Z) : option A :=
  if (i <? 0)%Z then None else nth_error l (Z.to_nat i).

(** [arr.slice(-1)]: the array of the last element, empty on the empty
    array. *)
Definition slice_last {A} (l : list A) : list A :=
  skipn (List.length l - 1) l.

(** [fill.repeat(n)] for a one-character [fill]. *)
Fixpoint repeat_char (c : ascii) (n : nat) : string :=
  match n with
  | O => EmptyString
  | S k => String c (repeat_char c k)
  end.

(** [s.padStart(n, fill)] for a one-character [fill]: nothing is added to
    a string that is already [n] characters or longer. *)
Definition padStart (n : nat) (fill : ascii) (s : string) : string :=
  (repeat_char fill (n - String.length s) ++ s)%string.

(** [Number.prototype.toString()] on an integer value: decimal digits
    with a leading minus sign for negative numbers. *)
Definition toString (z : Z) : string :=
  NilZero.string_of_int (Z.to_int z).

(** [s.slice(-1)]: the last character, as a string. *)
Fixpoint last_char (s : string) : string :=
  match s with
  | EmptyString => EmptyString
  | String c EmptyString => s
  | String _ r => last_char r
  end.

(** [s.indexOf(p) === 0]. *)
Definition startsWith (p s : string) : bool := String.prefix p s.

(** Membership of a character in a string, used for the side conditions
    of the string lemmas. *)
Fixpoint contains (c : ascii) (s : string) : bool :=
  match s with
  | EmptyString => false
  | String d r => Ascii.eqb d c || contains c r
  end.

Fixpoint forall_chars (p : ascii -> bool) (s : string) : bool :=
  match s with
  | EmptyString => true
  | String c r => p c && forall_chars p r
  end.

Definition in_range (lo hi c : ascii) : bool :=
  (nat_of_ascii lo <=? nat_of_ascii c)%nat && (nat_of_ascii c <=? nat_of_ascii hi)%nat.

(** The characters of a decimal numeral, and a string without the zeros
    it starts with: both serve to tell padded numbers apart. *)
Definition numeral_char (c : ascii) : bool :=
  Ascii.eqb c "-" || in_range "0" "9" c.

Fixpoint strip0 (s : string) : string :=
  match s with
  | String c r => if Ascii.eqb c "0" then strip0 r else s
  | EmptyString => EmptyString
  end.

End JS.

(* ================================================================== *)
(** * JavaScript numbers *)
(* ================================================================== *)

(** A [Number] is an IEEE 754 double: [spec_float] with a precision of 53
    bits and [emax = 1024], and the operations that the Standard Library
    specifies for it, each rounding to nearest, ties to even. *)
Module JSNumber.
Local Open Scope Z_scope.

Definition prec : Z := 53.
Definition emax : Z := 1024.

Definition Number : Type := spec_float.

(** The [Number] of an integer: the nearest double, as [JSON.parse] gives
    it for an integer literal, and the integer itself for the length of
    an array. *)
Definition ofZ (z : Z) : Number := binary_normalize prec emax z 0 false.

(** [x * y], [x + y] and [x / y]. *)
Definition mul : Number -> Number -> Number := SFmul prec emax.
Definition add : Number -> Number -> Number := SFadd prec emax.
Definition div : Number -> Number -> Number := SFdiv prec emax.

(** [Math.floor(x)] as an integer; [None] for [NaN] and the infinities,
    which are no index of an array. *)
Definition floor (x : Number) : option Z :=
  match x with
  | S754_zero _ => Some 0
  | S754_finite s m e => Some (Z.shiftl (cond_Zopp s (Z.pos m)) e)
  | _ => None
  end.

(** [ToIntegerOrInfinity(x)] for a finite [x]: the fraction is dropped. *)
Definition truncate (x : Number) : option Z :=
  match x with
  | S754_zero _ => Some 0
  | S754_finite s m e => Some (cond_Zopp s (Z.shiftl (Z.pos m) e))
  | _ => None
  end.

(** [abs(x) > bound] for a finite [x], compared exactly. *)
Definition exceeds (x : Number) (bound : Z) : bool :=
  match x with
  | S754_finite _ m e =>
      if 0 <=? e then bound <? Z.pos m * 2 ^ e
      else bound * 2 ^ (- e) <? Z.pos m
  | _ => false
  end.

(** The values of [Math.random()]: the doubles from [+0] up to, and
    without, 1. *)
Definition in_unit_interval (r : Number) : bool :=
  valid_binary prec emax r && SFleb (S754_zero false) r && SFltb r (ofZ 1).

(** A value of [Math.random()] with which [Math.floor(random * n)] is
    [i]: [(i + 1/2) / n], cut off after 52 binary places. *)
Definition selecting (i n : Z) : Number :=
  binary_normalize prec emax ((2 * i + 1) * 2 ^ 51 / n) (-52) false.

(** What [k] right shifts leave of the mantissa [P]: the quotient, the
    bit shifted out last and whether a bit was set among those shifted
    out before it. *)
Definition shifted (P k : Z) (mrs : shr_record) : Prop :=
  0 <= shr_m mrs
  /\ exists t,
      0 <= t < 2 ^ k
      /\ 2 * P = (2 * shr_m mrs + Z.b2z (shr_r mrs)) * 2 ^ k + t
      /\ (shr_s mrs = true <-> 0 < t).

(** The number [x] is [m * 2 ^ e]. *)
Definition represents (x : Number) (m e : Z) : Prop :=
  match x with
  | S754_zero _ => m = 0
  | S754_finite false m' e' => e <= e' /\ m = Z.pos m' * 2 ^ (e' - e)
  | _ => False
  end.

End JSNumber.

(* ================================================================== *)
(** * The ECMAScript time value and its UTC calendar fields *)
(* ================================================================== *)

Module JSDate.
Local Open Scope Z_scope.

Definition msPerDay : Z := 86400000.
Definition maxTime : Z := 8640000000000000.

(** [TimeClip]: a time that is not finite, or further than 8.64e15 ms
    from the epoch, is [NaN], and the [Date] is then an invalid date,
    here [None]; any other time is truncated towards zero. *)
Definition TimeClip (time : JSNumber.Number) : option Z :=
  if JSNumber.exceeds time maxTime then None else JSNumber.truncate time.

Definition Day (t : Z) : Z := t / msPerDay.
Definition TimeWithinDay (t : Z) : Z := t mod msPerDay.

Definition DaysInYear (y : Z) : Z :=
  if negb (y mod 4 =? 0) then 365
  else if negb (y mod 100 =? 0) then 366
  else if negb (y mod 400 =? 0) then 365
  else 366.

Definition DayFromYear (y : Z) : Z :=
  365 * (y - 1970) + (y - 1969) / 4 - (y - 1901) / 100 + (y - 1601) / 400.

(** [YearFromTime]: the largest [y] with [DayFromYear y <= Day t].  The
    mean Gregorian year has 146097/400 days, which places the year within
    one of the estimate [y0]. *)
Definition YearFromDay (d : Z) : Z :=
  let y0 := 1970 + (d * 400) / 146097 in
  if DayFromYear (y0 + 1) <=? d then y0 + 1
  else if DayFromYear y0 <=? d then y0
  else y0 - 1.

Definition YearFromTime (t : Z) : Z := YearFromDay (Day t).

Definition InLeapYear (t : Z) : Z :=
  if DaysInYear (YearFromTime t) =? 366 then 1 else 0.

Definition DayWithinYear (t : Z) : Z :=
  Day t - DayFromYear (YearFromTime t).

(** [MonthFromTime]: 0 is January. *)
Definition MonthFromTime (t : Z) : Z :=
  let d := DayWithinYear t in
  let l := InLeapYear t in
  if d <? 31 then 0
  else if d <? 59 + l then 1
  else if d <? 90 + l then 2
  else if d <? 120 + l then 3
  else if d <? 151 + l then 4
  else if d <? 181 + l then 5
  else if d <? 212 + l then 6
  else if d <? 243 + l then 7
  else if d <? 273 + l then 8
  else if d <? 304 + l then 9
  else if d <? 334 + l then 10
  else 11.

Definition DateFromTime (t : Z) : Z :=
  let d := DayWithinYear t in
  let l := InLeapYear t in
  match MonthFromTime t with
  | 0 => d + 1
  | 1 => d - 30
  | 2 => d - 58 - l
  | 3 => d - 89 - l
  | 4 => d - 119 - l
  | 5 => d - 150 - l
  | 6 => d - 180 - l
  | 7 => d - 211 - l
  | 8 => d - 242 - l
  | 9 => d - 272 - l
  | 10 => d - 303 - l
  | _ => d - 333 - l
  end.

Definition HourFromTime (t : Z) : Z := (TimeWithinDay t / 3600000) mod 24.
Definition MinFromTime (t : Z) : Z := (TimeWithinDay t / 60000) mod 60.
Definition SecFromTime (t : Z) : Z := (TimeWithinDay t / 1000) mod 60.
Definition msFromTime (t : Z) : Z := TimeWithinDay t mod 1000.

(** A [Date] object: its time value, or [None] for an invalid date. *)
Definition Date : Type := option Z.

(** [new Date(seconds * 1000 + nanos / 1000000)]: the product, the
    quotient and the sum are operations on doubles, each rounded to
    nearest, and the constructor clips the sum. *)
Definition ofSecondsNanos (seconds nanos : Z) : Date :=
  TimeClip
    (JSNumber.add
       (JSNumber.mul (JSNumber.ofZ seconds) (JSNumber.ofZ 1000))
       (JSNumber.div (JSNumber.ofZ nanos) (JSNumber.ofZ 1000000))).

Definition getUTCFullYear (t : Z) : Z := YearFromTime t.
Definition getUTCMonth (t : Z) : Z := MonthFromTime t.
Definition getUTCDate (t : Z) : Z := DateFromTime t.

(** The UTC calendar day of a time value, as the three getters give it. *)
Definition utc_day (t : Z) : Z * Z * Z :=
  (getUTCFullYear t, getUTCMonth t, getUTCDate t).

Definition pad (n : nat) (z : Z) : string :=
  JS.padStart n "0"%char (JS.toString z).

(** [Date.prototype.toISOString] on a valid time value: four digits for
    the years 0 to 9999, a sign and six digits otherwise. *)
Definition toISOString (t : Z) : string :=
  let y := YearFromTime t in
  let sign := if y <? 0 then "-"%string else "+"%string in
  let ys := if (0 <=? y) && (y <=? 9999) then pad 4 y
            else (sign ++ pad 6 (Z.abs y))%string in
  (ys ++ "-" ++ pad 2 (MonthFromTime t + 1) ++ "-" ++ pad 2 (DateFromTime t)
      ++ "T" ++ pad 2 (HourFromTime t) ++ ":" ++ pad 2 (MinFromTime t)
      ++ ":" ++ pad 2 (SecFromTime t) ++ "." ++ pad 3 (msFromTime t)
      ++ "Z")%string.

End JSDate.

(* ================================================================== *)
(** * The metadata Lambda: [snapshotMetadata.ts] *)
(* ================================================================== *)

Module SnapshotMetadata.

(** ** Data *)

Record Tag := { Key : string; Value : string }.

(** [interface BackupEvent], flattened: the fields of
    [event.detail.serviceEventDetails].  [resourceType] is whatever
    string the event carries; [seconds] and [nanos] are the integers
    that the event is written with. *)
Record BackupEvent := {
  backupJobId : string;
  backupVaultName : string;
  resourceType : string;
  resourceArn : string;
  recoveryPointArn : string;
  state : string;
  creationDate_seconds : Z;
  creationDate_nanos : Z
}.

(** [interface SnapshotMetadata].  The two fields that the handler reads
    out of an array by index are [undefined] when the index is outside
    the array, hence the options. *)
Record SnapshotMetadata := {
  AvailabilityZone : option string;
  SnapshotArn : string;
  SnapshotId : option string;
  ResourceType : string;
  BackupVaultName : string;
  ResourceArn : string;
  S3BucketName : string;
  S3Prefix : string;
  CreationDate : string;
  Tags : list Tag;
  Engine : string
}.

(** ** The outside world *)

(** The settlement of an SDK promise. *)
Inductive Response (A : Type) :=
| Fulfilled (a : A)
| Rejected (code : string).
Arguments Fulfilled {A} a.
Arguments Rejected {A} code.

(** What the handler reads from outside: the process environment, the
    value of [Math.random()] and the answers of the four services. *)
Record World := {
  env_VALIDAZS : option string;
  env_BUCKET : option string;
  Math_random : JSNumber.Number;
  s3_listBuckets : Response (list string);
  ec2_describeTags : option string -> Response (list Tag);
  rds_describeDBClusterSnapshots : string -> Response (list string);
  rds_describeDBSnapshots : string -> Response (list string);
  rds_listTagsForResource : string -> Response (list Tag);
  ddb_listTagsOfResource : string -> Response (list Tag)
}.

(** The requests the handler sends. *)
Inductive Call :=
| S3_listBuckets
| EC2_describeTags (resource_id : option string)
| RDS_describeDBClusterSnapshots (identifier : string)
| RDS_describeDBSnapshots (identifier : string)
| RDS_listTagsForResource (resource_name : string)
| DDB_listTagsOfResource (arn : string).

(** ** Exceptions *)

Inductive JSError :=
| Error (message : string)
| AssertionError
| TypeError (message : string)
| RangeError (message : string)
| ServiceError (code : string).

Inductive Result (A : Type) :=
| Return (a : A)
| Throw (e : JSError).
Arguments Return {A} a.
Arguments Throw {A} e.

(** ** The handler's state *)

(** The two [let] variables that the [switch] assigns. *)
Record Locals := { tags : list Tag; engine : string }.

(** A reaction registered with [Promise.all([metadataPromise,
    tagdataPromise]).then(...)]: it holds the settlements of the two
    promises and runs as a job of its own, after the code that
    registered it has run to its next suspension or to completion. *)
Record Reaction := {
  metadata : Response (list string);
  tagdata : Response (list Tag)
}.

Record HState := {
  locals : Locals;
  calls : list Call;
  jobs : list Reaction
}.

Definition initial : HState :=
  {| locals := {| tags := []; engine := "" |}; calls := []; jobs := [] |}.

(** ** A state and exception monad for the body of the [async] function *)

Definition M (A : Type) : Type := HState -> Result A * HState.

Definition ret {A} (a : A) : M A := fun s => (Return a, s).
Definition throw {A} (e : JSError) : M A := fun s => (Throw e, s).
Definition bind {A B} (m : M A) (k : A -> M B) : M B :=
  fun s => match m s with
           | (Return a, s') => k a s'
           | (Throw e, s') => (Throw e, s')
           end.

Declare Scope js_scope.
Delimit Scope js_scope with js.
Notation "x <- m ;; k" := (bind m (fun x => k))
  (at level 61, m at next level, right associativity) : js_scope.
Notation "m ;; k" := (bind m (fun _ => k))
  (at level 61, right associativity) : js_scope.
Local Open Scope js_scope.

Definition log (c : Call) : M unit :=
  fun s => (Return tt,
            {| locals := locals s; calls := calls s ++ [c]; jobs := jobs s |}).

(** [request.promise()]: the request is sent. *)
Definition send (c : Call) : M unit := log c.

(** The callback of the [then]:
    [engine = metadata.DB...Snapshots![0].Engine; tags = tagdata.TagList!].
    It runs only when both promises are fulfilled; reading [Engine] off a
    missing first element throws inside the callback, before either
    assignment. *)
Definition react (r : Reaction) (l : Locals) : Locals :=
  match metadata r, tagdata r with
  | Fulfilled (e :: _), Fulfilled t => {| tags := t; engine := e |}
  | _, _ => l
  end.

(** The variables once every registered reaction has run. *)
Definition settle (s : HState) : Locals :=
  fold_left (fun l r => react r l) (jobs s) (locals s).

(** The function is suspended: the reactions registered so far run. *)
Definition suspend : M unit :=
  fun s => (Return tt,
            {| locals := settle s; calls := calls s; jobs := [] |}).

(** [await request.promise()]: the request is sent, the function is
    suspended and resumes with the answer, or throws the rejection. *)
Definition await {A} (c : Call) (r : Response A) : M A :=
  send c ;;
  suspend ;;
  match r with
  | Fulfilled a => ret a
  | Rejected code => throw (ServiceError code)
  end.

Definition assert (b : bool) : M unit :=
  if b then ret tt else throw AssertionError.

Definition get_locals : M Locals := fun s => (Return (locals s), s).

Definition set_tags (t : list Tag) : M unit :=
  fun s => (Return tt,
            {| locals := {| tags := t; engine := engine (locals s) |};
               calls := calls s; jobs := jobs s |}).

Definition then_ (r : Reaction) : M unit :=
  fun s => (Return tt,
            {| locals := locals s; calls := calls s; jobs := jobs s ++ [r] |}).

(** ** Validation *)

(** The character class [[a-zA-Z0-9\-\_]]. *)
Definition vault_char (c : ascii) : bool :=
  JS.in_range "a" "z" c || JS.in_range "A" "Z" c || JS.in_range "0" "9" c
  || Ascii.eqb c "-" || Ascii.eqb c "_".

(** [/^[a-zA-Z0-9\-\_]{2,50}$/.test(s)] *)
Definition vault_name_ok (s : string) : bool :=
  (2 <=? String.length s)%nat && (String.length s <=? 50)%nat
  && JS.forall_chars vault_char s.

(** [ARN.validate] of [@aws-sdk/util-arn-parser], a dependency of the
    handler: [str.indexOf("arn:") === 0 && str.split(":").length >= 6]. *)
Definition ARN_validate (s : string) : bool :=
  JS.startsWith "arn:" s && (6 <=? List.length (JS.split ":" s))%nat.

(** [checkBucketOwner]: the bucket is among those [listBuckets] returns. *)
Definition checkBucketOwner (w : World) (bucket : string) : M bool :=
  data <- await S3_listBuckets (s3_listBuckets w) ;;
  ret (existsb (String.eqb bucket) data).

(** ** The returned fields *)

(** [azlist[Math.floor(Math.random() * azlist.length)]] *)
Definition pick_az (random : JSNumber.Number) (azlist : list string)
  : option string :=
  match JSNumber.floor
          (JSNumber.mul random
             (JSNumber.ofZ (Z.of_nat (List.length azlist)))) with
  | Some i => JS.index azlist i
  | None => None
  end.

(** [recoveryPointArn.split("/").slice(-1)[0]] *)
Definition snapshot_id (recoveryPointArn : string) : option string :=
  JS.index (JS.slice_last (JS.split "/" recoveryPointArn)) 0.

(** The [S3Prefix] expression on a valid creation date. *)
Definition s3_prefix (resourceArn : string) (t : Z) (backupJobId : string)
  : string :=
  JS.join "/"
    (JS.split ":" resourceArn
     ++ [ ("Y=" ++ JS.padStart 4 "0" (JS.toString (JSDate.getUTCFullYear t)))%string;
          ("M=" ++ JS.padStart 2 "0" (JS.toString (JSDate.getUTCMonth t + 1)))%string;
          ("D=" ++ JS.padStart 2 "0" (JS.toString (JSDate.getUTCDate t)))%string;
          backupJobId ]).

(** The object of the [return] statement: [azlist], the bucket name and
    the time value of [creationDate] as computed before it, [l] the
    variables [tags] and [engine] as they are when it runs. *)
Definition returned (w : World) (event : BackupEvent) (azlist : list string)
  (bucket : string) (t : Z) (l : Locals) : SnapshotMetadata :=
  {| AvailabilityZone := pick_az (Math_random w) azlist;
     SnapshotArn := recoveryPointArn event;
     SnapshotId := snapshot_id (recoveryPointArn event);
     BackupVaultName := backupVaultName event;
     ResourceArn := resourceArn event;
     ResourceType := resourceType event;
     S3BucketName := bucket;
     S3Prefix := s3_prefix (resourceArn event) t (backupJobId event);
     CreationDate := JSDate.toISOString t;
     Tags := tags l;
     Engine := engine l |}.

(** The state in which [fetch] starts: [listBuckets] is the one request
    sent so far. *)
Definition listed : HState :=
  {| locals := {| tags := []; engine := "" |};
     calls := [S3_listBuckets];
     jobs := [] |}.

(** The world with another value of [Math.random()]. *)
Definition with_random (r : JSNumber.Number) (w : World) : World :=
  {| env_VALIDAZS := env_VALIDAZS w;
     env_BUCKET := env_BUCKET w;
     Math_random := r;
     s3_listBuckets := s3_listBuckets w;
     ec2_describeTags := ec2_describeTags w;
     rds_describeDBClusterSnapshots := rds_describeDBClusterSnapshots w;
     rds_describeDBSnapshots := rds_describeDBSnapshots w;
     rds_listTagsForResource := rds_listTagsForResource w;
     ddb_listTagsOfResource := ddb_listTagsOfResource w |}.

(** ** [exports.metadataHandler] *)

(** The [switch] on the resource type. *)

Definition fetch (w : World) (event : BackupEvent) : M unit :=
  let arn := resourceArn event in
  if resourceType event =? "EBS" then
    data <- await (EC2_describeTags (JS.index (JS.split "/" arn) 1))
                  (ec2_describeTags w (JS.index (JS.split "/" arn) 1)) ;;
    set_tags data
  else if resourceType event =? "Aurora" then
    send (RDS_describeDBClusterSnapshots arn) ;;
    send (RDS_listTagsForResource arn) ;;
    then_ {| metadata := rds_describeDBClusterSnapshots w arn;
             tagdata := rds_listTagsForResource w arn |}
  else if resourceType event =? "RDS" then
    send (RDS_describeDBSnapshots arn) ;;
    send (RDS_listTagsForResource arn) ;;
    then_ {| metadata := rds_describeDBSnapshots w arn;
             tagdata := rds_listTagsForResource w arn |}
  else if resourceType event =? "DynamoDB" then
    data <- await (DDB_listTagsOfResource arn) (ddb_listTagsOfResource w arn) ;;
    set_tags data
  else
    throw (Error ("Invalid resourceType: " ++ resourceType event)%string).

(** The [typeof] assertions of the source hold by the types of the fields
    of [BackupEvent]; the other three are checked in the order of the
    source. *)
Definition metadataHandler (w : World) (event : BackupEvent)
  : M SnapshotMetadata :=
  if state event =? "COMPLETED" then
    azlist <- match env_VALIDAZS w with
              | Some v => ret (JS.split "," v)
              | None => throw (TypeError "Cannot read properties of undefined")
              end ;;
    assert (vault_name_ok (backupVaultName event)) ;;
    assert (ARN_validate (resourceArn event)) ;;
    assert (ARN_validate (recoveryPointArn event)) ;;
    bucket <- match env_BUCKET w with
              | Some b =>
                  owned <- checkBucketOwner w b ;;
                  if owned then ret b
                  else throw (Error ("Backup bucket " ++ b
                                     ++ " is not owned by this account.")%string)
              | None =>
                  _ <- await S3_listBuckets (s3_listBuckets w) ;;
                  throw (Error
                    "Backup bucket undefined is not owned by this account.")
              end ;;
    let creationDate :=
      JSDate.ofSecondsNanos (creationDate_seconds event)
                            (creationDate_nanos event) in
    fetch w event ;;
    l <- get_locals ;;
    match creationDate with
    | Some t =>
        ret (returned w event azlist bucket t l)
    | None => throw (RangeError "Invalid time value")
    end
  else
    throw (Error ("Backup job " ++ backupJobId event
                  ++ " terminated in state " ++ state event)%string).

(** One invocation: the returned promise's settlement and the final
    state (requests sent, reactions still to run). *)
Definition invoke (w : World) (event : BackupEvent)
  : Result SnapshotMetadata * HState :=
  metadataHandler w event initial.

End SnapshotMetadata.

(* ================================================================== *)
(** * Amazon States Language: the states the CDK constructs render to *)
(* ================================================================== *)

Module ASL.

(** ** JSON documents and reference paths *)

Inductive json :=
| JString (s : string)
| JNumber (n : Z)
| JObject (fields : list (string * json))
| JArray (items : list json).

Inductive segment :=
| Key (k : string)
| Idx (i : nat).

Fixpoint all_some {A} (l : list (option A)) : option (list A) :=
  match l with
  | [] => Some []
  | Some a :: r => option_map (cons a) (all_some r)
  | None :: _ => None
  end.

(** ["0]"], the part of [name[0]] after the bracket. *)
Definition parse_index (s : string) : option segment :=
  match JS.split "]" s with
  | [d; EmptyString] =>
      option_map (fun u => Idx (Nat.of_uint u)) (NilZero.uint_of_string d)
  | _ => None
  end.

Definition parse_segment (s : string) : option (list segment) :=
  match JS.split "[" s with
  | name :: idxs =>
      option_map (cons (Key name)) (all_some (map parse_index idxs))
  | [] => None
  end.

(** ["$"], ["$.a.b"], ["$.a[0].b"]; [root] is ["$"] for a path into the
    state input and ["$$"] for a path into the context object. *)
Definition parse_path (root p : string) : option (list segment) :=
  match JS.split "." p with
  | r :: segs =>
      if String.eqb r root then
        option_map (@List.concat segment) (all_some (map parse_segment segs))
      else None
  | [] => None
  end.

Fixpoint assoc (k : string) (fields : list (string * json)) : option json :=
  match fields with
  | [] => None
  | (k', v) :: r => if String.eqb k k' then Some v else assoc k r
  end.

Fixpoint set_field (k : string) (v : json) (fields : list (string * json))
  : list (string * json) :=
  match fields with
  | [] => [(k, v)]
  | (k', v') :: r =>
      if String.eqb k k' then (k, v) :: r else (k', v') :: set_field k v r
  end.

Fixpoint get (p : list segment) (d : json) : option json :=
  match p with
  | [] => Some d
  | Key k :: q =>
      match d with
      | JObject fields =>
          match assoc k fields with Some v => get q v | None => None end
      | _ => None
      end
  | Idx i :: q =>
      match d with
      | JArray items =>
          match nth_error items i with Some v => get q v | None => None end
      | _ => None
      end
  end.

(** Writing [v] at a path of keys, as [ResultPath] does: objects missing
    on the way are created; a node on the way that is not an object
    cannot take the field. *)
Fixpoint put (p : list segment) (v : json) (d : json) : option json :=
  match p with
  | [] => Some v
  | Key k :: q =>
      match d with
      | JObject fields =>
          let old := match assoc k fields with
                     | Some o => o
                     | None => JObject []
                     end in
          option_map (fun n => JObject (set_field k n fields)) (put q v old)
      | _ => None
      end
  | Idx _ :: _ => None
  end.

Definition lookup (path : string) (d : json) : option json :=
  match parse_path "$" path with
  | Some p => get p d
  | None => None
  end.

Definition lookup_context (path : string) (ctx : json) : option json :=
  match parse_path "$$" path with
  | Some p => get p ctx
  | None => None
  end.

Definition store (path : string) (v : json) (d : json) : option json :=
  match parse_path "$" path with
  | Some p => put p v d
  | None => None
  end.

(** ** Choice conditions ([sfn.Condition]) *)

Inductive Condition :=
| stringEquals (variable value : string)
| isPresent (variable : string)
| isNotPresent (variable : string)
| and_ (a b : Condition)
| or_ (a b : Condition).

(** [None]: the variable of a comparison is not in the input, which
    fails the execution with [States.Runtime]. *)
Fixpoint holds (c : Condition) (d : json) : option bool :=
  match c with
  | stringEquals variable value =>
      match lookup variable d with
      | Some (JString s) => Some (String.eqb s value)
      | Some _ => Some false
      | None => None
      end
  | isPresent variable =>
      Some (match lookup variable d with Some _ => true | None => false end)
  | isNotPresent variable =>
      Some (match lookup variable d with Some _ => false | None => true end)
  | and_ a b =>
      match holds a d with
      | Some true => holds b d
      | r => r
      end
  | or_ a b =>
      match holds a d with
      | Some false => holds b d
      | r => r
      end
  end.

(** ** Task parameters *)

Inductive Expr :=
| Lit (v : json)
| Ref (path : string)
| Ctx (path : string)
| Format (template : string) (args : list Expr)
| Array (args : list Expr)
| Obj (fields : list (string * Expr)).

(** [States.Format]: each [{}] takes the next argument. *)
Fixpoint format (template : string) (args : list string) : string :=
  match template with
  | EmptyString => EmptyString
  | String c r =>
      match r with
      | String d r' =>
          if Ascii.eqb c "{" && Ascii.eqb d "}" then
            match args with
            | a :: rest => (a ++ format r' rest)%string
            | [] => format r' []
            end
          else String c (format r args)
      | EmptyString => String c EmptyString
      end
  end.

Definition as_string (j : json) : option string :=
  match j with JString s => Some s | _ => None end.

Fixpoint eval (ctx input : json) (e : Expr) : option json :=
  match e with
  | Lit v => Some v
  | Ref path => lookup path input
  | Ctx path => lookup_context path ctx
  | Format template args =>
      match all_some (map (eval ctx input) args) with
      | Some vs =>
          option_map (fun l => JString (format template l))
                     (all_some (map as_string vs))
      | None => None
      end
  | Array args => option_map JArray (all_some (map (eval ctx input) args))
  | Obj fields =>
      option_map JObject
        ((fix go (l : list (string * Expr)) : option (list (string * json)) :=
            match l with
            | [] => Some []
            | (k, x) :: r =>
                match eval ctx input x, go r with
                | Some v, Some vs => Some ((k, v) :: vs)
                | _, _ => None
                end
            end) fields)
  end.

(** ** States *)

(** [addRetry]: interval and back-off rate only space the attempts out
    and are left out. *)
Record Retrier := { retry_errors : list string; maxAttempts : nat }.

(** [addRetry()] without properties. *)
Definition default_retry : Retrier :=
  {| retry_errors := ["States.ALL"]; maxAttempts := 3 |}.

Record Catcher (S : Type) := {
  catch_errors : list string;
  catch_resultPath : string;
  handler : S
}.
Arguments catch_errors {S} _.
Arguments catch_resultPath {S} _.
Arguments handler {S} _.

(** [addCatch(handler, props)]: every error and [ResultPath] ["$"] unless
    [props] says otherwise. *)
Definition catch_all {S} (h : S) : Catcher S :=
  {| catch_errors := ["States.ALL"]; catch_resultPath := "$"; handler := h |}.

Record TaskProps (S : Type) := {
  service : string;
  action : string;
  inputPath : string;
  parameters : option Expr;
  resultSelector : option Expr;
  resultPath : string;
  retry : list Retrier;
  catch : list (Catcher S);
  next : S
}.
Arguments service {S} _.
Arguments action {S} _.
Arguments inputPath {S} _.
Arguments parameters {S} _.
Arguments resultSelector {S} _.
Arguments resultPath {S} _.
Arguments retry {S} _.
Arguments catch {S} _.
Arguments next {S} _.

Inductive State (S : Type) :=
| Task (props : TaskProps S)
| Choice (rules : list (Condition * S)) (otherwise : option S)
| Wait (seconds : Z) (then_ : S)
| Succeed
| Fail.
Arguments Task {S} props.
Arguments Choice {S} rules otherwise.
Arguments Wait {S} seconds then_.
Arguments Succeed {S}.
Arguments Fail {S}.

(** ** Executions *)

(** What the integrated service answers to one attempt of a task. *)
Inductive Response :=
| Success (output : json)
| Failure (error cause : string).

Inductive Event :=
| Called (service action : string) (arguments : json) (answer : Response)
| Slept (seconds : Z).

(** How an execution ends: in a [Succeed] state, in a [Fail] state, or
    with an error that no state handles. *)
Inductive Outcome (S : Type) :=
| Succeeded (s : S) (output : json)
| FailedState (s : S)
| Aborted (s : S) (error : string).
Arguments Succeeded {S} s output.
Arguments FailedState {S} s.
Arguments Aborted {S} s error.

Inductive Step (S : Type) :=
| Next (s : S) (data : json) (events : list Event) (rest : list Response)
| Done (o : Outcome S) (events : list Event)
| Blocked (events : list Event).
Arguments Next {S} s data events rest.
Arguments Done {S} o events.
Arguments Blocked {S} events.

(** [States.ALL] matches every error name but the two that can be
    neither retried nor caught. *)
Definition error_matches (e pattern : string) : bool :=
  String.eqb pattern e
  || (String.eqb pattern "States.ALL"
      && negb (String.eqb e "States.Runtime")
      && negb (String.eqb e "States.DataLimitExceeded")).

Definition matches_any (e : string) (patterns : list string) : bool :=
  existsb (error_matches e) patterns.

(** The first retrier that matches decides: the attempts it has left,
    one fewer afterwards; [None] once it is used up or when no retrier
    matches. *)
Fixpoint consume (e : string) (rs : list Retrier) (left : list nat)
  : option (list nat) :=
  match rs, left with
  | r :: rs', n :: left' =>
      if matches_any e (retry_errors r) then
        match n with
        | O => None
        | Datatypes.S k => Some (k :: left')
        end
      else option_map (cons n) (consume e rs' left')
  | _, _ => None
  end.

(** The attempts of one task: each takes the next answer of the service;
    the task is done with the first success or the first failure that is
    not retried. *)
Fixpoint attempts (sv ac : string) (args : json) (rs : list Retrier)
  (left : list nat) (answers : list Response)
  : list Event * option (Response * list Response) :=
  match answers with
  | [] => ([], None)
  | a :: rest =>
      match a with
      | Success _ => ([Called sv ac args a], Some (a, rest))
      | Failure e _ =>
          match consume e rs left with
          | Some left' =>
              let (evs, r) := attempts sv ac args rs left' rest in
              (Called sv ac args a :: evs, r)
          | None => ([Called sv ac args a], Some (a, rest))
          end
      end
  end.

Fixpoint first_catcher {S} (e : string) (cs : list (Catcher S))
  : option (Catcher S) :=
  match cs with
  | [] => None
  | c :: r => if matches_any e (catch_errors c) then Some c
              else first_catcher e r
  end.

Fixpoint first_rule {S} (rules : list (Condition * S)) (d : json)
  : option (option S) :=
  match rules with
  | [] => Some None
  | (c, s) :: r =>
      match holds c d with
      | Some true => Some (Some s)
      | Some false => first_rule r d
      | None => None
      end
  end.

Definition error_output (e cause : string) : json :=
  JObject [("Error", JString e); ("Cause", JString cause)].

Section Interpreter.
Context {S : Type}.
Variable def : S -> State S.
Variable ctx : json.

Definition runtime (s : S) : Step S := Done (Aborted s "States.Runtime") [].

Definition task_input (t : TaskProps S) (d : json) : option json :=
  match lookup (inputPath t) d with
  | Some input =>
      match parameters t with
      | Some e => eval ctx input e
      | None => Some input
      end
  | None => None
  end.

Definition task_result (t : TaskProps S) (d out : json) : option json :=
  match resultSelector t with
  | Some e =>
      match eval ctx out e with
      | Some r => store (resultPath t) r d
      | None => None
      end
  | None => store (resultPath t) out d
  end.

Definition step_task (s : S) (t : TaskProps S) (d : json)
  (answers : list Response) : Step S :=
  match task_input t d with
  | None => runtime s
  | Some args =>
      match attempts (service t) (action t) args (retry t)
                     (map maxAttempts (retry t)) answers with
      | (evs, None) => Blocked evs
      | (evs, Some (Success out, rest)) =>
          match task_result t d out with
          | Some d' => Next (next t) d' evs rest
          | None => Done (Aborted s "States.Runtime") evs
          end
      | (evs, Some (Failure e cause, rest)) =>
          match first_catcher e (catch t) with
          | Some c =>
              match store (catch_resultPath c) (error_output e cause) d with
              | Some d' => Next (handler c) d' evs rest
              | None => Done (Aborted s "States.Runtime") evs
              end
          | None => Done (Aborted s e) evs
          end
      end
  end.

Definition step (s : S) (d : json) (answers : list Response) : Step S :=
  match def s with
  | Task t => step_task s t d answers
  | Choice rules otherwise =>
      match first_rule rules d with
      | None => runtime s
      | Some (Some s') => Next s' d [] answers
      | Some None =>
          match otherwise with
          | Some s' => Next s' d [] answers
          | None => Done (Aborted s "States.NoChoiceMatched") []
          end
      end
  | Wait seconds s' => Next s' d [Slept seconds] answers
  | Succeed => Done (Succeeded s d) []
  | Fail => Done (FailedState s) []
  end.

(** An execution from state [s]: the events so far and, once a terminal
    state is reached, the outcome.  It is still under way ([None]) when
    the answers or the fuel run out first. *)
Fixpoint run (fuel : nat) (s : S) (d : json) (answers : list Response)
  : list Event * option (Outcome S) :=
  match fuel with
  | O => ([], None)
  | Datatypes.S fuel' =>
      match step s d answers with
      | Next s' d' evs rest =>
          let (tr, o) := run fuel' s' d' rest in (evs ++ tr, o)
      | Done o evs => (evs, Some o)
      | Blocked evs => (evs, None)
      end
  end.

End Interpreter.

(** The requests of a trace. *)
Definition is_call (sv ac : string) (e : Event) : bool :=
  match e with
  | Called sv' ac' _ _ => String.eqb sv sv' && String.eqb ac ac'
  | Slept _ => false
  end.

Definition issued (sv ac : string) (tr : list Event) : bool :=
  existsb (is_call sv ac) tr.

(** The requests of a trace that were answered with a success. *)
Definition is_success (sv ac : string) (e : Event) : bool :=
  match e with
  | Called sv' ac' _ (Success _) => String.eqb sv sv' && String.eqb ac ac'
  | _ => false
  end.

Definition succeeded (sv ac : string) (tr : list Event) : bool :=
  existsb (is_success sv ac) tr.

(** A result path that starts with a key other than [k]: writing there
    leaves the field [k] of the document alone. *)
Definition elsewhere (k path : string) : Prop :=
  exists k' q, parse_path "$" path = Some (Key k' :: q) /\ k' <> k.

(** A state that cannot work on the output of an error: it ends the
    execution at once. *)
Definition stops_on_error {S} (def : S -> State S) (ctx : json) (s : S)
  : Prop :=
  forall e cause answers,
  exists err evs,
    step def ctx s (error_output e cause) answers = Done (Aborted s err) evs.

End ASL.

(* ================================================================== *)
(** * The EBS export machine ([EBSBackupMachine]) *)
(* ================================================================== *)

Module EBSBackupMachine.
Import ASL.

Inductive state :=
| EBSRestoreTask
| EBSReadyTask
| EBSReadyChoice
| EBSReadyWait
| EBSBatchJobTask (az jobQueueArn : string)
| EBSCleanupTask
| EBSForceDetach
| EBSWaitDetach
| EBSCleanupResult
| EBSSucceed
| EBSFail
| EBSReadyFailed.

Section Definition_.
(** [props.tags], the entries of [props.jqs] (availability zone and the
    ARN of its job queue) and the ARN of the job definition. *)
Variable tags : list (string * string).
Variable jqs : list (string * string).
Variable jobDefinitionArn : string.

Definition voltags : json :=
  JArray (map (fun kv => JObject [("Key", JString (fst kv));
                                  ("Value", JString (snd kv))]) tags).

Definition ebsreadychoice : State state :=
  Choice
    (map (fun e =>
            (and_ (stringEquals "$.Ready.State" "available")
                  (stringEquals "$.AvailabilityZone" (fst e)),
             EBSBatchJobTask (fst e) (snd e))) jqs
     ++ [(stringEquals "$.Ready.State" "creating", EBSReadyWait)])
    (Some EBSReadyFailed).

Definition def (s : state) : State state :=
  match s with
  | EBSRestoreTask =>
      Task {| service := "ec2"; action := "createVolume";
              inputPath := "$";
              parameters := Some (Obj
                [("AvailabilityZone", Ref "$.AvailabilityZone");
                 ("SnapshotId", Ref "$.SnapshotId");
                 ("VolumeType", Lit (JString "gp3"));
                 ("TagSpecifications",
                  Lit (JArray [JObject [("ResourceType", JString "volume");
                                        ("Tags", voltags)]]))]);
              resultSelector := Some (Obj [("VolumeId", Ref "$.VolumeId")]);
              resultPath := "$.Restore";
              retry := [default_retry];
              catch := [];
              next := EBSReadyTask |}
  | EBSReadyTask =>
      Task {| service := "ec2"; action := "describeVolumes";
              inputPath := "$";
              parameters := Some (Obj
                [("VolumeIds", Array [Ref "$.Restore.VolumeId"])]);
              resultSelector := Some (Obj
                [("State", Ref "$.Volumes[0].State")]);
              resultPath := "$.Ready";
              retry := [];
              catch := [catch_all EBSCleanupTask];
              next := EBSReadyChoice |}
  | EBSReadyChoice => ebsreadychoice
  | EBSReadyWait => Wait 60 EBSReadyTask
  | EBSBatchJobTask az jobQueueArn =>
      Task {| service := "batch"; action := "submitJob.sync";
              inputPath := "$";
              parameters := Some (Obj
                [("JobDefinition", Lit (JString jobDefinitionArn));
                 ("JobName",
                  Lit (JString ("EBSBackupJob" ++ JS.last_char az)));
                 ("JobQueue", Lit (JString jobQueueArn));
                 ("Parameters", Obj
                   [("volume", Ref "$.Restore.VolumeId");
                    ("s3path", Format "s3://{}/{}"
                                 [Ref "$.S3BucketName"; Ref "$.S3Prefix"])]);
                 ("RetryStrategy",
                  Lit (JObject [("Attempts", JNumber 2)]))]);
              resultSelector := Some (Obj [("Status", Ref "$.Status")]);
              resultPath := "$.JobResult";
              retry := [];
              catch := [ {| catch_errors := ["States.ALL"];
                            catch_resultPath := "$.Error";
                            handler := EBSCleanupTask |} ];
              next := EBSCleanupTask |}
  | EBSCleanupTask =>
      Task {| service := "ec2"; action := "deleteVolume";
              inputPath := "$";
              parameters := Some (Obj
                [("VolumeId", Ref "$.Restore.VolumeId")]);
              resultSelector := None;
              resultPath := "$.DeleteVolume";
              retry := [default_retry];
              catch := [ {| catch_errors := ["VolumeInUse"];
                            catch_resultPath := "$";
                            handler := EBSForceDetach |} ];
              next := EBSCleanupResult |}
  | EBSForceDetach =>
      Task {| service := "ec2"; action := "detachVolume";
              inputPath := "$";
              parameters := Some (Obj
                [("VolumeId", Ref "$.Restore.VolumeId")]);
              resultSelector := None;
              resultPath := "$.DetachVolume";
              retry := [];
              catch := [];
              next := EBSWaitDetach |}
  | EBSWaitDetach => Wait 120 EBSCleanupTask
  | EBSCleanupResult =>
      Choice [(isNotPresent "$.Error", EBSSucceed);
              (isPresent "$.Error", EBSFail)] None
  | EBSSucceed => Succeed
  | EBSFail => Fail
  | EBSReadyFailed => Fail
  end.

(** [EBSRestoreTask.next(EBSReadyTask).next(ebsreadychoice)] *)
Definition start : state := EBSRestoreTask.

End Definition_.

(** The states up to and including [EBSCleanupTask], and the two ways
    an execution ends after [EBSCleanupResult]. *)
Definition before_cleanup (s : state) : bool :=
  match s with
  | EBSRestoreTask | EBSReadyTask | EBSReadyChoice | EBSReadyWait
  | EBSBatchJobTask _ _ | EBSCleanupTask => true
  | _ => false
  end.

Definition after_cleanup (o : Outcome state) : bool :=
  match o with
  | Succeeded _ _ => true
  | FailedState EBSFail => true
  | _ => false
  end.

End EBSBackupMachine.

(* ================================================================== *)
(** * The RDS and Aurora export machine ([RDSExportMachine]) *)
(* ================================================================== *)

Module RDSExportMachine.
Import ASL.

Inductive state :=
| RDSStartExportTask
| RDSExportStatusTask
| RDSExportStatus
| RDSExportWait
| RDSExportSucceed
| RDSExportFailed.

Section Definition_.
(** The ARN of the export role and of the bucket's key, if it has one. *)
Variable roleArn : string.
Variable encryptionKey : option string.

Definition def (s : state) : State state :=
  match s with
  | RDSStartExportTask =>
      Task {| service := "rds"; action := "startExportTask";
              inputPath := "$";
              parameters := Some (Obj
                [("ExportTaskIdentifier",
                  Format "acb-{}" [Ctx "$$.Execution.Name"]);
                 ("SourceArn", Ref "$.SnapshotArn");
                 ("IamRoleArn", Lit (JString roleArn));
                 ("KmsKeyId",
                  Lit (JString match encryptionKey with
                               | Some keyArn => keyArn
                               | None => "aws/s3"
                               end));
                 ("S3BucketName", Ref "$.S3BucketName");
                 ("S3Prefix", Ref "$.S3Prefix")]);
              resultSelector := Some (Obj
                [("ExportTaskIdentifier", Ref "$.ExportTaskIdentifier")]);
              resultPath := "$.Export";
              retry := [];
              catch := [];
              next := RDSExportStatusTask |}
  | RDSExportStatusTask =>
      Task {| service := "rds"; action := "describeExportTasks";
              inputPath := "$";
              parameters := Some (Obj
                [("ExportTaskIdentifier",
                  Ref "$.Export.ExportTaskIdentifier")]);
              resultSelector := Some (Obj
                [("ExportStatus", Ref "$.ExportTasks[0].Status")]);
              resultPath := "$.Status";
              retry := [];
              catch := [];
              next := RDSExportStatus |}
  | RDSExportWait => Wait (30 * 60) RDSExportStatusTask
  | RDSExportStatus =>
      Choice
        [(stringEquals "$.Status.ExportStatus" "COMPLETE",
          RDSExportSucceed);
         (or_ (stringEquals "$.Status.ExportStatus" "FAILED")
              (stringEquals "$.Status.ExportStatus" "CANCELED"),
          RDSExportFailed)]
        (Some RDSExportWait)
  | RDSExportSucceed => Succeed
  | RDSExportFailed => Fail
  end.

(** [RDSStartExportTask.next(RDSExportStatusTask.next(RDSExportStatus))] *)
Definition start : state := RDSStartExportTask.

End Definition_.

End RDSExportMachine.

(* ================================================================== *)
(** * The DynamoDB export machine ([DDBExportMachine]) *)
(* ================================================================== *)

Module DDBExportMachine.
Import ASL.

Inductive state :=
| DDBStartExportTask
| DDBExportStatusTask
| DDBExportStatus
| DDBExportWait
| DDBExportSucceed
| DDBExportFailed.

Section Definition_.
(** The ARN of the bucket's key. *)
Variable keyArn : string.

Definition def (s : state) : State state :=
  match s with
  | DDBStartExportTask =>
      Task {| service := "dynamodb"; action := "exportTableToPointInTime";
              inputPath := "$";
              parameters := Some (Obj
                [("TableArn", Ref "$.ResourceArn");
                 ("ExportTime", Ref "$.CreationDate");
                 ("ExportFormat", Lit (JString "DYNAMODB_JSON"));
                 ("S3Bucket", Ref "$.S3BucketName");
                 ("S3Prefix", Ref "$.S3Prefix");
                 ("S3SseAlgorithm", Lit (JString "KMS"));
                 ("S3SseKmsKeyId", Lit (JString keyArn))]);
              resultSelector := Some (Obj
                [("ExportArn", Ref "$.ExportDescription.ExportArn")]);
              resultPath := "$.Export";
              retry := [default_retry];
              catch := [];
              next := DDBExportStatusTask |}
  | DDBExportStatusTask =>
      Task {| service := "dynamodb"; action := "describeExport";
              inputPath := "$";
              parameters := Some (Obj
                [("ExportArn", Ref "$.Export.ExportArn")]);
              resultSelector := Some (Obj
                [("ExportStatus", Ref "$.ExportDescription.ExportStatus")]);
              resultPath := "$.Status";
              retry := [];
              catch := [];
              next := DDBExportStatus |}
  | DDBExportWait => Wait (30 * 60) DDBExportStatusTask
  | DDBExportStatus =>
      Choice
        [(stringEquals "$.Status.ExportStatus" "COMPLETED",
          DDBExportSucceed);
         (stringEquals "$.Status.ExportStatus" "IN_PROGRESS",
          DDBExportWait)]
        (Some DDBExportFailed)
  | DDBExportSucceed => Succeed
  | DDBExportFailed => Fail
  end.

(** [DDBStartExportTask.next(DDBExportStatusTask.next(DDBExportStatus))] *)
Definition start : state := DDBStartExportTask.

End Definition_.

End DDBExportMachine.

(* ================================================================== *)
(** * The outer workflow ([aws-backup-actions-stack.ts]) *)
(* ================================================================== *)

Module BackupActionsMachine.
Import ASL.

Inductive state :=
| MetadataTask
| SnapshotType
| RunEBSBackupMachine
| RunRDSExportMachine
| RunDDBExportMachine
| DeleteSnapshotTask
| SuccessState.

Section Definition_.
(** The context flag [auto-delete-snapshot] and the ARNs of the three
    export machines. *)
Variable autoDeleteSnapshot : bool.
Variable ebsmachine rdsmachine ddbmachine : string.

(** [tasks.LambdaInvoke] with [payloadResponseOnly], followed by
    [addRetry()]; the construct's own retrier for the exceptions of the
    Lambda service comes first. *)
Definition metadataTask : TaskProps state :=
  {| service := "lambda"; action := "invoke";
     inputPath := "$";
     parameters := None;
     resultSelector := None;
     resultPath := "$";
     retry := [ {| retry_errors :=
                     ["Lambda.ClientExecutionTimeoutException";
                      "Lambda.ServiceException";
                      "Lambda.AWSLambdaException";
                      "Lambda.SdkClientException"];
                   maxAttempts := 6 |};
                default_retry ];
     catch := [];
     next := SnapshotType |}.

Definition deleteSnapshotTask : TaskProps state :=
  {| service := "backup"; action := "deleteRecoveryPoint";
     inputPath := "$.Output";
     parameters := Some (Obj
       [("BackupVaultName", Ref "$.BackupVaultName");
        ("RecoveryPointArn", Ref "$.SnapshotArn")]);
     resultSelector := None;
     resultPath := "$";
     retry := [];
     catch := [];
     next := SuccessState |}.

(** [acbSuccessState]: [deleteSnapshotTask] is only constructed, and
    then chained before [SuccessState], when the flag is set. *)
Definition acbSuccessState : state :=
  if autoDeleteSnapshot then DeleteSnapshotTask else SuccessState.

(** [tasks.StepFunctionsStartExecution] with
    [IntegrationPattern.RUN_JOB], followed by [addRetry()] and
    [next(acbSuccessState)]: the task starts an execution of the
    machine on the state input, succeeds with its description when it
    succeeds and fails when it fails. *)
Definition startExecution (stateMachineArn : string) : TaskProps state :=
  {| service := "states"; action := "startExecution.sync:2";
     inputPath := "$";
     parameters := Some (Obj
       [("Input", Ref "$");
        ("StateMachineArn", Lit (JString stateMachineArn))]);
     resultSelector := None;
     resultPath := "$";
     retry := [default_retry];
     catch := [];
     next := acbSuccessState |}.

Definition def (s : state) : State state :=
  match s with
  | MetadataTask => Task metadataTask
  | SnapshotType =>
      Choice
        [(stringEquals "$.ResourceType" "EBS", RunEBSBackupMachine);
         (or_ (stringEquals "$.ResourceType" "RDS")
              (stringEquals "$.ResourceType" "Aurora"),
          RunRDSExportMachine);
         (stringEquals "$.ResourceType" "DynamoDB", RunDDBExportMachine)]
        None
  | RunEBSBackupMachine => Task (startExecution ebsmachine)
  | RunRDSExportMachine => Task (startExecution rdsmachine)
  | RunDDBExportMachine => Task (startExecution ddbmachine)
  | DeleteSnapshotTask => Task deleteSnapshotTask
  | SuccessState => Succeed
  end.

(** [metadataTask.next(new sfn.Choice(this, "Snapshot type") ...)] *)
Definition start : state := MetadataTask.

End Definition_.

End BackupActionsMachine.

(* ================================================================== *)
(** * Sample events and answers *)
(* ================================================================== *)

Module Examples.
Import SnapshotMetadata.

Definition tag : Tag := {| Key := "team"; Value := "storage" |}.

(** Two zones, the bucket owned, every service answering. *)
Definition world : World := {|
  env_VALIDAZS := Some "us-east-1a,us-east-1b";
  env_BUCKET := Some "backup-bucket";
  Math_random := JSNumber.div (JSNumber.ofZ 1) (JSNumber.ofZ 2);
  s3_listBuckets := Fulfilled ["logs"; "backup-bucket"];
  ec2_describeTags := fun _ => Fulfilled [tag];
  rds_describeDBClusterSnapshots := fun _ => Fulfilled ["aurora-mysql"];
  rds_describeDBSnapshots := fun _ => Fulfilled ["postgres"];
  rds_listTagsForResource := fun _ => Fulfilled [tag];
  ddb_listTagsOfResource := fun _ => Fulfilled [tag]
|}.

(** The same, but the RDS requests are rejected. *)
Definition rds_down : World := {|
  env_VALIDAZS := Some "us-east-1a,us-east-1b";
  env_BUCKET := Some "backup-bucket";
  Math_random := JSNumber.div (JSNumber.ofZ 1) (JSNumber.ofZ 2);
  s3_listBuckets := Fulfilled ["logs"; "backup-bucket"];
  ec2_describeTags := fun _ => Fulfilled [tag];
  rds_describeDBClusterSnapshots := fun _ => Rejected "AccessDenied";
  rds_describeDBSnapshots := fun _ => Rejected "AccessDenied";
  rds_listTagsForResource := fun _ => Rejected "AccessDenied";
  ddb_listTagsOfResource := fun _ => Fulfilled [tag]
|}.

Definition ebs_event (seconds : Z) : BackupEvent := {|
  backupJobId := "job-42";
  backupVaultName := "vault";
  resourceType := "EBS";
  resourceArn := "arn:aws:ec2:us-east-1:123456789012:volume/vol-0123";
  recoveryPointArn := "arn:aws:ec2:us-east-1::snapshot/snap-0123";
  state := "COMPLETED";
  creationDate_seconds := seconds;
  creationDate_nanos := 0
|}.

(** The same job, created some nanoseconds after the second. *)
Definition ebs_event_at (seconds nanos : Z) : BackupEvent := {|
  backupJobId := "job-42";
  backupVaultName := "vault";
  resourceType := "EBS";
  resourceArn := "arn:aws:ec2:us-east-1:123456789012:volume/vol-0123";
  recoveryPointArn := "arn:aws:ec2:us-east-1::snapshot/snap-0123";
  state := "COMPLETED";
  creationDate_seconds := seconds;
  creationDate_nanos := nanos
|}.

(** The double [0.6666666666666666]. *)
Definition two_thirds : JSNumber.Number :=
  JSNumber.div (JSNumber.ofZ 2) (JSNumber.ofZ 3).

(** The same job with another resource ARN and job id. *)
Definition ebs_event_with (arn job : string) : BackupEvent := {|
  backupJobId := job;
  backupVaultName := "vault";
  resourceType := "EBS";
  resourceArn := arn;
  recoveryPointArn := "arn:aws:ec2:us-east-1::snapshot/snap-0123";
  state := "COMPLETED";
  creationDate_seconds := 1700000000;
  creationDate_nanos := 0
|}.

Definition aurora_arn : string :=
  "arn:aws:rds:us-east-1:123456789012:cluster-snapshot:awsbackup:job-7".

Definition aurora_event : BackupEvent := {|
  backupJobId := "job-7";
  backupVaultName := "vault";
  resourceType := "Aurora";
  resourceArn := aurora_arn;
  recoveryPointArn := aurora_arn;
  state := "COMPLETED";
  creationDate_seconds := 1700000000;
  creationDate_nanos := 0
|}.

Definition failed_event : BackupEvent := {|
  backupJobId := "job-9";
  backupVaultName := "vault";
  resourceType := "EBS";
  resourceArn := "arn:aws:ec2:us-east-1:123456789012:volume/vol-0123";
  recoveryPointArn := "arn:aws:ec2:us-east-1::snapshot/snap-0123";
  state := "FAILED";
  creationDate_seconds := 1700000000;
  creationDate_nanos := 0
|}.

(** An event whose recovery-point ARN has no ['/']. *)
Definition rds_event : BackupEvent := {|
  backupJobId := "job-8";
  backupVaultName := "vault";
  resourceType := "RDS";
  resourceArn := "arn:aws:rds:us-east-1:123456789012:snapshot:awsbackup:job-8";
  recoveryPointArn := "arn:aws:rds:us-east-1:123456789012:snapshot:awsbackup:job-8";
  state := "COMPLETED";
  creationDate_seconds := 1700000000;
  creationDate_nanos := 0
|}.

(** An RDS export under way, and what [describeExportTasks] answers. *)
Definition exporting : ASL.json :=
  ASL.JObject
    [("SnapshotArn", ASL.JString aurora_arn);
     ("Export",
      ASL.JObject [("ExportTaskIdentifier", ASL.JString "acb-1")])].

(** A document and an answer that fit both polling loops. *)
Definition any_exporting : ASL.json :=
  ASL.JObject
    [("Export",
      ASL.JObject [("ExportTaskIdentifier", ASL.JString "export-1");
                   ("ExportArn", ASL.JString "export-1")])].

Definition any_status (s : string) : ASL.json :=
  ASL.JObject
    [("ExportTasks",
      ASL.JArray [ASL.JObject [("Status", ASL.JString s)]]);
     ("ExportDescription",
      ASL.JObject [("ExportStatus", ASL.JString s)])].

Definition rds_status (s : string) : ASL.json :=
  ASL.JObject
    [("ExportTasks",
      ASL.JArray [ASL.JObject [("Status", ASL.JString s)]])].

(** What the metadata Lambda returns for the EBS job above: the input
    of the EBS machine. *)
Definition metadata : ASL.json :=
  ASL.JObject
    [("AvailabilityZone", ASL.JString "us-east-1b");
     ("SnapshotArn", ASL.JString "arn:aws:ec2:us-east-1::snapshot/snap-0123");
     ("SnapshotId", ASL.JString "snap-0123");
     ("ResourceType", ASL.JString "EBS");
     ("BackupVaultName", ASL.JString "vault");
     ("ResourceArn",
      ASL.JString "arn:aws:ec2:us-east-1:123456789012:volume/vol-0123");
     ("S3BucketName", ASL.JString "backup-bucket");
     ("S3Prefix",
      ASL.JString
        "arn/aws/ec2/us-east-1/123456789012/volume/vol-0123/Y=2023/M=11/D=14/job-42");
     ("CreationDate", ASL.JString "2023-11-14T22:13:20.000Z");
     ("Tags", ASL.JArray []);
     ("Engine", ASL.JString "")].

(** The job queues of two zones. *)
Definition queues : list (string * string) :=
  [("us-east-1a", "arn:aws:batch:us-east-1:123456789012:job-queue/a");
   ("us-east-1b", "arn:aws:batch:us-east-1:123456789012:job-queue/b")].

(** What [createVolume] and [describeVolumes] answer. *)
Definition created : ASL.json :=
  ASL.JObject [("VolumeId", ASL.JString "vol-0abc")].

Definition volumes (st : string) : ASL.json :=
  ASL.JObject
    [("Volumes", ASL.JArray [ASL.JObject [("State", ASL.JString st)]])].

(** The description of an export execution that succeeded. *)
Definition exported : ASL.json :=
  ASL.JObject
    [("ExecutionArn",
      ASL.JString "arn:aws:states:us-east-1:123456789012:execution:ebs:1");
     ("Output", metadata);
     ("Status", ASL.JString "SUCCEEDED")].

(** A DynamoDB export under way, and what [describeExport] answers. *)
Definition ddb_exporting : ASL.json :=
  ASL.JObject
    [("Export", ASL.JObject [("ExportArn", ASL.JString "export-1")])].

Definition ddb_status (s : string) : ASL.json :=
  ASL.JObject
    [("ExportDescription",
      ASL.JObject [("ExportStatus", ASL.JString s)])].

End Examples.

(* ================================================================== *)
(** * From the handler to the state machines, from the stack to the handler *)
(* ================================================================== *)

Module LambdaInvoke.
Import SnapshotMetadata.

(** A property whose value is [undefined] is left out of the JSON text. *)
Definition property (k : string) (v : option string)
  : list (string * ASL.json) :=
  match v with
  | Some s => [(k, ASL.JString s)]
  | None => []
  end.

(** A tag as JSON; of a tag the model keeps the key and the value. *)
Definition tag (t : Tag) : ASL.json :=
  ASL.JObject [("Key", ASL.JString (Key t)); ("Value", ASL.JString (Value t))].

(** The response payload of the function: the object of the [return]
    statement as JSON, its properties in the order in which the
    statement lists them.  With [payloadResponseOnly] this is the output
    of [MetadataTask]. *)
Definition payload (md : SnapshotMetadata) : ASL.json :=
  ASL.JObject
    (property "AvailabilityZone" (AvailabilityZone md)
     ++ [("SnapshotArn", ASL.JString (SnapshotArn md))]
     ++ property "SnapshotId" (SnapshotId md)
     ++ [("BackupVaultName", ASL.JString (BackupVaultName md));
         ("ResourceArn", ASL.JString (ResourceArn md));
         ("ResourceType", ASL.JString (ResourceType md));
         ("S3BucketName", ASL.JString (S3BucketName md));
         ("S3Prefix", ASL.JString (S3Prefix md));
         ("CreationDate", ASL.JString (CreationDate md));
         ("Tags", ASL.JArray (map tag (Tags md)));
         ("Engine", ASL.JString (Engine md))]).

End LambdaInvoke.

Module Stack.

(** The [VALIDAZS] variable of the function:
    [selectSubnets(...).availabilityZones.join(",")], on the zones of the
    selected subnets. *)
Definition VALIDAZS (availabilityZones : list string) : string :=
  JS.join "," availabilityZones.

End Stack.

Module BatchCE.

(** [record[k] = v] on a record with string keys: a key that is there
    keeps its place. *)
Fixpoint assign (k v : string) (record : list (string * string))
  : list (string * string) :=
  match record with
  | [] => [(k, v)]
  | (k', v') :: r =>
      if String.eqb k k' then (k, v) :: r else (k', v') :: assign k v r
  end.

(** [this.jqs]: the loop over the selected subnets assigns, under the
    zone of each, the queue constructed for it; [jobQueueArn] gives the
    ARN of the queue of a zone. *)
Definition jqs (availabilityZones : list string)
  (jobQueueArn : string -> string) : list (string * string) :=
  fold_left (fun record az => assign az (jobQueueArn az) record)
            availabilityZones [].

End BatchCE.

(* ================================================================== *)
(** * The backup script of the batch job: the device search and [retry] *)
(* ================================================================== *)

Module EBSBackupScript.

(** The commands of the script that act outside the container. *)
Inductive Command :=
| attach_volume (device : string)
| detach_volume
| mount
| sleep (seconds : Z).

(** The part of the host that the script reads and writes (the regular
    files and the block device files), the two variables that
    [getnextdev] sets, and the commands run so far. *)
Record Shell := {
  files : list string;
  blockdevs : list string;
  blkdev : string;
  devlockfile : string;
  ran : list Command
}.

(** How a function ends: with the status 0, with another status, or by
    ending the script ([exit]). *)
Inductive Status :=
| Ok
| Err
| Exit (code : Z).

Definition set_blkdev (v : string) (s : Shell) : Shell :=
  {| files := files s; blockdevs := blockdevs s; blkdev := v;
     devlockfile := devlockfile s; ran := ran s |}.

Definition set_devlockfile (v : string) (s : Shell) : Shell :=
  {| files := files s; blockdevs := blockdevs s; blkdev := blkdev s;
     devlockfile := v; ran := ran s |}.

Definition run_command (c : Command) (s : Shell) : Shell :=
  {| files := files s; blockdevs := blockdevs s; blkdev := blkdev s;
     devlockfile := devlockfile s; ran := ran s ++ [c] |}.

(** [[ -f p ]] and [[ -b p ]] *)
Definition test_f (p : string) (s : Shell) : bool :=
  existsb (String.eqb p) (files s).

Definition test_b (p : string) (s : Shell) : bool :=
  existsb (String.eqb p) (blockdevs s).

(** [touch p] and [rm p] *)
Definition touch (p : string) (s : Shell) : Shell :=
  {| files := if test_f p s then files s else p :: files s;
     blockdevs := blockdevs s; blkdev := blkdev s;
     devlockfile := devlockfile s; ran := ran s |}.

Definition rm (p : string) (s : Shell) : Shell :=
  {| files := filter (fun q => negb (String.eqb q p)) (files s);
     blockdevs := blockdevs s; blkdev := blkdev s;
     devlockfile := devlockfile s; ran := ran s |}.

(** [{z..f}] *)
Definition letters : list ascii :=
  ["z"; "y"; "x"; "w"; "v"; "u"; "t"; "s"; "r"; "q"; "p"; "o"; "n"; "m";
   "l"; "k"; "j"; "i"; "h"; "g"; "f"]%char.

Section Script.
(** [$IROOT], the root of the host in the container. *)
Variable IROOT : string.

Definition lock_of (l : ascii) : string :=
  IROOT ++ "/tmp/ebsdevlock." ++ String l "".

Definition device_of (l : ascii) : string :=
  IROOT ++ "/dev/xvd" ++ String l "".

(** The [for] loop of [getnextdev], from the letter it is at. *)
Fixpoint scan (ls : list ascii) (s : Shell) : Shell :=
  match ls with
  | [] => s
  | l :: rest =>
      let s1 := set_devlockfile (lock_of l) s in
      if negb (test_f (devlockfile s1) s1) then
        let s2 := touch (devlockfile s1) s1 in
        if negb (test_b (device_of l) s2)
        then set_blkdev ("/dev/xvd" ++ String l "") s2
        else scan rest s2
      else scan rest s1
  end.

(** [getnextdev]: [errorexit] ends the script with the status 1. *)
Definition getnextdev (s : Shell) : Status * Shell :=
  let s' := scan letters (set_blkdev "" s) in
  if String.eqb (blkdev s') "" then (Exit 1, s') else (Ok, s').

(** [attachvolume]; [attached] is whether [aws ec2 attach-volume]
    succeeds. *)
Definition attachvolume (attached : bool) (s : Shell) : Status * Shell :=
  match getnextdev s with
  | (Ok, s') =>
      (if attached then Ok else Err, run_command (attach_volume (blkdev s')) s')
  | r => r
  end.

End Script.

(** A command that only reports whether it succeeded, as [mount] in
    [retry 5 mount $found $mntdir]. *)
Definition external (c : Command) (succeeds : bool) (s : Shell)
  : Status * Shell :=
  (if succeeds then Ok else Err, run_command c s).

(** The [until] loop of [retry]; [outcomes] tells for each attempt
    whether the external command of [cmd] succeeds, and [sleep] is taken
    to succeed.  The loop is still running ([None]) when the outcomes
    are used up. *)
Fixpoint until_cmd (max_attempts attempt_num : Z)
  (cmd : bool -> Shell -> Status * Shell) (outcomes : list bool) (s : Shell)
  : option (Status * Shell) :=
  match outcomes with
  | [] => None
  | succeeds :: rest =>
      match cmd succeeds s with
      | (Ok, s') => Some (Ok, s')
      | (Err, s') =>
          if (attempt_num =? max_attempts)%Z then Some (Err, s')
          else until_cmd max_attempts (attempt_num + 1) cmd rest
                 (run_command (sleep attempt_num) s')
      | (Exit code, s') => Some (Exit code, s')
      end
  end.

Definition retry (max_attempts : Z) (cmd : bool -> Shell -> Status * Shell)
  (outcomes : list bool) (s : Shell) : option (Status * Shell) :=
  until_cmd max_attempts 1 cmd outcomes s.

(** [detachandexit] *)
Definition detachandexit (s : Shell) : Status * Shell :=
  (Exit 1, rm (devlockfile s) (run_command detach_volume s)).

(** [retry 3 attachvolume] and the check of its status. *)
Definition attach (IROOT : string) (outcomes : list bool) (s : Shell)
  : option (Status * Shell) :=
  match retry 3 (attachvolume IROOT) outcomes s with
  | Some (Err, s') => Some (detachandexit s')
  | r => r
  end.

(** The last two lines of the script. *)
Definition release (s : Shell) : Shell :=
  rm (devlockfile s) (run_command detach_volume s).

(** The lock files among the files. *)
Definition locked (IROOT : string) (l : ascii) (s : Shell) : bool :=
  test_f (lock_of IROOT l) s.

(** A letter that [getnextdev] can hand out: no lock file and no block
    device. *)
Definition free (IROOT : string) (l : ascii) (s : Shell) : bool :=
  negb (test_f (lock_of IROOT l) s) && negb (test_b (device_of IROOT l) s).

End EBSBackupScript.

(* ================================================================== *)
(** * More sample events, answers and hosts *)
(* ================================================================== *)

Module Scenarios.
Import SnapshotMetadata.

(** The bucket of the stack is not among the buckets of the account. *)
Definition sniped : World := {|
  env_VALIDAZS := Some "us-east-1a,us-east-1b";
  env_BUCKET := Some "backup-bucket";
  Math_random := JSNumber.div (JSNumber.ofZ 1) (JSNumber.ofZ 2);
  s3_listBuckets := Fulfilled ["logs"];
  ec2_describeTags := fun _ => Fulfilled [Examples.tag];
  rds_describeDBClusterSnapshots := fun _ => Fulfilled ["aurora-mysql"];
  rds_describeDBSnapshots := fun _ => Fulfilled ["postgres"];
  rds_listTagsForResource := fun _ => Fulfilled [Examples.tag];
  ddb_listTagsOfResource := fun _ => Fulfilled [Examples.tag]
|}.

(** The tag requests of EC2 are rejected. *)
Definition ec2_down : World := {|
  env_VALIDAZS := Some "us-east-1a,us-east-1b";
  env_BUCKET := Some "backup-bucket";
  Math_random := JSNumber.div (JSNumber.ofZ 1) (JSNumber.ofZ 2);
  s3_listBuckets := Fulfilled ["logs"; "backup-bucket"];
  ec2_describeTags := fun _ => Rejected "UnauthorizedOperation";
  rds_describeDBClusterSnapshots := fun _ => Fulfilled ["aurora-mysql"];
  rds_describeDBSnapshots := fun _ => Fulfilled ["postgres"];
  rds_listTagsForResource := fun _ => Fulfilled [Examples.tag];
  ddb_listTagsOfResource := fun _ => Fulfilled [Examples.tag]
|}.

(** A completed job of the given resource type, in the given vault, at
    the given second. *)
Definition event (type vault : string) (seconds : Z) : BackupEvent := {|
  backupJobId := "job-5";
  backupVaultName := vault;
  resourceType := type;
  resourceArn := "arn:aws:dynamodb:us-east-1:123456789012:table/orders";
  recoveryPointArn :=
    "arn:aws:dynamodb:us-east-1:123456789012:table/orders/backup/01";
  state := "COMPLETED";
  creationDate_seconds := seconds;
  creationDate_nanos := 0
|}.

(** The same job, created some nanoseconds after the second. *)
Definition event_at (type vault : string) (seconds nanos : Z)
  : BackupEvent := {|
  backupJobId := "job-5";
  backupVaultName := vault;
  resourceType := type;
  resourceArn := "arn:aws:dynamodb:us-east-1:123456789012:table/orders";
  recoveryPointArn :=
    "arn:aws:dynamodb:us-east-1:123456789012:table/orders/backup/01";
  state := "COMPLETED";
  creationDate_seconds := seconds;
  creationDate_nanos := nanos
|}.

(** The document of the EBS machine once the volume is restored, and
    once its state has been polled. *)
Definition restored : ASL.json :=
  ASL.JObject
    [("AvailabilityZone", ASL.JString "us-east-1b");
     ("S3BucketName", ASL.JString "backup-bucket");
     ("S3Prefix", ASL.JString "arn/aws/ec2/vol-0123/Y=2023/M=11/D=14/job-42");
     ("Restore", ASL.JObject [("VolumeId", ASL.JString "vol-0abc")])].

Definition polled (st zone : string) : ASL.json :=
  ASL.JObject
    [("AvailabilityZone", ASL.JString zone);
     ("S3BucketName", ASL.JString "backup-bucket");
     ("S3Prefix", ASL.JString "arn/aws/ec2/vol-0123/Y=2023/M=11/D=14/job-42");
     ("Restore", ASL.JObject [("VolumeId", ASL.JString "vol-0abc")]);
     ("Ready", ASL.JObject [("State", ASL.JString st)])].

(** What [submitJob.sync] answers for a job that succeeded. *)
Definition job_done : ASL.json :=
  ASL.JObject [("JobId", ASL.JString "job-1");
               ("Status", ASL.JString "SUCCEEDED")].

(** The context object of an execution. *)
Definition context : ASL.json :=
  ASL.JObject [("Execution", ASL.JObject [("Name", ASL.JString "run-1")])].

(** A host on which the letter [z] has a device and [y] a lock. *)
Definition host : EBSBackupScript.Shell := {|
  EBSBackupScript.files := ["/iroot/tmp/ebsdevlock.y"];
  EBSBackupScript.blockdevs := ["/iroot/dev/xvdz"];
  EBSBackupScript.blkdev := "";
  EBSBackupScript.devlockfile := "";
  EBSBackupScript.ran := []
|}.

End Scenarios.

(* ================================================================== *)
(** * Facts about [split], [join] and padding *)
(* ================================================================== *)

Section StringFacts.
Import JS.

Lemma append_nil_r (s : string) : (s ++ "")%string = s.
Proof. induction s as [|c s IH]; simpl; [reflexivity | now rewrite IH]. Qed.

Lemma append_assoc (a b c : string) :
  ((a ++ b) ++ c)%string = (a ++ (b ++ c))%string.
Proof. induction a as [|x a IH]; simpl; [reflexivity | now rewrite IH]. Qed.

Lemma append_inv_head (a b c : string) :
  (a ++ b)%string = (a ++ c)%string -> b = c.
Proof.
  induction a as [|x a IH]; simpl; intros H; [exact H|].
  injection H as H. auto.
Qed.

Lemma contains_append (c : ascii) (a b : string) :
  contains c (a ++ b) = contains c a || contains c b.
Proof.
  induction a as [|x a IH]; simpl; [reflexivity|].
  now rewrite IH, orb_assoc.
Qed.

Lemma split_not_nil (sep : ascii) (s : string) : split sep s <> [].
Proof.
  destruct s as [|c r]; simpl; [discriminate|].
  destruct (Ascii.eqb c sep); [discriminate|].
  destruct (split sep r); discriminate.
Qed.

Lemma split_cons_other (sep c : ascii) (r : string) :
  Ascii.eqb c sep = false ->
  exists h t, split sep r = h :: t /\ split sep (String c r) = String c h :: t.
Proof.
  intros Hc. simpl. rewrite Hc.
  destruct (split sep r) as [|h t] eqn:E.
  - now apply split_not_nil in E.
  - now exists h, t.
Qed.

(** A string without the separator is its own single segment. *)
Lemma split_without (sep : ascii) (s : string) :
  contains sep s = false -> split sep s = [s].
Proof.
  induction s as [|c r IH]; simpl; [reflexivity|].
  intros H. apply orb_false_elim in H as [Hc Hr].
  rewrite Hc, (IH Hr). reflexivity.
Qed.

(** Splitting distributes over a separator between two strings. *)
Lemma split_app (sep : ascii) (a b : string) :
  split sep (a ++ String sep b) = split sep a ++ split sep b.
Proof.
  induction a as [|c r IH]; simpl.
  - now rewrite Ascii.eqb_refl.
  - destruct (Ascii.eqb c sep); rewrite IH; [reflexivity|].
    destruct (split sep r) as [|h t] eqn:E; [|reflexivity].
    now apply split_not_nil in E.
Qed.

(** No segment contains the separator. *)
Lemma split_segments (sep : ascii) (s : string) :
  Forall (fun x => contains sep x = false) (split sep s).
Proof.
  induction s as [|c r IH]; simpl.
  - constructor; [reflexivity | constructor].
  - destruct (Ascii.eqb c sep) eqn:Hc.
    + constructor; [reflexivity | exact IH].
    + destruct (split sep r) as [|h t]; inversion IH; subst.
      * constructor; [simpl; now rewrite Hc | constructor].
      * constructor; [simpl; now rewrite Hc | assumption].
Qed.

(** [s.split(sep).join(sep)] is [s]. *)
Lemma join_split (sep : ascii) (s : string) :
  join (String sep "") (split sep s) = s.
Proof.
  unfold join. induction s as [|c r IH]; simpl; [reflexivity|].
  destruct (Ascii.eqb c sep) eqn:Hc.
  - apply Ascii.eqb_eq in Hc; subst c.
    destruct (split sep r) as [|h t] eqn:E.
    + now apply split_not_nil in E.
    + simpl in *. now rewrite IH.
  - destruct (split sep r) as [|h t] eqn:E.
    + now apply split_not_nil in E.
    + destruct t; simpl in *; now rewrite <- IH.
Qed.

Lemma join_app (sep : string) (l : list string) (x : string) :
  l <> [] ->
  join sep (l ++ [x]) = (join sep l ++ sep ++ x)%string.
Proof.
  unfold join. induction l as [|a l IH]; [congruence|]. intros _.
  destruct l as [|b l].
  - reflexivity.
  - change (String.concat sep ((a :: b :: l) ++ [x]))
      with (a ++ sep ++ String.concat sep ((b :: l) ++ [x]))%string.
    rewrite IH by discriminate.
    change (String.concat sep (a :: b :: l))
      with (a ++ sep ++ String.concat sep (b :: l))%string.
    now rewrite !append_assoc.
Qed.

(** Two strings that end in a separator and a separator-free segment
    agree on the segment and on what comes before it. *)
Lemma last_segment_inj (sep : ascii) (a1 b1 a2 b2 : string) :
  contains sep b1 = false -> contains sep b2 = false ->
  (a1 ++ String sep b1)%string = (a2 ++ String sep b2)%string ->
  a1 = a2 /\ b1 = b2.
Proof.
  intros H1 H2. revert a2.
  induction a1 as [|c a1 IH]; intros [|d a2]; simpl; intros E.
  - injection E as E. now split.
  - injection E as Ed E. subst d. subst b1.
    rewrite contains_append in H1. simpl in H1.
    rewrite Ascii.eqb_refl, orb_true_r in H1. discriminate.
  - injection E as Ec E. subst c. subst b2.
    rewrite contains_append in H2. simpl in H2.
    rewrite Ascii.eqb_refl, orb_true_r in H2. discriminate.
  - injection E as Ec E. subst d.
    destruct (IH _ E) as [-> ->]. now split.
Qed.

Lemma slice_last_snoc {A} (l : list A) (x : A) : slice_last (l ++ [x]) = [x].
Proof.
  unfold slice_last. rewrite length_app. simpl.
  replace (List.length l + 1 - 1)%nat with (List.length l) by lia.
  induction l as [|a l IH]; simpl; [reflexivity | exact IH].
Qed.

(** Every string is a separator-free last segment, alone or after a
    separator; [split] ends with that segment. *)
Lemma split_last (sep : ascii) (s : string) :
  exists pre x,
    split sep s = pre ++ [x] /\ contains sep x = false
    /\ ((pre = [] /\ s = x)
        \/ (pre <> [] /\ s = (join (String sep "") pre ++ String sep x)%string)).
Proof.
  induction s as [|c r (pre & x & E & Hx & Hs)].
  - exists [], "". simpl. auto.
  - simpl. destruct (Ascii.eqb c sep) eqn:Hc.
    + apply Ascii.eqb_eq in Hc; subst c.
      exists ("" :: pre), x. rewrite E. split; [reflexivity|].
      split; [exact Hx|]. right. split; [discriminate|].
      destruct Hs as [[-> ->] | [Hp ->]]; [reflexivity|].
      destruct pre; [congruence | reflexivity].
    + rewrite E. destruct pre as [|h t]; simpl.
      * exists [], (String c x). split; [reflexivity|].
        split; [simpl; now rewrite Hc, Hx|]. left.
        destruct Hs as [[_ ->] | [Hp _]]; [auto | congruence].
      * exists (String c h :: t), x. split; [reflexivity|].
        split; [exact Hx|]. right. split; [discriminate|].
        destruct Hs as [[Hp _] | [_ ->]]; [discriminate|].
        destruct t; reflexivity.
Qed.

Lemma repeat_char_length (c : ascii) (n : nat) :
  String.length (repeat_char c n) = n.
Proof. induction n; simpl; congruence. Qed.

Lemma length_append (a b : string) :
  String.length (a ++ b) = (String.length a + String.length b)%nat.
Proof. induction a; simpl; congruence. Qed.

Lemma padStart_length (n : nat) (c : ascii) (s : string) :
  (String.length s <= n)%nat -> String.length (padStart n c s) = n.
Proof.
  intros H. unfold padStart. rewrite length_append, repeat_char_length. lia.
Qed.

End StringFacts.

(* ================================================================== *)
(** * Facts about decimal numerals *)
(* ================================================================== *)

Section NumberFacts.
Import JS.

Lemma digits_numeral (u : Decimal.uint) :
  forall_chars numeral_char (NilEmpty.string_of_uint u) = true.
Proof. induction u; simpl; auto. Qed.

Lemma toString_numeral (z : Z) : forall_chars numeral_char (toString z) = true.
Proof.
  unfold toString, NilZero.string_of_int, NilZero.string_of_uint.
  destruct (Z.to_int z) as [u|u]; destruct u; simpl;
    auto using digits_numeral.
Qed.

Lemma forall_chars_append (p : ascii -> bool) (a b : string) :
  forall_chars p (a ++ b) = forall_chars p a && forall_chars p b.
Proof.
  induction a as [|c a IH]; simpl; [reflexivity|].
  now rewrite IH, andb_assoc.
Qed.

Lemma forall_chars_repeat (p : ascii -> bool) (c : ascii) (n : nat) :
  p c = true -> forall_chars p (repeat_char c n) = true.
Proof. intros H. induction n; simpl; [reflexivity | now rewrite H]. Qed.

Lemma pad_numeral (n : nat) (z : Z) :
  forall_chars numeral_char (JSDate.pad n z) = true.
Proof.
  unfold JSDate.pad, padStart.
  rewrite forall_chars_append, forall_chars_repeat, toString_numeral;
    reflexivity.
Qed.

Lemma forall_chars_not_contains (p : ascii -> bool) (c : ascii) (s : string) :
  p c = false -> forall_chars p s = true -> contains c s = false.
Proof.
  intros Hc. induction s as [|d s IH]; simpl; [reflexivity|].
  intros H. apply andb_prop in H as [Hd Hs].
  rewrite (IH Hs), orb_false_r.
  destruct (Ascii.eqb_spec d c); [subst; congruence | reflexivity].
Qed.

(** A padded number has no ['/'] in it. *)
Lemma pad_no_slash (n : nat) (z : Z) : contains "/" (JSDate.pad n z) = false.
Proof.
  apply forall_chars_not_contains with (p := numeral_char);
    [reflexivity | apply pad_numeral].
Qed.

Lemma toString_inj (a b : Z) : toString a = toString b -> a = b.
Proof.
  unfold toString. intros H.
  assert (N : forall z, Z.to_int z <> Decimal.Pos Decimal.Nil
                        /\ Z.to_int z <> Decimal.Neg Decimal.Nil).
  { intros [|p|p]; simpl; split; try discriminate;
      intros [= E]; now apply (DecimalPos.Unsigned.to_uint_nonnil p). }
  apply DecimalZ.to_int_inj.
  assert (E : Some (Z.to_int a) = Some (Z.to_int b)).
  { rewrite <- (NilZero.isi (Z.to_int a)), <- (NilZero.isi (Z.to_int b));
      try apply N. now rewrite H. }
  now injection E.
Qed.

Lemma strip0_repeat (n : nat) (s : string) :
  strip0 (repeat_char "0" n ++ s) = strip0 s.
Proof. induction n; simpl; auto. Qed.

Lemma to_uint_head (p : positive) :
  forall u, Pos.to_uint p <> Decimal.D0 u.
Proof.
  intros u E.
  assert (Hn : Decimal.unorm (Pos.to_uint p) = Pos.to_uint p).
  { rewrite <- (DecimalPos.Unsigned.to_of (Pos.to_uint p)), DecimalPos.Unsigned.of_to.
    reflexivity. }
  rewrite E in Hn. unfold Decimal.unorm in Hn. simpl in Hn.
  pose proof (DecimalFacts.nb_digits_nzhead u) as L.
  destruct (Decimal.nzhead u) eqn:Hu; try discriminate.
  - injection Hn as Hn. subst u.
    apply (DecimalPos.Unsigned.to_uint_nonzero p). exact E.
  - rewrite Hn in L. simpl in L. lia.
Qed.

Lemma strip0_toString (z : Z) : z <> 0%Z -> strip0 (toString z) = toString z.
Proof.
  unfold toString. destruct z as [|p|p]; [congruence| |]; intros _; simpl.
  - pose proof (to_uint_head p) as H.
    pose proof (DecimalPos.Unsigned.to_uint_nonnil p) as H0.
    unfold NilZero.string_of_uint.
    destruct (Pos.to_uint p) eqn:E; simpl; try reflexivity; try congruence.
    all: try now destruct (H u).
  - reflexivity.
Qed.

Lemma toString_not_empty (z : Z) : toString z <> "".
Proof.
  unfold toString, NilZero.string_of_int, NilZero.string_of_uint.
  destruct (Z.to_int z) as [u|u]; destruct u; discriminate.
Qed.

Lemma strip0_pad (n : nat) (z : Z) :
  strip0 (JSDate.pad n z) = if (z =? 0)%Z then "" else toString z.
Proof.
  unfold JSDate.pad, padStart. rewrite strip0_repeat.
  destruct (Z.eqb_spec z 0) as [->|Hz]; [reflexivity|].
  now apply strip0_toString.
Qed.

(** Padding with zeros keeps numbers apart. *)
Lemma pad_inj (n : nat) (a b : Z) : JSDate.pad n a = JSDate.pad n b -> a = b.
Proof.
  intros H. apply (f_equal strip0) in H. rewrite !strip0_pad in H.
  destruct (Z.eqb_spec a 0) as [Ha|Ha]; destruct (Z.eqb_spec b 0) as [Hb|Hb].
  - congruence.
  - symmetry in H. now apply toString_not_empty in H.
  - now apply toString_not_empty in H.
  - now apply toString_inj.
Qed.

End NumberFacts.

(* ================================================================== *)
(** * Rounding to nearest *)
(* ================================================================== *)

Section DoubleFacts.
Import JSNumber.
Local Open Scope Z_scope.

Lemma digits2_pos_bounds (p : positive) :
  2 ^ (Z.pos (digits2_pos p) - 1) <= Z.pos p < 2 ^ Z.pos (digits2_pos p).
Proof.
  induction p as [p IH|p IH|]; cbn [digits2_pos].
  - rewrite Pos2Z.inj_succ.
    replace (Z.succ (Z.pos (digits2_pos p)) - 1)
      with (Z.succ (Z.pos (digits2_pos p) - 1)) by lia.
    rewrite !Z.pow_succ_r by lia. lia.
  - rewrite Pos2Z.inj_succ.
    replace (Z.succ (Z.pos (digits2_pos p)) - 1)
      with (Z.succ (Z.pos (digits2_pos p) - 1)) by lia.
    rewrite !Z.pow_succ_r by lia. lia.
  - simpl. lia.
Qed.

Lemma digits2_pos_unique (p : positive) (d : Z) :
  2 ^ (d - 1) <= Z.pos p < 2 ^ d -> Z.pos (digits2_pos p) = d.
Proof.
  intros [Lo Hi]. pose proof (digits2_pos_bounds p) as [Lo' Hi'].
  assert (Hd : 0 < d).
  { destruct (Z.ltb_spec 0 d); [assumption|].
    destruct (Z.eq_dec d 0) as [->|]; [simpl in Hi; lia|].
    rewrite Z.pow_neg_r in Hi by lia. lia. }
  destruct (Z.lt_trichotomy (Z.pos (digits2_pos p)) d) as [L|[E|G]];
    [exfalso | exact E | exfalso].
  - assert (2 ^ Z.pos (digits2_pos p) <= 2 ^ (d - 1))
      by (apply Z.pow_le_mono_r; lia).
    lia.
  - assert (2 ^ d <= 2 ^ (Z.pos (digits2_pos p) - 1))
      by (apply Z.pow_le_mono_r; lia).
    lia.
Qed.

Lemma iter_pos_invariant {A : Type} (f : A -> A) (I : Z -> A -> Prop) :
  (forall k x, 0 <= k -> I k x -> I (k + 1) (f x)) ->
  forall p k x, 0 <= k -> I k x -> I (k + Z.pos p) (iter_pos f p x).
Proof.
  intros Hf. induction p as [p IH|p IH|]; intros k x Hk Hx; cbn [iter_pos].
  - replace (k + Z.pos p~1) with (k + 1 + Z.pos p + Z.pos p) by lia.
    apply IH; [lia|]. apply IH; [lia|]. now apply Hf.
  - replace (k + Z.pos p~0) with (k + Z.pos p + Z.pos p) by lia.
    apply IH; [lia|]. now apply IH.
  - now apply Hf.
Qed.

Lemma shifted_0 (P : Z) :
  0 <= P -> shifted P 0 {| shr_m := P; shr_r := false; shr_s := false |}.
Proof.
  intros H. split; [exact H|]. exists 0. cbn [shr_m shr_r shr_s Z.b2z].
  rewrite Z.pow_0_r. repeat split; try lia; discriminate.
Qed.

Lemma shifted_shr_1 (P k : Z) (mrs : shr_record) :
  0 <= k -> shifted P k mrs -> shifted P (k + 1) (shr_1 mrs).
Proof.
  intros Hk [Hm (t & Ht & E & Hs)].
  destruct mrs as [m r s]. cbn [shr_m shr_r shr_s] in *.
  assert (H2 : 2 ^ (k + 1) = 2 * 2 ^ k) by (rewrite Z.pow_add_r by lia; lia).
  assert (Hp : 0 < 2 ^ k) by (apply Z.pow_pos_nonneg; lia).
  assert (S : forall m' r',
             m = 2 * m' + Z.b2z r' -> 0 <= m' ->
             shifted P (k + 1)
               {| shr_m := m'; shr_r := r'; shr_s := r || s |}).
  { intros m' r' Em Hm'. split; [exact Hm'|].
    exists (Z.b2z r * 2 ^ k + t). cbn [shr_m shr_r shr_s]. rewrite H2.
    split; [destruct r; cbn [Z.b2z]; lia|].
    split; [rewrite E, Em; ring|].
    destruct r; cbn [Z.b2z orb].
    - split; [lia | reflexivity].
    - rewrite Hs. split; lia. }
  destruct m as [|[p|p|]|p]; cbn [shr_1].
  - apply S; cbn [Z.b2z]; lia.
  - apply S; cbn [Z.b2z]; lia.
  - apply S; cbn [Z.b2z]; lia.
  - apply S; cbn [Z.b2z]; lia.
  - lia.
Qed.

Lemma shifted_iter (P : Z) (p : positive) :
  0 <= P ->
  shifted P (Z.pos p)
    (iter_pos shr_1 p {| shr_m := P; shr_r := false; shr_s := false |}).
Proof.
  intros H.
  apply (iter_pos_invariant shr_1 (shifted P) (shifted_shr_1 P) p 0);
    [lia | now apply shifted_0].
Qed.

(** Rounding to nearest leaves at most half a unit of the last place. *)
Lemma shifted_round (P k : Z) (mrs : shr_record) :
  0 <= k -> shifted P k mrs ->
  let m := round_nearest_even (shr_m mrs) (loc_of_shr_record mrs) in
  shr_m mrs <= m <= shr_m mrs + 1
  /\ 2 * P - 2 ^ k <= 2 * m * 2 ^ k <= 2 * P + 2 ^ k.
Proof.
  intros Hk [Hm (t & Ht & E & Hs)].
  destruct mrs as [m r s]. cbn [shr_m shr_r shr_s] in *.
  assert (Hp : 0 < 2 ^ k) by (apply Z.pow_pos_nonneg; lia).
  destruct r, s; cbn [loc_of_shr_record round_nearest_even Z.b2z] in *.
  - assert (0 < t) by (apply Hs; reflexivity). split; nia.
  - assert (t = 0).
    { destruct (Z.eq_dec t 0); [assumption|].
      assert (false = true) by (apply Hs; lia). discriminate. }
    destruct (Z.even m); split; nia.
  - assert (0 < t) by (apply Hs; reflexivity). split; nia.
  - assert (t = 0).
    { destruct (Z.eq_dec t 0); [assumption|].
      assert (false = true) by (apply Hs; lia). discriminate. }
    split; nia.
Qed.


Lemma fexp_spec (x : Z) :
  fexp prec emax x = Z.max (x - 53) (-1074).
Proof. reflexivity. Qed.

(** A mantissa that fits is not rounded. *)
Lemma round_exact (P : positive) (E : Z) :
  fexp prec emax (Z.pos (digits2_pos P) + E) <= E ->
  E <= emax - prec ->
  binary_round_aux prec emax false (Z.pos P) E loc_Exact
  = S754_finite false P E.
Proof.
  intros Hk He. unfold binary_round_aux, shr_fexp.
  cbn [Zdigits2 shr_record_of_loc round_nearest_even].
  destruct (fexp prec emax (Z.pos (digits2_pos P) + E) - E) as [|q|q] eqn:K;
    [| lia |];
    cbn [shr shr_m loc_of_shr_record round_nearest_even Zdigits2];
    rewrite K; cbn [shr shr_m];
    apply Z.leb_le in He; rewrite He; reflexivity.
Qed.

(** A mantissa that is [k] bits too long is shifted and rounded to
    nearest. *)
Lemma round_inexact (P : positive) (E : Z) (k : positive) :
  fexp prec emax (Z.pos (digits2_pos P) + E) - E = Z.pos k ->
  E + Z.pos k + 1 <= emax - prec ->
  exists m,
    represents (binary_round_aux prec emax false (Z.pos P) E loc_Exact)
               m (E + Z.pos k)
    /\ 0 <= m
    /\ 2 * Z.pos P - 2 ^ Z.pos k <= 2 * m * 2 ^ Z.pos k
       <= 2 * Z.pos P + 2 ^ Z.pos k.
Proof.
  intros K He. unfold binary_round_aux, shr_fexp.
  cbn [Zdigits2 shr_record_of_loc]. rewrite K. cbn [shr].
  pose proof (shifted_iter (Z.pos P) k) as S. specialize (S ltac:(lia)).
  pose proof (shifted_round (Z.pos P) (Z.pos k) _ ltac:(lia) S) as R.
  cbv zeta in R. destruct S as [Hm1 (t & Ht & Et & _)].
  set (mrs := iter_pos shr_1 k
                {| shr_m := Z.pos P; shr_r := false; shr_s := false |}) in *.
  set (m := round_nearest_even (shr_m mrs) (loc_of_shr_record mrs)) in *.
  destruct R as [Rm Rb]. exists m. split; [|split; [lia | exact Rb]].
  pose proof (digits2_pos_bounds P) as [_ Hd].
  set (d := Z.pos (digits2_pos P)) in *.
  rewrite fexp_spec in K.
  assert (Hp : 0 < 2 ^ Z.pos k) by (apply Z.pow_pos_nonneg; lia).
  assert (Hm : m <= 2 ^ 53).
  { assert (2 ^ d <= 2 ^ (Z.pos k + 53)) by (apply Z.pow_le_mono_r; lia).
    rewrite Z.pow_add_r in H by lia.
    assert (shr_m mrs * 2 ^ Z.pos k < 2 ^ 53 * 2 ^ Z.pos k).
    { destruct (shr_r mrs); cbn [Z.b2z] in Et; nia. }
    assert (shr_m mrs < 2 ^ 53) by nia. lia. }
  assert (He' : (E + Z.pos k <=? emax - prec) = true)
    by (apply Z.leb_le; lia).
  assert (C : m = 0 \/ 0 < m < 2 ^ 53 \/ m = 2 ^ 53) by lia.
  destruct C as [C | [C | C]].
  - rewrite C. cbn [Zdigits2 shr_record_of_loc]. rewrite fexp_spec.
    destruct (Z.max (0 + (E + Z.pos k) - 53) (-1074) - (E + Z.pos k))
      as [|q|q] eqn:K2; [| lia |]; cbn [shr shr_m]; reflexivity.
  - destruct m as [|q|q]; [lia | | lia].
    cbn [Zdigits2 shr_record_of_loc]. rewrite fexp_spec.
    pose proof (digits2_pos_bounds q) as [Hq _].
    assert (Z.pos (digits2_pos q) <= 53).
    { destruct (Z.le_gt_cases (Z.pos (digits2_pos q)) 53); [assumption|].
      assert (2 ^ 53 <= 2 ^ (Z.pos (digits2_pos q) - 1))
        by (apply Z.pow_le_mono_r; lia).
      lia. }
    destruct (Z.max (Z.pos (digits2_pos q) + (E + Z.pos k) - 53) (-1074)
              - (E + Z.pos k)) as [|q'|q'] eqn:K2; [| lia |];
      cbn [shr shr_m]; rewrite He'; cbn [represents];
      (split; [lia|]); rewrite Z.sub_diag; simpl; lia.
  - rewrite C.
    change (Zdigits2 (2 ^ 53)) with 54.
    rewrite fexp_spec.
    replace (Z.max (54 + (E + Z.pos k) - 53) (-1074) - (E + Z.pos k))
      with 1 by lia.
    cbn [shr shr_record_of_loc iter_pos].
    change (shr_1 {| shr_m := 2 ^ 53; shr_r := false; shr_s := false |})
      with {| shr_m := 2 ^ 52; shr_r := false; shr_s := false |}.
    cbn [shr_m].
    change (2 ^ 52) with (Z.pos 4503599627370496).
    cbv iota beta.
    replace (E + Z.pos k + 1 <=? emax - prec) with true
      by (symmetry; apply Z.leb_le; lia).
    cbn [represents]. split; [lia|].
    replace (E + Z.pos k + 1 - (E + Z.pos k)) with 1 by lia.
    reflexivity.
Qed.

(** [Math.floor] of a number below [2 ^ 53]. *)
Lemma floor_represents (x : Number) (m e : Z) :
  represents x m e -> e <= 0 -> floor x = Some (m / 2 ^ (- e)).
Proof.
  intros R He. destruct x as [s| | |[|] m' e']; cbn [represents] in R;
    try contradiction.
  - subst m. reflexivity.
  - destruct R as [Hle ->]. cbn [floor cond_Zopp]. f_equal.
    assert (Hp : 0 < 2 ^ (e' - e)) by (apply Z.pow_pos_nonneg; lia).
    destruct (Z.le_gt_cases e' 0) as [L|G].
    + rewrite Z.shiftl_div_pow2 by lia.
      replace (- e) with ((- e') + (e' - e)) by lia.
      rewrite Z.pow_add_r by lia.
      rewrite Z.div_mul_cancel_r; [reflexivity | | lia].
      apply Z.pow_nonzero; lia.
    + rewrite Z.shiftl_mul_pow2 by lia.
      replace (e' - e) with (e' + (- e)) by lia.
      rewrite Z.pow_add_r by lia.
      rewrite Z.mul_assoc, Z.div_mul; [reflexivity|].
      apply Z.pow_nonzero; lia.
Qed.


Lemma iter_xO (p d : positive) :
  Z.pos (Pos.iter xO p d) = Z.pos p * 2 ^ Z.pos d.
Proof.
  rewrite Z.mul_comm. exact (Zpower.shift_pos_correct d p).
Qed.

(** An integer below [2 ^ 53] scaled by a power of two is a double, with
    a mantissa of 53 bits, as long as it is in the normal range. *)
Lemma normalize_normal (c e : Z) :
  0 < c < 2 ^ 53 -> -1021 <= e <= 971 ->
  exists m e',
    binary_normalize prec emax c e false = S754_finite false m e'
    /\ e - 52 <= e' <= e
    /\ Z.pos m = c * 2 ^ (e - e')
    /\ 2 ^ 52 <= Z.pos m < 2 ^ 53.
Proof.
  intros Hc He. destruct c as [|p|p]; try lia.
  cbn [binary_normalize]. unfold binary_round.
  pose proof (digits2_pos_bounds p) as [Lo Hi].
  set (d := Z.pos (digits2_pos p)) in *.
  assert (Hd : 1 <= d <= 53).
  { split; [subst d; lia|].
    destruct (Z.le_gt_cases d 53); [assumption|].
    assert (2 ^ 53 <= 2 ^ (d - 1)) by (apply Z.pow_le_mono_r; lia). lia. }
  rewrite fexp_spec. rewrite Z.max_l by lia.
  unfold shl_align.
  destruct (d + e - 53 - e) as [|q|q] eqn:K; try lia.
  - assert (d = 53) by lia.
    exists p, e. rewrite Z.sub_diag, Z.mul_1_r.
    split; [|split; [lia | split; [reflexivity|]]].
    + apply round_exact; [fold d; rewrite fexp_spec | unfold emax, prec]; lia.
    + replace (d - 1) with 52 in Lo by lia. lia.
  - assert (Eq : Z.pos q = 53 - d) by lia.
    assert (Em : Z.pos (Pos.iter xO p q) = Z.pos p * 2 ^ Z.pos q)
      by apply iter_xO.
    assert (Hp : 0 < 2 ^ Z.pos q) by (apply Z.pow_pos_nonneg; lia).
    assert (E52 : 2 ^ 52 = 2 ^ (d - 1) * 2 ^ Z.pos q).
    { rewrite <- Z.pow_add_r by lia. f_equal. lia. }
    assert (E53 : 2 ^ 53 = 2 ^ d * 2 ^ Z.pos q).
    { rewrite <- Z.pow_add_r by lia. f_equal. lia. }
    assert (B : 2 ^ 52 <= Z.pos (Pos.iter xO p q) < 2 ^ 53).
    { rewrite Em, E52, E53. split; nia. }
    exists (Pos.iter xO p q), (d + e - 53).
    split; [|split; [lia | split; [|exact B]]].
    + apply round_exact; [|unfold emax, prec; lia].
      rewrite (digits2_pos_unique _ 53) by exact B.
      rewrite fexp_spec. lia.
    + rewrite Em. f_equal. f_equal. lia.
Qed.

Lemma ofZ_normal (n : Z) :
  0 < n < 2 ^ 53 ->
  exists m e,
    ofZ n = S754_finite false m e
    /\ -52 <= e <= 0
    /\ Z.pos m = n * 2 ^ (- e)
    /\ 2 ^ 52 <= Z.pos m < 2 ^ 53.
Proof.
  intros H.
  destruct (normalize_normal n 0 H ltac:(lia)) as (m & e & E & He & Em & B).
  exists m, e. repeat split; try assumption; lia.
Qed.

(** The product of a double below 1 and an integer below [2 ^ 53],
    rounded to nearest, stays below the integer. *)
Lemma mul_below (mr mn : positive) (er en n : Z) :
  -1074 <= er < 0 -> Z.pos mr < 2 ^ (- er) -> Z.pos mr < 2 ^ 53 ->
  -52 <= en <= 0 -> Z.pos mn = n * 2 ^ (- en) ->
  2 ^ 52 <= Z.pos mn < 2 ^ 53 ->
  exists i,
    floor (mul (S754_finite false mr er) (S754_finite false mn en)) = Some i
    /\ 0 <= i < n.
Proof.
  intros Her Hr Hr53 Hen En Bn.
  change (mul (S754_finite false mr er) (S754_finite false mn en))
    with (binary_round_aux prec emax false (Z.pos (mr * mn)) (er + en)
            loc_Exact).
  set (P := (mr * mn)%positive). set (E := er + en).
  assert (EP : Z.pos P = Z.pos mr * Z.pos mn) by reflexivity.
  assert (Hpn : 0 < 2 ^ (- en)) by (apply Z.pow_pos_nonneg; lia).
  assert (Hpr : 0 < 2 ^ (- er)) by (apply Z.pow_pos_nonneg; lia).
  assert (HE : 2 ^ (- E) = 2 ^ (- er) * 2 ^ (- en)).
  { unfold E. rewrite <- Z.pow_add_r by lia. f_equal. lia. }
  assert (Hn : 0 < n) by nia.
  assert (Hn53 : n < 2 ^ 53) by nia.
  (* the product is below [n] *)
  assert (HP : Z.pos P + Z.pos mn <= n * 2 ^ (- E)).
  { rewrite EP, HE.
    replace (n * (2 ^ (- er) * 2 ^ (- en)))
      with (2 ^ (- er) * (n * 2 ^ (- en))) by ring.
    rewrite <- En. nia. }
  pose proof (digits2_pos_bounds P) as [Lo Hi].
  set (d := Z.pos (digits2_pos P)) in *.
  assert (Hd : d + E <= 53).
  { destruct (Z.le_gt_cases (d + E) 53); [assumption|].
    assert (2 ^ (53 - E) <= 2 ^ (d - 1)) by (apply Z.pow_le_mono_r; lia).
    replace (53 - E) with (53 + - E) in H0 by lia.
    rewrite Z.pow_add_r in H0 by lia.
    assert (0 < 2 ^ (- E)) by (apply Z.pow_pos_nonneg; lia).
    nia. }
  destruct (fexp prec emax (d + E) - E) as [|k|k] eqn:K.
  - rewrite round_exact; [| fold d; lia | unfold emax, prec, E; lia].
    cbn [floor cond_Zopp]. rewrite Z.shiftl_div_pow2 by (unfold E; lia).
    eexists. split; [reflexivity|]. split.
    + apply Z.div_pos; [lia|]. apply Z.pow_pos_nonneg; lia.
    + apply Z.div_lt_upper_bound; [apply Z.pow_pos_nonneg; lia|]. lia.
  - destruct (round_inexact P E k K) as (m & R & Hm & Lo2 & Hi2).
    { rewrite fexp_spec in K. unfold emax, prec. lia. }
    assert (Hk : E + Z.pos k <= 0) by (rewrite fexp_spec in K; lia).
    rewrite (floor_represents _ _ _ R Hk).
    eexists. split; [reflexivity|].
    assert (Hpk : 0 < 2 ^ Z.pos k) by (apply Z.pow_pos_nonneg; lia).
    assert (Hq : 0 < 2 ^ (- (E + Z.pos k))) by (apply Z.pow_pos_nonneg; lia).
    assert (HEk : 2 ^ (- E) = 2 ^ (- (E + Z.pos k)) * 2 ^ Z.pos k).
    { rewrite <- Z.pow_add_r by lia. f_equal. lia. }
    split; [apply Z.div_pos; lia|].
    apply Z.div_lt_upper_bound; [exact Hq|].
    (* half a unit of the last place is less than the mantissa of [n] *)
    assert (Hulp : 2 ^ Z.pos k < 2 * Z.pos mn).
    { rewrite fexp_spec in K.
      destruct (Z.max_spec (d + E - 53) (-1074)) as [[_ M]|[_ M]];
        rewrite M in K.
      - assert (2 ^ Z.pos k <= 2 ^ 52) by (apply Z.pow_le_mono_r; unfold E in K; lia).
        lia.
      - assert (Ed : 2 ^ (d - 1) = 2 ^ Z.pos k * 2 ^ 52).
        { rewrite <- Z.pow_add_r by lia. f_equal. lia. }
        assert (Z.pos P < 2 ^ 53 * Z.pos mn) by (rewrite EP; nia).
        change (2 ^ 53) with (2 * 2 ^ 52) in H. nia. }
    rewrite HEk in HP.
    apply (Z.mul_lt_mono_pos_r (2 ^ Z.pos k)); [exact Hpk | lia].
  - exfalso. rewrite fexp_spec in K.
    assert (53 <= d).
    { destruct (Z.le_gt_cases 53 d); [assumption|].
      assert (2 ^ d <= 2 ^ 52) by (apply Z.pow_le_mono_r; lia). nia. }
    lia.
Qed.


(** What [in_unit_interval] says of a number that is not zero. *)
Lemma in_unit_interval_finite (s : bool) (m : positive) (e : Z) :
  in_unit_interval (S754_finite s m e) = true ->
  s = false /\ -1074 <= e < 0 /\ Z.pos m < 2 ^ (- e) /\ Z.pos m < 2 ^ 53.
Proof.
  unfold in_unit_interval. cbn [valid_binary].
  rewrite !andb_true_iff. intros [[B L] U].
  unfold bounded, canonical_mantissa in B. rewrite andb_true_iff in B.
  destruct B as [C _]. apply Z.eqb_eq in C. rewrite fexp_spec in C.
  pose proof (digits2_pos_bounds m) as [_ Hi].
  set (d := Z.pos (digits2_pos m)) in *.
  assert (H53 : Z.pos m < 2 ^ 53).
  { assert (2 ^ d <= 2 ^ 53) by (apply Z.pow_le_mono_r; lia). lia. }
  destruct s; [discriminate L|]. split; [reflexivity|].
  change (ofZ 1) with (S754_finite false 4503599627370496 (-52)) in U.
  unfold SFltb, SFcompare in U.
  destruct (Z.compare_spec e (-52)) as [E|E|E]; try discriminate U.
  - subst e.
    destruct (Pos.compare_cont Eq m 4503599627370496) eqn:F;
      try discriminate U.
    assert (F' : Z.pos m < 4503599627370496)
      by exact (Pos2Z.pos_lt_pos m 4503599627370496 F).
    clear F U L.
    repeat split; lia.
  - clear U L. repeat split; try lia.
    assert (2 ^ 53 <= 2 ^ (- e)) by (apply Z.pow_le_mono_r; lia). lia.
Qed.

(** [Math.floor(random * n)] is an index below [n]. *)
Lemma floor_mul_index (r : Number) (n : Z) :
  in_unit_interval r = true -> 0 < n < 2 ^ 53 ->
  exists i, floor (mul r (ofZ n)) = Some i /\ 0 <= i < n.
Proof.
  intros Hr Hn.
  destruct (ofZ_normal n Hn) as (mn & en & -> & Hen & En & Bn).
  destruct r as [s|[|]| |s mr er]; try discriminate Hr.
  - exists 0. split; [reflexivity | lia].
  - apply in_unit_interval_finite in Hr as (-> & Her & Hlt & H53).
    now apply mul_below.
Qed.

Lemma div_eq (a b q : Z) : 0 < b -> q * b <= a < (q + 1) * b -> a / b = q.
Proof.
  intros Hb H. symmetry. apply (Z.div_unique a b q (a - q * b)); lia.
Qed.

(** Every index below [n] is [Math.floor(random * n)] for a value of
    [Math.random()]. *)
Lemma selecting_spec (i n : Z) :
  0 <= i < n -> n < 2 ^ 32 ->
  in_unit_interval (selecting i n) = true
  /\ floor (mul (selecting i n) (ofZ n)) = Some i.
Proof.
  intros Hi Hn. unfold selecting.
  set (c := (2 * i + 1) * 2 ^ 51 / n).
  assert (Hc : (2 * i + 1) * 2 ^ 51 - n < c * n <= (2 * i + 1) * 2 ^ 51).
  { pose proof (Z.div_mod ((2 * i + 1) * 2 ^ 51) n ltac:(lia)) as D.
    pose proof (Z.mod_pos_bound ((2 * i + 1) * 2 ^ 51) n ltac:(lia)).
    fold c in D. lia. }
  assert (Bc : 0 < c < 2 ^ 52).
  { split.
    - apply Z.div_str_pos. lia.
    - apply Z.div_lt_upper_bound; lia. }
  destruct (normalize_normal c (-52) ltac:(lia) ltac:(lia))
    as (mr & er & -> & Her & Er & Br).
  assert (Her' : er <= -53).
  { destruct (Z.eq_dec er (-52)) as [->|]; [|lia].
    change (2 ^ (-52 - -52)) with 1 in Er. lia. }
  split.
  - unfold in_unit_interval. cbn [valid_binary].
    unfold bounded, canonical_mantissa.
    rewrite (digits2_pos_unique mr 53 Br), fexp_spec.
    replace (Z.max (53 + er - 53) (-1074)) with er by lia.
    rewrite Z.eqb_refl.
    replace (er <=? emax - prec) with true
      by (symmetry; apply Z.leb_le; unfold emax, prec; lia).
    change (ofZ 1) with (S754_finite false 4503599627370496 (-52)).
    unfold SFltb, SFleb, SFcompare.
    destruct (Z.compare_spec er (-52)); [lia | reflexivity | lia].
  - destruct (ofZ_normal n ltac:(lia)) as (mn & en & -> & Hen & En & Bn).
    change (mul (S754_finite false mr er) (S754_finite false mn en))
      with (binary_round_aux prec emax false (Z.pos (mr * mn)) (er + en)
              loc_Exact).
    set (P := (mr * mn)%positive).
    assert (EP : Z.pos P = Z.pos mr * Z.pos mn) by reflexivity.
    remember (er + en) as E eqn:EE.
    set (S := 2 ^ (-52 - E)).
    assert (HS : 0 < S) by (apply Z.pow_pos_nonneg; lia).
    assert (ES : 2 ^ (-52 - er) * 2 ^ (- en) = S).
    { unfold S. rewrite <- Z.pow_add_r by lia. f_equal. lia. }
    assert (E2 : 2 ^ (- E) = 2 ^ 52 * S).
    { unfold S. rewrite <- Z.pow_add_r by lia. f_equal. lia. }
    remember (c * n) as X eqn:EX.
    assert (PX : Z.pos P = X * S).
    { rewrite EP, Er, En, EX, <- ES. ring. }
    assert (X1 : ((2 * i + 1) * 2 ^ 51 - n + 1) * S <= X * S)
      by (apply Z.mul_le_mono_nonneg_r; lia).
    assert (X2 : X * S <= (2 * i + 1) * 2 ^ 51 * S)
      by (apply Z.mul_le_mono_nonneg_r; lia).
    assert (N1 : n * S < 2 ^ 32 * S)
      by (apply Z.mul_lt_mono_pos_r; lia).
    assert (I0 : 0 <= i * S) by (apply Z.mul_nonneg_nonneg; lia).
    pose proof (digits2_pos_bounds P) as [Lo Hi'].
    set (d := Z.pos (digits2_pos P)) in *.
    assert (D1 : 53 <= d).
    { destruct (Z.le_gt_cases 53 d); [assumption|].
      assert (2 ^ d <= 2 ^ 52) by (apply Z.pow_le_mono_r; lia). nia. }
    assert (D2 : d + E <= 32).
    { destruct (Z.le_gt_cases (d + E) 32); [assumption|].
      assert (2 ^ (32 - E) <= 2 ^ (d - 1)) by (apply Z.pow_le_mono_r; lia).
      replace (32 - E) with (84 + (-52 - E)) in H0 by lia.
      rewrite Z.pow_add_r in H0 by lia. fold S in H0.
      assert (X * S < 2 ^ 84 * S); [|lia].
      apply Z.mul_lt_mono_pos_r; [exact HS|]. nia. }
    destruct (fexp prec emax (d + E) - E) as [|k|k] eqn:K;
      rewrite fexp_spec in K; [| | lia].
    + rewrite round_exact;
        [| fold d; rewrite fexp_spec; lia | unfold emax, prec; lia].
      cbn [floor cond_Zopp]. rewrite Z.shiftl_div_pow2 by lia. f_equal.
      apply div_eq; [apply Z.pow_pos_nonneg; lia|].
      rewrite E2, PX. lia.
    + destruct (round_inexact P E k) as (m & R & Hm & Lo2 & Hi2).
      { fold d. rewrite fexp_spec. exact K. }
      { unfold emax, prec. lia. }
      assert (Hk : E + Z.pos k <= 0) by lia.
      rewrite (floor_represents _ _ _ R Hk). f_equal.
      assert (Hpk : 0 < 2 ^ Z.pos k) by (apply Z.pow_pos_nonneg; lia).
      assert (Hq : 0 < 2 ^ (- (E + Z.pos k)))
        by (apply Z.pow_pos_nonneg; lia).
      assert (HEk : 2 ^ (- (E + Z.pos k)) * 2 ^ Z.pos k = 2 ^ 52 * S).
      { rewrite <- E2, <- Z.pow_add_r by lia. f_equal. lia. }
      assert (Hulp : 2 ^ Z.pos k <= 2 ^ 31 * S).
      { unfold S. rewrite <- Z.pow_add_r by lia.
        apply Z.pow_le_mono_r; lia. }
      apply div_eq; [exact Hq|]. split.
      * apply (Z.mul_le_mono_pos_r _ _ (2 ^ Z.pos k)); [exact Hpk|].
        rewrite <- Z.mul_assoc, HEk. lia.
      * apply (Z.mul_lt_mono_pos_r (2 ^ Z.pos k)); [exact Hpk|].
        rewrite <- Z.mul_assoc, HEk. lia.
Qed.

End DoubleFacts.

(* ================================================================== *)
(** * The calendar *)
(* ================================================================== *)

Section DateFacts.
Import JSDate.
Local Open Scope Z_scope.

Lemma DaysInYear_range (y : Z) : 365 <= DaysInYear y <= 366.
Proof.
  unfold DaysInYear.
  repeat match goal with
         | |- context [if ?b then _ else _] => destruct b
         end; lia.
Qed.

(** A year starts [DaysInYear] days after the year before. *)
Lemma DayFromYear_succ (y : Z) :
  DayFromYear (y + 1) = DayFromYear y + DaysInYear y.
Proof.
  unfold DayFromYear, DaysInYear.
  assert (A4 : (y + 1 - 1969) / 4
               = (y - 1969) / 4 + (if y mod 4 =? 0 then 1 else 0)).
  { destruct (Z.eqb_spec (y mod 4) 0); Z.div_mod_to_equations; lia. }
  assert (A100 : (y + 1 - 1901) / 100
                 = (y - 1901) / 100 + (if y mod 100 =? 0 then 1 else 0)).
  { destruct (Z.eqb_spec (y mod 100) 0); Z.div_mod_to_equations; lia. }
  assert (A400 : (y + 1 - 1601) / 400
                 = (y - 1601) / 400 + (if y mod 400 =? 0 then 1 else 0)).
  { destruct (Z.eqb_spec (y mod 400) 0); Z.div_mod_to_equations; lia. }
  rewrite A4, A100, A400.
  destruct (Z.eqb_spec (y mod 4) 0); destruct (Z.eqb_spec (y mod 100) 0);
    destruct (Z.eqb_spec (y mod 400) 0); cbv [negb]; try lia.
  all: exfalso; clear A4 A100 A400; Z.div_mod_to_equations; lia.
Qed.

Lemma DayFromYear_approx (y : Z) :
  -1200 <= 400 * DayFromYear y - 146097 * (y - 1970) <= 1200.
Proof. unfold DayFromYear. Z.div_mod_to_equations. lia. Qed.

Lemma DayFromYear_lt (a b : Z) : a < b -> DayFromYear a < DayFromYear b.
Proof. unfold DayFromYear. intros H. Z.div_mod_to_equations. lia. Qed.

(** [YearFromDay] is the year the day falls in. *)
Lemma YearFromDay_spec (d : Z) :
  DayFromYear (YearFromDay d) <= d < DayFromYear (YearFromDay d + 1).
Proof.
  unfold YearFromDay.
  set (y0 := 1970 + d * 400 / 146097).
  destruct (Z.leb_spec (DayFromYear (y0 + 1)) d).
  - split; [assumption|].
    pose proof (DayFromYear_approx (y0 + 1 + 1)).
    subst y0. Z.div_mod_to_equations. lia.
  - destruct (Z.leb_spec (DayFromYear y0) d).
    + split; assumption.
    + split.
      * pose proof (DayFromYear_approx (y0 - 1)).
        subst y0. Z.div_mod_to_equations. lia.
      * replace (y0 - 1 + 1) with y0 by lia. assumption.
Qed.

(** It is the largest year that starts on or before the day, which is
    how ECMAScript defines [YearFromTime]. *)
Lemma YearFromDay_largest (d y : Z) :
  DayFromYear y <= d -> y <= YearFromDay d.
Proof.
  intros H. destruct (YearFromDay_spec d) as [_ Hd].
  destruct (Z.le_gt_cases y (YearFromDay d)) as [|Hy]; [assumption|].
  assert (YearFromDay d + 1 = y \/ YearFromDay d + 1 < y) as [E|E] by lia.
  - subst y. lia.
  - apply DayFromYear_lt in E. lia.
Qed.

Lemma DayWithinYear_range (t : Z) :
  0 <= DayWithinYear t < DaysInYear (YearFromTime t).
Proof.
  unfold DayWithinYear, YearFromTime.
  pose proof (YearFromDay_spec (Day t)) as H.
  rewrite DayFromYear_succ in H. lia.
Qed.

Lemma MonthFromTime_range (t : Z) : 0 <= MonthFromTime t <= 11.
Proof.
  unfold MonthFromTime.
  repeat match goal with
         | |- context [if ?b then _ else _] => destruct b
         end; lia.
Qed.

Lemma DateFromTime_range (t : Z) : 1 <= DateFromTime t <= 31.
Proof.
  pose proof (DayWithinYear_range t) as H.
  unfold DateFromTime, MonthFromTime, InLeapYear in *.
  destruct (Z.eqb_spec (DaysInYear (YearFromTime t)) 366) as [E|E].
  - rewrite E in H.
    repeat match goal with
           | |- context [if ?a <? ?b then _ else _] =>
               destruct (Z.ltb_spec a b)
           end; lia.
  - pose proof (DaysInYear_range (YearFromTime t)).
    repeat match goal with
           | |- context [if ?a <? ?b then _ else _] =>
               destruct (Z.ltb_spec a b)
           end; lia.
Qed.

(** Numbers below 10000 have at most four digits. *)
Lemma toString_length_4 (z : Z) :
  0 <= z <= 9999 -> (String.length (JS.toString z) <= 4)%nat.
Proof.
  intros H.
  assert (C : forallb (fun n => String.length (JS.toString (Z.of_nat n)) <=? 4)%nat
                      (seq 0 (Z.to_nat 10000)) = true)
    by (vm_compute; reflexivity).
  rewrite forallb_forall in C.
  specialize (C (Z.to_nat z)). rewrite Z2Nat.id in C by lia.
  apply Nat.leb_le, C, in_seq. lia.
Qed.

Lemma toString_length_2 (z : Z) :
  0 <= z <= 99 -> (String.length (JS.toString z) <= 2)%nat.
Proof.
  intros H.
  assert (C : forallb (fun n => String.length (JS.toString (Z.of_nat n)) <=? 2)%nat
                      (seq 0 (Z.to_nat 100)) = true)
    by (vm_compute; reflexivity).
  rewrite forallb_forall in C.
  specialize (C (Z.to_nat z)). rewrite Z2Nat.id in C by lia.
  apply Nat.leb_le, C, in_seq. lia.
Qed.

(** The three date parts of the prefix have four, two and two
    characters (four for the years 0 to 9999). *)
Lemma date_parts_length (t : Z) :
  (0 <= getUTCFullYear t <= 9999 ->
   String.length (pad 4 (getUTCFullYear t)) = 4%nat)
  /\ String.length (pad 2 (getUTCMonth t + 1)) = 2%nat
  /\ String.length (pad 2 (getUTCDate t)) = 2%nat.
Proof.
  unfold pad, getUTCMonth, getUTCDate.
  pose proof (MonthFromTime_range t). pose proof (DateFromTime_range t).
  repeat split; intros; apply padStart_length;
    [apply toString_length_4 | apply toString_length_2
     | apply toString_length_2]; lia.
Qed.

(** The time value is the rounded sum: a nanosecond before midnight is
    the next day, a fraction of 0.9999 ms counts as a whole millisecond,
    and 0.6 ms past the last valid time is past it. *)
Lemma ofSecondsNanos_rounds :
  ofSecondsNanos 1700006399 0 = Some 1700006399000
  /\ ofSecondsNanos 1700006399 999999999 = Some 1700006400000
  /\ ofSecondsNanos 1700000000 123999900 = Some 1700000000124
  /\ ofSecondsNanos 8640000000000 0 = Some 8640000000000000
  /\ ofSecondsNanos 8640000000000 600000 = None.
Proof. vm_compute. repeat split. Qed.

End DateFacts.

(* ================================================================== *)
(** * The handler, case by case *)
(* ================================================================== *)

Section HandlerFacts.
Import SnapshotMetadata.

Ltac case_response :=
  match goal with
  | H : context [match ?r with Fulfilled _ => _ | Rejected _ => _ end] |- _ =>
      destruct r eqn:?; simpl in H
  | |- context [match ?r with Fulfilled _ => _ | Rejected _ => _ end] =>
      destruct r eqn:?; simpl
  end.

Ltac run_monad :=
  cbv [invoke metadataHandler checkBucketOwner await send suspend assert
       log get_locals bind ret throw settle jobs locals calls initial
       fold_left app].

Ltac run_monad_in H :=
  cbv [invoke metadataHandler checkBucketOwner await send suspend assert
       log get_locals bind ret throw settle jobs locals calls initial
       fold_left app] in H.

(** When and with what an invocation returns. *)
Lemma invoke_return (w : World) (ev : BackupEvent) md st :
  invoke w ev = (Return md, st) <->
  (state ev = "COMPLETED"
   /\ vault_name_ok (backupVaultName ev) = true
   /\ ARN_validate (resourceArn ev) = true
   /\ ARN_validate (recoveryPointArn ev) = true
   /\ exists v b t bs,
       env_VALIDAZS w = Some v /\ env_BUCKET w = Some b
       /\ s3_listBuckets w = Fulfilled bs
       /\ existsb (String.eqb b) bs = true
       /\ JSDate.ofSecondsNanos (creationDate_seconds ev)
                                (creationDate_nanos ev) = Some t
       /\ fetch w ev listed = (Return tt, st)
       /\ md = returned w ev (JS.split "," v) b t (locals st)).
Proof.
  split.
  - unfold invoke, metadataHandler.
    destruct (state ev =? "COMPLETED") eqn:Hs; [|discriminate].
    apply String.eqb_eq in Hs.
    destruct (env_VALIDAZS w) as [v|]; [|discriminate].
    destruct (vault_name_ok (backupVaultName ev)); [|discriminate].
    destruct (ARN_validate (resourceArn ev)); [|discriminate].
    destruct (ARN_validate (recoveryPointArn ev)); [|discriminate].
    intros H.
    destruct (env_BUCKET w) as [b|];
      [|run_monad_in H; destruct (s3_listBuckets w);
        cbv beta iota zeta in H; discriminate].
    split; [exact Hs|]. repeat (split; [reflexivity|]).
    run_monad_in H.
    destruct (s3_listBuckets w) as [bs|]; cbv beta iota zeta in H;
      [|discriminate].
    destruct (existsb (String.eqb b) bs) eqn:Hb; cbv beta iota zeta in H;
      [|discriminate].
    fold listed in H.
    destruct (fetch w ev listed) as [[[]|e] st'] eqn:Hf;
      cbv beta iota zeta in H; [|discriminate].
    destruct (JSDate.ofSecondsNanos (creationDate_seconds ev)
                                    (creationDate_nanos ev)) as [t|];
      [|discriminate].
    injection H as <- <-. exists v, b, t, bs. auto 10.
  - intros (Hs & Hv & Ha & Hr & v & b & t & bs
            & Ev & Eb & El & Hb & Et & Hf & ->).
    unfold invoke, metadataHandler.
    rewrite Hs, Ev, Hv, Ha, Hr, Eb. simpl.
    run_monad. rewrite El, Hb. fold listed. rewrite Hf, Et. reflexivity.
Qed.

(** The random source only decides the availability zone. *)
Lemma invoke_with_random (r : JSNumber.Number) (w : World) (ev : BackupEvent) md st :
  invoke w ev = (Return md, st) ->
  exists v,
    env_VALIDAZS w = Some v
    /\ AvailabilityZone md = pick_az (Math_random w) (JS.split "," v)
    /\ exists md',
        invoke (with_random r w) ev = (Return md', st)
        /\ AvailabilityZone md' = pick_az r (JS.split "," v).
Proof.
  intros H. apply invoke_return in H
    as (Hs & Hv & Ha & Hr & v & b & t & bs & Ev & Eb & El & Hb & Et & Hf & ->).
  exists v. repeat split; auto.
  exists (returned (with_random r w) ev (JS.split "," v) b t (locals st)).
  split; [|reflexivity].
  apply invoke_return. repeat (split; [assumption|]).
  exists v, b, t, bs. repeat split; solve [assumption | exact Hf].
Qed.

(** The Aurora and RDS cases of the [switch]: two requests are sent, a
    reaction is registered, and the variables are as before. *)
Lemma fetch_rds (w : World) (ev : BackupEvent) (s : HState) :
  resourceType ev = "Aurora" \/ resourceType ev = "RDS" ->
  exists c r,
    fetch w ev s = (Return tt, {| locals := locals s;
                                  calls := calls s ++ [c; RDS_listTagsForResource (resourceArn ev)];
                                  jobs := jobs s ++ [r] |}).
Proof.
  intros [E|E]; unfold fetch; rewrite E; simpl;
    cbv [bind send log then_ locals calls jobs]; rewrite <- app_assoc;
    eexists _, _; reflexivity.
Qed.

(** Whatever the two services answer, an invocation for an Aurora or RDS
    snapshot that returns, returns the initial [engine] and [tags]. *)
Lemma rds_returns_defaults (w : World) (ev : BackupEvent) md st :
  resourceType ev = "Aurora" \/ resourceType ev = "RDS" ->
  invoke w ev = (Return md, st) ->
  Engine md = "" /\ Tags md = [].
Proof.
  intros Ht H. apply invoke_return in H
    as (_ & _ & _ & _ & v & b & t & bs & _ & _ & _ & _ & _ & Hf & ->).
  destruct (fetch_rds w ev listed Ht) as (c & r & E).
  rewrite E in Hf. injection Hf as <-. split; reflexivity.
Qed.

End HandlerFacts.

(* ================================================================== *)
(** * The returned fields *)
(* ================================================================== *)

Section FieldFacts.
Import SnapshotMetadata.

Lemma split_length_pos (sep : ascii) (s : string) :
  (0 < List.length (JS.split sep s))%nat.
Proof.
  pose proof (split_not_nil sep s).
  destruct (JS.split sep s); [congruence | simpl; lia].
Qed.

(** The chosen zone is one of the list.  An array has fewer than [2^32]
    elements. *)
Lemma pick_az_member (r : JSNumber.Number) (l : list string) :
  JSNumber.in_unit_interval r = true ->
  (0 < List.length l)%nat ->
  (Z.of_nat (List.length l) < 2 ^ 32)%Z ->
  exists a, pick_az r l = Some a /\ In a l.
Proof.
  intros Hr Hl Hn. unfold pick_az.
  destruct (floor_mul_index r (Z.of_nat (List.length l)) Hr)
    as (i & -> & Lo & Hi); [lia|].
  unfold JS.index. destruct (Z.ltb_spec i 0); [lia|].
  destruct (nth_error l (Z.to_nat i)) as [a|] eqn:E.
  - exists a. split; [reflexivity|]. eapply nth_error_In; eauto.
  - apply nth_error_None in E. lia.
Qed.

(** Every zone of the list is chosen by some value of the random
    source. *)
Lemma pick_az_reach (l : list string) (a : string) :
  (Z.of_nat (List.length l) < 2 ^ 32)%Z ->
  In a l ->
  exists r, JSNumber.in_unit_interval r = true /\ pick_az r l = Some a.
Proof.
  intros Hn H. apply In_nth_error in H as [i Hi].
  assert (Hlt : (i < List.length l)%nat)
    by (apply nth_error_Some; congruence).
  destruct (selecting_spec (Z.of_nat i) (Z.of_nat (List.length l)))
    as [Hr Hf]; [lia | exact Hn |].
  exists (JSNumber.selecting (Z.of_nat i) (Z.of_nat (List.length l))).
  split; [exact Hr|].
  unfold pick_az. rewrite Hf. unfold JS.index.
  destruct (Z.ltb_spec (Z.of_nat i) 0); [lia|].
  now rewrite Nat2Z.id.
Qed.

(** The product is rounded before [Math.floor]: of three zones,
    [0.6666666666666666] chooses the third. *)
Lemma pick_az_rounds :
  Examples.two_thirds = S754_finite false 6004799503160661 (-53)
  /\ pick_az Examples.two_thirds ["a"; "b"; "c"] = Some "c".
Proof. vm_compute. split; reflexivity. Qed.

(** [snapshot_id] is the part of the ARN after its last ['/'], or all of
    it when it has none. *)
Lemma snapshot_id_spec (arn : string) :
  exists x,
    snapshot_id arn = Some x /\ JS.contains "/" x = false
    /\ (arn = x \/ exists pre, arn = (pre ++ "/" ++ x)%string).
Proof.
  destruct (split_last "/" arn) as (pre & x & E & Hx & Hs).
  exists x. unfold snapshot_id. rewrite E, slice_last_snoc.
  split; [reflexivity|]. split; [exact Hx|].
  destruct Hs as [[_ ->] | [_ ->]]; [now left | right; eauto].
Qed.

Lemma snapshot_id_after (pre x : string) :
  JS.contains "/" x = false ->
  snapshot_id (pre ++ "/" ++ x) = Some x.
Proof.
  intros Hx. unfold snapshot_id. simpl.
  rewrite split_app, (split_without _ _ Hx), slice_last_snoc. reflexivity.
Qed.

Lemma snapshot_id_whole (arn : string) :
  JS.contains "/" arn = false -> snapshot_id arn = Some arn.
Proof.
  intros H. unfold snapshot_id. now rewrite (split_without _ _ H).
Qed.

(** The prefix, written out. *)
Lemma s3_prefix_eq (arn : string) (t : Z) (job : string) :
  s3_prefix arn t job =
  ((((JS.join "/" (JS.split ":" arn)
      ++ "/" ++ ("Y=" ++ JSDate.pad 4 (JSDate.getUTCFullYear t)))
     ++ "/" ++ ("M=" ++ JSDate.pad 2 (JSDate.getUTCMonth t + 1)))
    ++ "/" ++ ("D=" ++ JSDate.pad 2 (JSDate.getUTCDate t)))
   ++ "/" ++ job)%string.
Proof.
  unfold s3_prefix, JSDate.pad.
  set (l := JS.split ":" arn).
  assert (Hl : l <> []) by apply split_not_nil.
  match goal with
  | |- JS.join _ (l ++ [?a; ?b; ?c; ?d]) = _ =>
      change (l ++ [a; b; c; d]) with (l ++ [a] ++ [b] ++ [c] ++ [d])
  end.
  rewrite !app_assoc.
  rewrite !join_app; try reflexivity; try exact Hl;
    intros E; apply (f_equal (@List.length string)) in E;
    rewrite ?length_app in E; simpl in E; lia.
Qed.

End FieldFacts.

(* ================================================================== *)
(** * Properties of the metadata resolver *)
(* ================================================================== *)

Section ResolverClaims.
Import SnapshotMetadata.

(** The [EBS] case of the [switch] goes through when [describeTags]
    answers. *)
Lemma fetch_ebs (w : World) (ev : BackupEvent) (s : HState) tg :
  resourceType ev = "EBS" ->
  ec2_describeTags w (JS.index (JS.split "/" (resourceArn ev)) 1)
    = Fulfilled tg ->
  exists s', fetch w ev s = (Return tt, s').
Proof.
  intros E H. unfold fetch. rewrite E. simpl.
  cbv [bind await send suspend log set_tags ret]. rewrite H.
  eexists. reflexivity.
Qed.

(** C3 as stated does not hold: two jobs created one second apart on the
    same day, two resource ARNs that differ in a [':'] against a ['/'],
    and two job ids one of which contains ['/'], each give one prefix
    for two different triples. *)
Lemma C3_counterexample :
  ~ (forall w ev1 ev2 md1 md2 st1 st2,
        invoke w ev1 = (Return md1, st1) ->
        invoke w ev2 = (Return md2, st2) ->
        (resourceArn ev1, (creationDate_seconds ev1, creationDate_nanos ev1),
         backupJobId ev1)
        <> (resourceArn ev2, (creationDate_seconds ev2, creationDate_nanos ev2),
            backupJobId ev2) ->
        S3Prefix md1 <> S3Prefix md2)
  /\ (exists md1 st1 md2 st2,
        invoke Examples.world
          (Examples.ebs_event_with
             "arn:aws:ec2:us-east-1:123456789012:volume/vol-0123" "job-42")
        = (Return md1, st1)
        /\ invoke Examples.world
             (Examples.ebs_event_with
                "arn:aws:ec2:us-east-1:123456789012:volume:vol-0123" "job-42")
           = (Return md2, st2)
        /\ S3Prefix md1 = S3Prefix md2)
  /\ (exists md1 st1 md2 st2,
        invoke Examples.world
          (Examples.ebs_event_with
             "arn:aws:ec2:us-east-1:123456789012:volume/vol-0123"
             "Y=2023/M=11/D=14/job-42")
        = (Return md1, st1)
        /\ invoke Examples.world
             (Examples.ebs_event_with
                "arn:aws:ec2:us-east-1:123456789012:volume/vol-0123:Y=2023:M=11:D=14"
                "job-42")
           = (Return md2, st2)
        /\ S3Prefix md1 = S3Prefix md2).
Proof.
  split; [|split].
  - intros H.
    destruct (invoke Examples.world (Examples.ebs_event 1700000000))
      as [r1 st1] eqn:E1.
    destruct (invoke Examples.world (Examples.ebs_event 1700000001))
      as [r2 st2] eqn:E2.
    vm_compute in E1, E2.
    injection E1 as <- <-. injection E2 as <- <-.
    eapply (H Examples.world (Examples.ebs_event 1700000000)
              (Examples.ebs_event 1700000001));
      [vm_compute; reflexivity | vm_compute; reflexivity
       | simpl; congruence | reflexivity].
  - do 4 eexists. split; [vm_compute; reflexivity|].
    split; [vm_compute; reflexivity | reflexivity].
  - do 4 eexists. split; [vm_compute; reflexivity|].
    split; [vm_compute; reflexivity | reflexivity].
Qed.

Lemma s3_prefix_same_day (arn : string) (t1 t2 : Z) (job : string) :
  JSDate.utc_day t1 = JSDate.utc_day t2 ->
  s3_prefix arn t1 job = s3_prefix arn t2 job.
Proof.
  unfold JSDate.utc_day, s3_prefix. intros [= -> -> ->]. reflexivity.
Qed.

Lemma s3_prefix_inj (arn1 arn2 : string) (t1 t2 : Z) (job1 job2 : string) :
  JS.contains "/" job1 = false -> JS.contains "/" job2 = false ->
  s3_prefix arn1 t1 job1 = s3_prefix arn2 t2 job2 ->
  job1 = job2 /\ JSDate.utc_day t1 = JSDate.utc_day t2
  /\ JS.join "/" (JS.split ":" arn1) = JS.join "/" (JS.split ":" arn2).
Proof.
  intros H1 H2 E. rewrite !s3_prefix_eq in E.
  assert (P : forall k n z, JS.contains "/" (String k (String "=" (JSDate.pad n z)))
                            = JS.contains "/" (String k "")).
  { intros. simpl. rewrite pad_no_slash. now rewrite !orb_false_r. }
  apply last_segment_inj in E as [E Ej]; try assumption.
  apply last_segment_inj in E as [E Ed];
    try (simpl append; rewrite P; reflexivity).
  apply last_segment_inj in E as [E Em];
    try (simpl append; rewrite P; reflexivity).
  apply last_segment_inj in E as [E Ey];
    try (simpl append; rewrite P; reflexivity).
  simpl in Ed, Em, Ey.
  injection Ed as Ed. injection Em as Em. injection Ey as Ey.
  apply pad_inj in Ed, Em, Ey.
  repeat split; try assumption.
  unfold JSDate.utc_day. rewrite Ey, Ed. f_equal. f_equal. lia.
Qed.

(** C3, amended: the prefix is a function of the resource ARN, the UTC
    calendar day of the creation date and the job id: jobs that agree on
    the three get the same prefix.  Conversely, when neither job id
    contains ['/'], jobs with the same prefix have the same job id, the
    same UTC calendar day, and resource ARNs that are equal once every
    [':'] is read as ['/']. *)
Theorem C3_prefix_deterministic_and_separating
  (w1 w2 : World) (ev1 ev2 : BackupEvent) md1 md2 st1 st2 :
  invoke w1 ev1 = (Return md1, st1) ->
  invoke w2 ev2 = (Return md2, st2) ->
  exists t1 t2,
    JSDate.ofSecondsNanos (creationDate_seconds ev1) (creationDate_nanos ev1)
    = Some t1
    /\ JSDate.ofSecondsNanos (creationDate_seconds ev2) (creationDate_nanos ev2)
       = Some t2
    /\ (resourceArn ev1 = resourceArn ev2 ->
        JSDate.utc_day t1 = JSDate.utc_day t2 ->
        backupJobId ev1 = backupJobId ev2 ->
        S3Prefix md1 = S3Prefix md2)
    /\ (JS.contains "/" (backupJobId ev1) = false ->
        JS.contains "/" (backupJobId ev2) = false ->
        S3Prefix md1 = S3Prefix md2 ->
        backupJobId ev1 = backupJobId ev2
        /\ JSDate.utc_day t1 = JSDate.utc_day t2
        /\ JS.join "/" (JS.split ":" (resourceArn ev1))
           = JS.join "/" (JS.split ":" (resourceArn ev2))).
Proof.
  intros H1 H2.
  apply invoke_return in H1
    as (_ & _ & _ & _ & v1 & b1 & t1 & bs1 & _ & _ & _ & _ & Et1 & _ & ->).
  apply invoke_return in H2
    as (_ & _ & _ & _ & v2 & b2 & t2 & bs2 & _ & _ & _ & _ & Et2 & _ & ->).
  exists t1, t2. repeat (split; [assumption|]). simpl. split.
  - intros -> Hd ->. now apply s3_prefix_same_day.
  - apply s3_prefix_inj.
Qed.

Lemma C3_witness :
  exists md1 md2 st1 st2 t1 t2,
    invoke Examples.world (Examples.ebs_event 1700000000) = (Return md1, st1)
    /\ invoke Examples.world (Examples.ebs_event 1700000001) = (Return md2, st2)
    /\ JSDate.ofSecondsNanos 1700000000 0 = Some t1
    /\ JSDate.ofSecondsNanos 1700000001 0 = Some t2
    /\ JSDate.utc_day t1 = JSDate.utc_day t2
    /\ S3Prefix md1 = S3Prefix md2.
Proof.
  destruct (invoke Examples.world (Examples.ebs_event 1700000000))
    as [r1 st1] eqn:E1.
  destruct (invoke Examples.world (Examples.ebs_event 1700000001))
    as [r2 st2] eqn:E2.
  pose proof E1 as F1. pose proof E2 as F2.
  vm_compute in F1, F2. injection F1 as <- <-. injection F2 as <- <-.
  destruct (C3_prefix_deterministic_and_separating _ _ _ _ _ _ _ _ E1 E2)
    as (t1 & t2 & Et1 & Et2 & Hsame & _).
  do 4 eexists. exists t1, t2.
  split; [reflexivity|]. split; [reflexivity|].
  split; [exact Et1|]. split; [exact Et2|].
  assert (D : JSDate.utc_day t1 = JSDate.utc_day t2).
  { vm_compute in Et1, Et2. injection Et1 as <-. injection Et2 as <-.
    vm_compute. reflexivity. }
  split; [exact D|]. apply Hsame; [reflexivity | exact D | reflexivity].
Defined.

(** C4 fails on the code, here on an Aurora job whose descriptor names
    the engine [aurora-mysql] and whose tag list has one tag: the two
    requests are sent, the invocation returns [Engine = ""] and
    [Tags = []], and the callback that would assign the fetched values
    is still waiting when it returns; when both requests are rejected
    the invocation returns all the same. *)
Theorem C4_aurora_engine_and_tags_not_returned :
  rds_describeDBClusterSnapshots Examples.world Examples.aurora_arn
  = Fulfilled ["aurora-mysql"]
  /\ rds_listTagsForResource Examples.world Examples.aurora_arn
     = Fulfilled [Examples.tag]
  /\ (exists md st,
        invoke Examples.world Examples.aurora_event = (Return md, st)
        /\ calls st = [S3_listBuckets;
                       RDS_describeDBClusterSnapshots Examples.aurora_arn;
                       RDS_listTagsForResource Examples.aurora_arn]
        /\ Engine md = "" /\ Tags md = []
        /\ settle st = {| tags := [Examples.tag]; engine := "aurora-mysql" |})
  /\ (exists md st,
        invoke Examples.rds_down Examples.aurora_event = (Return md, st)).
Proof.
  split; [reflexivity|]. split; [reflexivity|]. split.
  - do 2 eexists. split; [vm_compute; reflexivity|]. repeat split.
  - do 2 eexists. vm_compute. reflexivity.
Qed.

(** C5: an event whose state is not [COMPLETED] makes the handler throw
    an error whose message carries the job id and the state, and the
    handler has then sent no request and registered no callback. *)
Theorem C5_not_completed_throws_without_calls (w : World) (ev : BackupEvent) :
  state ev <> "COMPLETED" ->
  exists st,
    invoke w ev
    = (Throw (Error ("Backup job " ++ backupJobId ev
                     ++ " terminated in state " ++ state ev)), st)
    /\ calls st = [] /\ jobs st = [] /\ st = initial.
Proof.
  intros H. exists initial. unfold invoke, metadataHandler.
  destruct (String.eqb_spec (state ev) "COMPLETED"); [contradiction|].
  repeat split.
Qed.

Lemma C5_witness :
  exists st,
    invoke Examples.world Examples.failed_event
    = (Throw (Error "Backup job job-9 terminated in state FAILED"), st)
    /\ calls st = [] /\ jobs st = [] /\ st = initial.
Proof.
  apply (C5_not_completed_throws_without_calls
           Examples.world Examples.failed_event).
  simpl. discriminate.
Defined.

(** C8 as stated does not hold: the year of the prefix does not always
    have four digits.  For a job created in the first second of the
    year 10000 the handler returns a prefix with [Y=10000]. *)
Lemma C8_counterexample :
  ~ (forall w ev md st,
        invoke w ev = (Return md, st) ->
        exists y m d,
          String.length y = 4%nat /\ String.length m = 2%nat
          /\ String.length d = 2%nat
          /\ S3Prefix md
             = (JS.join "/" (JS.split ":" (resourceArn ev))
                ++ "/Y=" ++ y ++ "/M=" ++ m ++ "/D=" ++ d
                ++ "/" ++ backupJobId ev)%string)
  /\ (exists md st,
        invoke Examples.world (Examples.ebs_event 253402300800)
        = (Return md, st)
        /\ S3Prefix md
           = "arn/aws/ec2/us-east-1/123456789012/volume/vol-0123/Y=10000/M=01/D=01/job-42").
Proof.
  split.
  - intros H.
    destruct (invoke Examples.world (Examples.ebs_event 253402300800))
      as [[md|e] st] eqn:E; vm_compute in E; [|discriminate E].
    injection E as <- <-.
    edestruct (H Examples.world (Examples.ebs_event 253402300800))
      as (y & m & d & Hy & Hm & Hd & P); [vm_compute; reflexivity|].
    apply (f_equal String.length) in P.
    rewrite !length_append, Hy, Hm, Hd in P.
    vm_compute in P. discriminate P.
  - do 2 eexists. split; [vm_compute; reflexivity | reflexivity].
Qed.

(** C8, amended: the prefix of a returned record is the [':']-segments
    of the resource ARN joined by ['/'], then [Y=] and the UTC year, [M=]
    and the month, [D=] and the day, then the job id; the month and the
    day have two digits and the years 0 to 9999 four.  For the job of the
    scenario (whatever stands in the ARNs for the elided part) the
    handler returns a record whose prefix ends in
    [/Y=2023/M=11/D=14/job-42] and whose snapshot id is [snap-0123]. *)
Theorem C8_prefix_format_and_scenario :
  (forall w ev md st,
      invoke w ev = (Return md, st) ->
      exists t,
        JSDate.ofSecondsNanos (creationDate_seconds ev) (creationDate_nanos ev)
        = Some t
        /\ S3Prefix md
           = (JS.join "/" (JS.split ":" (resourceArn ev))
              ++ "/Y=" ++ JSDate.pad 4 (JSDate.getUTCFullYear t)
              ++ "/M=" ++ JSDate.pad 2 (JSDate.getUTCMonth t + 1)
              ++ "/D=" ++ JSDate.pad 2 (JSDate.getUTCDate t)
              ++ "/" ++ backupJobId ev)%string
        /\ ((0 <= JSDate.getUTCFullYear t <= 9999)%Z ->
            String.length (JSDate.pad 4 (JSDate.getUTCFullYear t)) = 4%nat)
        /\ String.length (JSDate.pad 2 (JSDate.getUTCMonth t + 1)) = 2%nat
        /\ String.length (JSDate.pad 2 (JSDate.getUTCDate t)) = 2%nat)
  /\ (forall w ev mid1 mid2 v b bs tg,
        state ev = "COMPLETED" ->
        resourceType ev = "EBS" ->
        resourceArn ev = ("arn:aws:ec2:" ++ mid1 ++ ":volume/vol-0123")%string ->
        recoveryPointArn ev
        = ("arn:aws:ec2:" ++ mid2 ++ ":snapshot/snap-0123")%string ->
        creationDate_seconds ev = 1700000000%Z ->
        creationDate_nanos ev = 0%Z ->
        backupJobId ev = "job-42" ->
        vault_name_ok (backupVaultName ev) = true ->
        ARN_validate (resourceArn ev) = true ->
        ARN_validate (recoveryPointArn ev) = true ->
        env_VALIDAZS w = Some v ->
        env_BUCKET w = Some b ->
        s3_listBuckets w = Fulfilled bs ->
        existsb (String.eqb b) bs = true ->
        ec2_describeTags w (JS.index (JS.split "/" (resourceArn ev)) 1)
        = Fulfilled tg ->
        exists md st pre,
          invoke w ev = (Return md, st)
          /\ S3Prefix md = (pre ++ "/Y=2023/M=11/D=14/job-42")%string
          /\ SnapshotId md = Some "snap-0123").
Proof.
  split.
  - intros w ev md st H. apply invoke_return in H
      as (_ & _ & _ & _ & v & b & t & bs & _ & _ & _ & _ & Et & _ & ->).
    exists t. split; [exact Et|]. split.
    + simpl. rewrite s3_prefix_eq. now rewrite !append_assoc.
    + apply date_parts_length.
  - intros w ev mid1 mid2 v b bs tg Hs Hty Ha Hr Hsec Hn Hj Hv Hva Hvr
           Ev Eb El Hb Hd.
    destruct (fetch_ebs w ev listed tg Hty Hd) as [st Hf].
    exists (returned w ev (JS.split "," v) b 1700000000000 (locals st)), st.
    exists (JS.join "/" (JS.split ":" (resourceArn ev))).
    split; [|split].
    + apply invoke_return. repeat (split; [assumption|]).
      exists v, b, 1700000000000%Z, bs. repeat (split; [assumption|]).
      split; [now rewrite Hsec, Hn|]. split; [exact Hf | reflexivity].
    + simpl. rewrite s3_prefix_eq, Hj. now rewrite !append_assoc.
    + simpl. rewrite Hr.
      replace ("arn:aws:ec2:" ++ mid2 ++ ":snapshot/snap-0123")%string
        with (("arn:aws:ec2:" ++ mid2 ++ ":snapshot") ++ "/" ++ "snap-0123")%string
        by (now rewrite !append_assoc).
      now apply snapshot_id_after.
Qed.

Lemma C8_witness :
  (exists t,
      JSDate.ofSecondsNanos 1700000000 0 = Some t
      /\ String.length (JSDate.pad 4 (JSDate.getUTCFullYear t)) = 4%nat
      /\ S3Prefix (returned Examples.world (Examples.ebs_event 1700000000)
                     ["us-east-1a"; "us-east-1b"] "backup-bucket"
                     1700000000000 {| tags := [Examples.tag]; engine := "" |})
         = ("arn/aws/ec2/us-east-1/123456789012/volume/vol-0123"
            ++ "/Y=" ++ JSDate.pad 4 (JSDate.getUTCFullYear t)
            ++ "/M=" ++ JSDate.pad 2 (JSDate.getUTCMonth t + 1)
            ++ "/D=" ++ JSDate.pad 2 (JSDate.getUTCDate t)
            ++ "/" ++ "job-42")%string)
  /\ (exists md st pre,
        invoke Examples.world (Examples.ebs_event 1700000000) = (Return md, st)
        /\ S3Prefix md = (pre ++ "/Y=2023/M=11/D=14/job-42")%string
        /\ SnapshotId md = Some "snap-0123").
Proof.
  split.
  - destruct (proj1 C8_prefix_format_and_scenario
                Examples.world (Examples.ebs_event 1700000000)
                (returned Examples.world (Examples.ebs_event 1700000000)
                   ["us-east-1a"; "us-east-1b"] "backup-bucket"
                   1700000000000 {| tags := [Examples.tag]; engine := "" |})
                {| locals := {| tags := [Examples.tag]; engine := "" |};
                   calls := [S3_listBuckets; EC2_describeTags (Some "vol-0123")];
                   jobs := [] |})
      as (t & Et & Ep & Hy & _); [vm_compute; reflexivity|].
    exists t. split; [exact Et|]. split; [|exact Ep].
    apply Hy. pose proof Et as Et'. vm_compute in Et'. injection Et' as <-.
    vm_compute. split; discriminate.
  - apply (proj2 C8_prefix_format_and_scenario
             Examples.world (Examples.ebs_event 1700000000)
             "us-east-1:123456789012" "us-east-1:"
             "us-east-1a,us-east-1b" "backup-bucket"
             ["logs"; "backup-bucket"] [Examples.tag]);
      reflexivity.
Defined.

(** C9: with [Math.random()] in [0,1), the zone of a returned record
    is one of the [','] segments of [VALIDAZS], and for every segment
    there is a value of [Math.random()] in [0,1) with which the same
    invocation returns that zone.  The product of the random value and
    the length is rounded to a double before [Math.floor]; the list of
    zones is an array and as such has fewer than [2^32] elements. *)
Theorem C9_zone_member_and_reachable
  (w : World) (ev : BackupEvent) md st :
  JSNumber.in_unit_interval (Math_random w) = true ->
  (forall v, env_VALIDAZS w = Some v ->
             (Z.of_nat (List.length (JS.split "," v)) < 2 ^ 32)%Z) ->
  invoke w ev = (Return md, st) ->
  exists v,
    env_VALIDAZS w = Some v
    /\ (exists a, AvailabilityZone md = Some a /\ In a (JS.split "," v))
    /\ (forall a, In a (JS.split "," v) ->
          exists r md',
            JSNumber.in_unit_interval r = true
            /\ invoke (with_random r w) ev = (Return md', st)
            /\ AvailabilityZone md' = Some a).
Proof.
  intros Hr Hn H.
  destruct (invoke_with_random (Math_random w) w ev md st H)
    as (v & Ev & Ea & _).
  specialize (Hn v Ev).
  exists v. split; [exact Ev|]. split.
  - rewrite Ea. apply pick_az_member; auto. apply split_length_pos.
  - intros a Ha. destruct (pick_az_reach _ _ Hn Ha) as (r & Rr & Hz').
    destruct (invoke_with_random r w ev md st H)
      as (v' & Ev' & _ & md' & Hi & Hz).
    rewrite Ev in Ev'. injection Ev' as <-.
    exists r, md'. rewrite Hz. auto.
Qed.

Lemma C9_witness :
  exists v,
    env_VALIDAZS Examples.world = Some v
    /\ (exists a, Some "us-east-1b" = Some a /\ In a (JS.split "," v))
    /\ (forall a, In a (JS.split "," v) ->
          exists r md',
            JSNumber.in_unit_interval r = true
            /\ invoke (with_random r Examples.world)
                 (Examples.ebs_event 1700000000)
               = (Return md',
                  {| locals := {| tags := [Examples.tag]; engine := "" |};
                     calls := [S3_listBuckets;
                               EC2_describeTags (Some "vol-0123")];
                     jobs := [] |})
            /\ AvailabilityZone md' = Some a).
Proof.
  apply (C9_zone_member_and_reachable
           Examples.world (Examples.ebs_event 1700000000)
           (returned Examples.world (Examples.ebs_event 1700000000)
              ["us-east-1a"; "us-east-1b"] "backup-bucket"
              1700000000000 {| tags := [Examples.tag]; engine := "" |})).
  - vm_compute. reflexivity.
  - intros v [= <-]. vm_compute. reflexivity.
  - vm_compute. reflexivity.
Defined.

(** C10: the snapshot id of a returned record is a string without ['/']
    that is the whole recovery-point ARN when the ARN has no ['/'] (and
    it is then not empty), and otherwise what follows the last ['/'] of
    the ARN. *)
Theorem C10_snapshot_id_after_last_slash
  (w : World) (ev : BackupEvent) md st :
  invoke w ev = (Return md, st) ->
  exists x,
    SnapshotId md = Some x
    /\ JS.contains "/" x = false
    /\ (recoveryPointArn ev = x
        \/ exists pre, recoveryPointArn ev = (pre ++ "/" ++ x)%string)
    /\ (JS.contains "/" (recoveryPointArn ev) = false ->
        x = recoveryPointArn ev /\ x <> "").
Proof.
  intros H. apply invoke_return in H
    as (_ & _ & _ & Hr & v & b & t & bs & _ & _ & _ & _ & _ & _ & ->).
  destruct (snapshot_id_spec (recoveryPointArn ev)) as (x & Ex & Hx & Hs).
  exists x. simpl. repeat (split; [assumption|]).
  intros Hn. rewrite (snapshot_id_whole _ Hn) in Ex. injection Ex as <-.
  split; [reflexivity|]. intros E. rewrite E in Hr. discriminate.
Qed.

Lemma C10_witness :
  exists x,
    Some "arn:aws:rds:us-east-1:123456789012:snapshot:awsbackup:job-8" = Some x
    /\ JS.contains "/" x = false
    /\ (recoveryPointArn Examples.rds_event = x
        \/ exists pre,
            recoveryPointArn Examples.rds_event = (pre ++ "/" ++ x)%string)
    /\ (JS.contains "/" (recoveryPointArn Examples.rds_event) = false ->
        x = recoveryPointArn Examples.rds_event /\ x <> "").
Proof.
  apply (C10_snapshot_id_after_last_slash
           Examples.world Examples.rds_event
           (returned Examples.world Examples.rds_event
              ["us-east-1a"; "us-east-1b"] "backup-bucket"
              1700000000000 {| tags := []; engine := "" |})
           {| locals := {| tags := []; engine := "" |};
              calls := [S3_listBuckets;
                        RDS_describeDBSnapshots (resourceArn Examples.rds_event);
                        RDS_listTagsForResource (resourceArn Examples.rds_event)];
              jobs := [ {| metadata := Fulfilled ["postgres"];
                           tagdata := Fulfilled [Examples.tag] |} ] |}).
  vm_compute. reflexivity.
Defined.

End ResolverClaims.

(* ================================================================== *)
(** * Facts about the interpreter *)
(* ================================================================== *)

(** Reference paths are literals: [paths] parses them where they stand, in
    the goal and in the hypotheses. *)
Ltac parse_paths :=
  repeat match goal with
         | |- context [ASL.parse_path ?r ?p] =>
             let q := eval vm_compute in (ASL.parse_path r p) in
             change (ASL.parse_path r p) with q
         | H : context [ASL.parse_path ?r ?p] |- _ =>
             let q := eval vm_compute in (ASL.parse_path r p) in
             change (ASL.parse_path r p) with q in H
         end.

Ltac paths :=
  cbv [ASL.lookup ASL.store ASL.lookup_context] in *;
  parse_paths; cbv beta iota in *.

Section InterpreterFacts.
Import ASL.

Lemma assoc_set_same (k : string) (v : json) (fields : list (string * json)) :
  assoc k (set_field k v fields) = Some v.
Proof.
  induction fields as [|[k' v'] r IH]; simpl.
  - now rewrite String.eqb_refl.
  - destruct (String.eqb k k') eqn:E; simpl; rewrite ?String.eqb_refl, ?E; auto.
Qed.

Lemma assoc_set_other (k k' : string) (v : json) (fields : list (string * json)) :
  k <> k' -> assoc k (set_field k' v fields) = assoc k fields.
Proof.
  intros H. induction fields as [|[k2 v2] r IH]; simpl.
  - destruct (String.eqb_spec k k'); [contradiction | reflexivity].
  - destruct (String.eqb_spec k' k2) as [<-|N]; simpl.
    + destruct (String.eqb_spec k k'); [contradiction | reflexivity].
    + destruct (String.eqb k k2); auto.
Qed.

Lemma lookup_root (d : json) : lookup "$" d = Some d.
Proof. reflexivity. Qed.

(** A document with a field is an object. *)
Lemma get_key_object (k : string) (q : list segment) (d v : json) :
  get (Key k :: q) d = Some v -> exists fields, d = JObject fields.
Proof. destruct d; simpl; try discriminate. eauto. Qed.

Section Run.
Context {S : Type}.
Variable def : S -> State S.
Variable ctx : json.

Lemma run_step (fuel : nat) (s : S) (d : json) (answers : list Response) :
  run def ctx (Datatypes.S fuel) s d answers =
  match step def ctx s d answers with
  | Next s' d' evs rest =>
      let (tr, o) := run def ctx fuel s' d' rest in (evs ++ tr, o)
  | Done o evs => (evs, Some o)
  | Blocked evs => (evs, None)
  end.
Proof. reflexivity. Qed.

End Run.

(** Every event of the attempts of a task is a call of that task, and
    all but the last have failed. *)
Lemma attempts_calls sv ac args rs left answers evs r :
  attempts sv ac args rs left answers = (evs, r) ->
  Forall (fun e => exists a, e = Called sv ac args a) evs.
Proof.
  revert left evs r. induction answers as [|a rest IH]; simpl; intros left evs r H.
  - injection H as <- _. constructor.
  - destruct a as [out|e c].
    + injection H as <- _. repeat constructor. eauto.
    + destruct (consume e rs left) as [left'|].
      * destruct (attempts sv ac args rs left' rest) as [evs' r'] eqn:E.
        injection H as <- _. constructor; eauto.
      * injection H as <- _. repeat constructor. eauto.
Qed.

Lemma attempts_answer sv ac args rs left answers evs a rest :
  attempts sv ac args rs left answers = (evs, Some (a, rest)) ->
  exists failed,
    evs = failed ++ [Called sv ac args a]
    /\ Forall (fun e => exists e' c, e = Called sv ac args (Failure e' c)) failed.
Proof.
  revert left evs. induction answers as [|x xs IH]; simpl; intros left evs H.
  - discriminate.
  - destruct x as [out|e c].
    + injection H as <- <- <-. exists []. split; [reflexivity | constructor].
    + destruct (consume e rs left) as [left'|].
      * destruct (attempts sv ac args rs left' xs) as [evs' r'] eqn:E.
        injection H as <- ->.
        destruct (IH _ _ E) as (failed & -> & F).
        exists (Called sv ac args (Failure e c) :: failed).
        split; [reflexivity | constructor; eauto].
      * injection H as <- <- <-. exists []. split; [reflexivity | constructor].
Qed.

Lemma attempts_blocked sv ac args rs left answers evs :
  attempts sv ac args rs left answers = (evs, None) ->
  Forall (fun e => exists e' c, e = Called sv ac args (Failure e' c)) evs.
Proof.
  revert left evs. induction answers as [|x xs IH]; simpl; intros left evs H.
  - injection H as <-. constructor.
  - destruct x as [out|e c]; [discriminate|].
    destruct (consume e rs left) as [left'|]; [|discriminate].
    destruct (attempts sv ac args rs left' xs) as [evs' r'] eqn:E.
    injection H as <- ->. constructor; eauto.
Qed.

(** What one task state does: its input cannot be built; or the answers
    run out; or a last attempt decides, after attempts that failed. *)
Lemma step_task_cases {S} (ctx : json) (s : S) (t : TaskProps S) (d : json)
  (answers : list Response) :
  (task_input ctx t d = None
   /\ step_task ctx s t d answers = Done (Aborted s "States.Runtime") [])
  \/ exists args evs,
      task_input ctx t d = Some args
      /\ ((step_task ctx s t d answers = Blocked evs
           /\ Forall (fun e => exists e' c,
                         e = Called (service t) (action t) args (Failure e' c))
                     evs)
          \/ exists a rest failed,
              evs = failed ++ [Called (service t) (action t) args a]
              /\ Forall (fun e => exists e' c,
                            e = Called (service t) (action t) args
                                       (Failure e' c)) failed
              /\ step_task ctx s t d answers
                 = match a with
                   | Success out =>
                       match task_result ctx t d out with
                       | Some d' => Next (next t) d' evs rest
                       | None => Done (Aborted s "States.Runtime") evs
                       end
                   | Failure e cause =>
                       match first_catcher e (catch t) with
                       | Some c =>
                           match store (catch_resultPath c)
                                       (error_output e cause) d with
                           | Some d' => Next (handler c) d' evs rest
                           | None => Done (Aborted s "States.Runtime") evs
                           end
                       | None => Done (Aborted s e) evs
                       end
                   end).
Proof.
  unfold step_task, runtime.
  destruct (task_input ctx t d) as [args|]; [right | left; auto].
  exists args.
  destruct (attempts (service t) (action t) args (retry t)
                     (map maxAttempts (retry t)) answers)
    as [evs [[a rest]|]] eqn:E; exists evs; (split; [reflexivity|]).
  - right. destruct (attempts_answer _ _ _ _ _ _ _ _ _ E) as (failed & -> & F).
    exists a, rest, failed. repeat split; auto.
  - left. split; [reflexivity|]. eapply attempts_blocked; eauto.
Qed.

Lemma issued_app sv ac (a b : list Event) :
  issued sv ac (a ++ b) = issued sv ac a || issued sv ac b.
Proof. apply existsb_app. Qed.

(** The calls of one task are calls of no other. *)
Lemma issued_other sv ac sv' ac' args (evs : list Event) :
  Forall (fun e => exists a, e = Called sv' ac' args a) evs ->
  String.eqb sv sv' && String.eqb ac ac' = false ->
  issued sv ac evs = false.
Proof.
  intros F N. induction F as [|e l [a ->] _ IH]; simpl; [reflexivity|].
  now rewrite N, IH.
Qed.

Lemma issued_self sv ac args a (evs : list Event) :
  issued sv ac (evs ++ [Called sv ac args a]) = true.
Proof.
  rewrite issued_app. simpl. rewrite !String.eqb_refl. simpl.
  now rewrite orb_true_r.
Qed.

Lemma get_cons_key k q fields :
  get (Key k :: q) (JObject fields)
  = match assoc k fields with Some v => get q v | None => None end.
Proof. reflexivity. Qed.

Lemma succeeded_app sv ac (a b : list Event) :
  succeeded sv ac (a ++ b) = succeeded sv ac a || succeeded sv ac b.
Proof. apply existsb_app. Qed.

Lemma succeeded_failures sv ac sv' ac' args (evs : list Event) :
  Forall (fun e => exists e' c, e = Called sv' ac' args (Failure e' c)) evs ->
  succeeded sv ac evs = false.
Proof.
  intros F. induction F as [|e l (e' & c & ->) _ IH]; simpl; auto.
Qed.

Lemma issued_failures sv ac sv' ac' args (evs : list Event) :
  Forall (fun e => exists e' c, e = Called sv' ac' args (Failure e' c)) evs ->
  String.eqb sv sv' && String.eqb ac ac' = false ->
  issued sv ac evs = false.
Proof.
  intros F N. apply issued_other with (sv' := sv') (ac' := ac') (args := args);
    [|exact N].
  eapply Forall_impl; [|exact F]. intros e (e' & c & ->). eauto.
Qed.

Lemma in_failures sv ac args sv' ac' args' a (evs : list Event) :
  Forall (fun e => exists e' c, e = Called sv ac args (Failure e' c)) evs ->
  In (Called sv' ac' args' a) evs ->
  sv' = sv /\ ac' = ac /\ args' = args /\ exists e' c, a = Failure e' c.
Proof.
  intros F H. rewrite Forall_forall in F.
  destruct (F _ H) as (e' & c & [= -> -> -> ->]). eauto 6.
Qed.

Lemma succeeded_other sv ac sv' ac' args (evs : list Event) :
  Forall (fun e => exists a, e = Called sv' ac' args a) evs ->
  String.eqb sv sv' && String.eqb ac ac' = false ->
  succeeded sv ac evs = false.
Proof.
  intros F N. induction F as [|e l [a ->] _ IH]; simpl; [reflexivity|].
  rewrite IH. destruct a; [now rewrite N | reflexivity].
Qed.

Lemma succeeded_self sv ac args out (evs : list Event) :
  succeeded sv ac (evs ++ [Called sv ac args (Success out)]) = true.
Proof.
  rewrite succeeded_app. simpl. rewrite !String.eqb_refl. simpl.
  now rewrite orb_true_r.
Qed.

(** The events of a task whose last attempt was answered. *)
Lemma answered_calls sv ac args a (failed : list Event) :
  Forall (fun e => exists e' c, e = Called sv ac args (Failure e' c)) failed ->
  Forall (fun e => exists a', e = Called sv ac args a')
         (failed ++ [Called sv ac args a]).
Proof.
  intros F. apply Forall_app. split.
  - eapply Forall_impl; [|exact F]. intros e (e' & c & ->). eauto.
  - repeat constructor. eauto.
Qed.

Lemma in_calls sv ac args sv' ac' args' a (evs : list Event) :
  Forall (fun e => exists a', e = Called sv ac args a') evs ->
  In (Called sv' ac' args' a) evs ->
  sv' = sv /\ ac' = ac /\ args' = args.
Proof.
  intros F H. rewrite Forall_forall in F.
  destruct (F _ H) as (a' & [= -> -> -> ->]). auto.
Qed.

(** A task that hands its whole result on and catches nothing. *)
Lemma plain_task_cases {S} (ctx : json) (s : S) (t : TaskProps S)
  (d args : json) (answers : list Response) :
  task_input ctx t d = Some args ->
  resultSelector t = None -> resultPath t = "$" -> catch t = [] ->
  (exists evs, step_task ctx s t d answers = Blocked evs)
  \/ (exists failed out rest,
        Forall (fun e => exists e' c,
                    e = Called (service t) (action t) args (Failure e' c))
               failed
        /\ step_task ctx s t d answers
           = Next (next t) out
               (failed ++ [Called (service t) (action t) args (Success out)])
               rest)
  \/ (exists failed e c,
        Forall (fun e => exists e' c,
                    e = Called (service t) (action t) args (Failure e' c))
               failed
        /\ step_task ctx s t d answers
           = Done (Aborted s e)
               (failed ++ [Called (service t) (action t) args (Failure e c)])).
Proof.
  intros Hin Hsel Hres Hcatch.
  destruct (step_task_cases ctx s t d answers)
    as [[Hn _] | (args' & evs & Hs & [[E F] | (a & rest & failed & -> & F & E)])];
    [congruence | eauto |].
  rewrite Hin in Hs. injection Hs as <-.
  right. destruct a as [out|e c].
  - left. exists failed, out, rest. split; [exact F|].
    rewrite E. unfold task_result. rewrite Hsel, Hres. reflexivity.
  - right. exists failed, e, c. split; [exact F|].
    rewrite E, Hcatch. reflexivity.
Qed.

End InterpreterFacts.

(* ================================================================== *)
(** * The polling loops of the managed exports *)
(* ================================================================== *)

Section PollingClaims.
Import ASL.

Variable ctx : json.

(** ** RDS and Aurora *)

Section RDS.
Import RDSExportMachine.
Variable roleArn : string.
Variable encryptionKey : option string.
Let machine := def roleArn encryptionKey.

(** Where [RDSExportStatus] goes on a polled status. *)
Lemma rds_status_step (d : json) (s : string) (answers : list Response) :
  lookup "$.Status.ExportStatus" d = Some (JString s) ->
  step machine ctx RDSExportStatus d answers
  = Next (if String.eqb s "COMPLETE" then RDSExportSucceed
          else if String.eqb s "FAILED" || String.eqb s "CANCELED"
               then RDSExportFailed
               else RDSExportWait) d [] answers.
Proof.
  intros H.
  cbv [step machine def first_rule holds]. rewrite H.
  destruct (String.eqb s "COMPLETE"); [reflexivity|].
  destruct (String.eqb s "FAILED"); [reflexivity|].
  destruct (String.eqb s "CANCELED"); reflexivity.
Qed.

(** One poll: the request, and the status stored where the choice
    reads it, with the task identifier kept. *)
Lemma rds_poll_step (d id out : json) (s : string) (answers : list Response) :
  lookup "$.Export.ExportTaskIdentifier" d = Some id ->
  lookup "$.ExportTasks[0].Status" out = Some (JString s) ->
  exists d',
    step machine ctx RDSExportStatusTask d (Success out :: answers)
    = Next RDSExportStatus d'
        [Called "rds" "describeExportTasks"
           (JObject [("ExportTaskIdentifier", id)]) (Success out)]
        answers
    /\ lookup "$.Status.ExportStatus" d' = Some (JString s)
    /\ lookup "$.Export.ExportTaskIdentifier" d' = Some id.
Proof.
  intros Hid Hs.
  destruct (get_key_object "Export" [Key "ExportTaskIdentifier"] d id)
    as [fields ->]; [exact Hid|].
  exists (JObject (set_field "Status"
                     (JObject [("ExportStatus", JString s)]) fields)).
  split; [|split].
  - cbv [step machine def step_task task_input task_result
         inputPath parameters resultSelector resultPath service action
         retry catch next].
    rewrite lookup_root. cbv [eval attempts]. rewrite Hid, Hs. reflexivity.
  - paths. cbn [get]. rewrite assoc_set_same. reflexivity.
  - paths. cbn [get] in *. rewrite assoc_set_other by discriminate.
    exact Hid.
Qed.

(** From a poll to the next state of affairs. *)
Lemma rds_poll_run (d id out : json) (s : string) (answers : list Response) :
  lookup "$.Export.ExportTaskIdentifier" d = Some id ->
  lookup "$.ExportTasks[0].Status" out = Some (JString s) ->
  exists d',
    lookup "$.Status.ExportStatus" d' = Some (JString s)
    /\ lookup "$.Export.ExportTaskIdentifier" d' = Some id
    /\ forall fuel,
        run machine ctx (3 + fuel) RDSExportStatusTask d
            (Success out :: answers)
        = let poll := Called "rds" "describeExportTasks"
                        (JObject [("ExportTaskIdentifier", id)])
                        (Success out) in
          if String.eqb s "COMPLETE"
          then ([poll], Some (Succeeded RDSExportSucceed d'))
          else if String.eqb s "FAILED" || String.eqb s "CANCELED"
               then ([poll], Some (FailedState RDSExportFailed))
               else let (tr, o) :=
                      run machine ctx fuel RDSExportStatusTask d' answers in
                    (poll :: Slept 1800 :: tr, o).
Proof.
  intros Hid Hs.
  destruct (rds_poll_step d id out s answers Hid Hs) as (d' & E & Hs' & Hid').
  exists d'. split; [exact Hs'|]. split; [exact Hid'|]. intros fuel.
  change (3 + fuel)%nat with (Datatypes.S (Datatypes.S (Datatypes.S fuel))).
  rewrite run_step, E, run_step, (rds_status_step d' s answers Hs').
  destruct (String.eqb s "COMPLETE"); [reflexivity|].
  destruct (String.eqb s "FAILED" || String.eqb s "CANCELED");
    [reflexivity|].
  rewrite run_step.
  change (step machine ctx RDSExportWait d' answers)
    with (Next RDSExportStatusTask d' [Slept 1800] answers).
  cbv beta iota zeta.
  destruct (run machine ctx fuel RDSExportStatusTask d' answers).
  reflexivity.
Qed.

End RDS.

(** ** DynamoDB *)

Section DDB.
Import DDBExportMachine.
Variable keyArn : string.
Let machine := def keyArn.

Lemma ddb_status_step (d : json) (s : string) (answers : list Response) :
  lookup "$.Status.ExportStatus" d = Some (JString s) ->
  step machine ctx DDBExportStatus d answers
  = Next (if String.eqb s "COMPLETED" then DDBExportSucceed
          else if String.eqb s "IN_PROGRESS" then DDBExportWait
               else DDBExportFailed) d [] answers.
Proof.
  intros H.
  cbv [step machine def first_rule holds]. rewrite H.
  destruct (String.eqb s "COMPLETED"); [reflexivity|].
  destruct (String.eqb s "IN_PROGRESS"); reflexivity.
Qed.

Lemma ddb_poll_step (d id out : json) (s : string) (answers : list Response) :
  lookup "$.Export.ExportArn" d = Some id ->
  lookup "$.ExportDescription.ExportStatus" out = Some (JString s) ->
  exists d',
    step machine ctx DDBExportStatusTask d (Success out :: answers)
    = Next DDBExportStatus d'
        [Called "dynamodb" "describeExport"
           (JObject [("ExportArn", id)]) (Success out)]
        answers
    /\ lookup "$.Status.ExportStatus" d' = Some (JString s)
    /\ lookup "$.Export.ExportArn" d' = Some id.
Proof.
  intros Hid Hs.
  destruct (get_key_object "Export" [Key "ExportArn"] d id)
    as [fields ->]; [exact Hid|].
  exists (JObject (set_field "Status"
                     (JObject [("ExportStatus", JString s)]) fields)).
  split; [|split].
  - cbv [step machine def step_task task_input task_result
         inputPath parameters resultSelector resultPath service action
         retry catch next].
    rewrite lookup_root. cbv [eval attempts]. rewrite Hid, Hs. reflexivity.
  - paths. cbn [get]. rewrite assoc_set_same. reflexivity.
  - paths. cbn [get] in *. rewrite assoc_set_other by discriminate.
    exact Hid.
Qed.

Lemma ddb_poll_run (d id out : json) (s : string) (answers : list Response) :
  lookup "$.Export.ExportArn" d = Some id ->
  lookup "$.ExportDescription.ExportStatus" out = Some (JString s) ->
  exists d',
    lookup "$.Status.ExportStatus" d' = Some (JString s)
    /\ lookup "$.Export.ExportArn" d' = Some id
    /\ forall fuel,
        run machine ctx (3 + fuel) DDBExportStatusTask d
            (Success out :: answers)
        = let poll := Called "dynamodb" "describeExport"
                        (JObject [("ExportArn", id)]) (Success out) in
          if String.eqb s "COMPLETED"
          then ([poll], Some (Succeeded DDBExportSucceed d'))
          else if String.eqb s "IN_PROGRESS"
               then let (tr, o) :=
                      run machine ctx fuel DDBExportStatusTask d' answers in
                    (poll :: Slept 1800 :: tr, o)
               else ([poll], Some (FailedState DDBExportFailed)).
Proof.
  intros Hid Hs.
  destruct (ddb_poll_step d id out s answers Hid Hs) as (d' & E & Hs' & Hid').
  exists d'. split; [exact Hs'|]. split; [exact Hid'|]. intros fuel.
  change (3 + fuel)%nat with (Datatypes.S (Datatypes.S (Datatypes.S fuel))).
  rewrite run_step, E, run_step, (ddb_status_step d' s answers Hs').
  destruct (String.eqb s "COMPLETED"); [reflexivity|].
  destruct (String.eqb s "IN_PROGRESS"); [|reflexivity].
  rewrite run_step.
  change (step machine ctx DDBExportWait d' answers)
    with (Next DDBExportStatusTask d' [Slept 1800] answers).
  cbv beta iota zeta.
  destruct (run machine ctx fuel DDBExportStatusTask d' answers).
  reflexivity.
Qed.

End DDB.

End PollingClaims.

Section PollingTheorems.
Import ASL.

(** C7: in the RDS and Aurora machine, a poll that answers [COMPLETE]
    ends the execution in the [Succeed] state [RDSExportSucceed], one
    that answers [FAILED] or [CANCELED] ends it in the [Fail] state
    [RDSExportFailed], and after any other status the execution sleeps
    1800 seconds and goes on as an execution from the poll task does:
    the status is stored and the task identifier is still there for the
    next poll. *)
Theorem C7_rds_poll_outcomes
  (ctx : json) (roleArn : string) (encryptionKey : option string)
  (d id out : json) (s : string) (answers : list Response) :
  lookup "$.Export.ExportTaskIdentifier" d = Some id ->
  lookup "$.ExportTasks[0].Status" out = Some (JString s) ->
  exists d',
    lookup "$.Status.ExportStatus" d' = Some (JString s)
    /\ lookup "$.Export.ExportTaskIdentifier" d' = Some id
    /\ forall fuel,
        run (RDSExportMachine.def roleArn encryptionKey) ctx (3 + fuel)
            RDSExportMachine.RDSExportStatusTask d (Success out :: answers)
        = let poll := Called "rds" "describeExportTasks"
                        (JObject [("ExportTaskIdentifier", id)])
                        (Success out) in
          if String.eqb s "COMPLETE"
          then ([poll], Some (Succeeded RDSExportMachine.RDSExportSucceed d'))
          else if String.eqb s "FAILED" || String.eqb s "CANCELED"
               then ([poll],
                     Some (FailedState RDSExportMachine.RDSExportFailed))
               else let (tr, o) :=
                      run (RDSExportMachine.def roleArn encryptionKey) ctx
                          fuel RDSExportMachine.RDSExportStatusTask d'
                          answers in
                    (poll :: Slept 1800 :: tr, o).
Proof. apply rds_poll_run. Qed.

Lemma C7_witness :
  exists d',
    lookup "$.Status.ExportStatus" d' = Some (JString "STARTING")
    /\ lookup "$.Export.ExportTaskIdentifier" d' = Some (JString "acb-1")
    /\ forall fuel,
        run (RDSExportMachine.def "role" None) (JObject []) (3 + fuel)
            RDSExportMachine.RDSExportStatusTask Examples.exporting
            (Success (Examples.rds_status "STARTING")
             :: [Success (Examples.rds_status "COMPLETE")])
        = let poll := Called "rds" "describeExportTasks"
                        (JObject [("ExportTaskIdentifier", JString "acb-1")])
                        (Success (Examples.rds_status "STARTING")) in
          if String.eqb "STARTING" "COMPLETE"
          then ([poll], Some (Succeeded RDSExportMachine.RDSExportSucceed d'))
          else if String.eqb "STARTING" "FAILED"
                  || String.eqb "STARTING" "CANCELED"
               then ([poll],
                     Some (FailedState RDSExportMachine.RDSExportFailed))
               else let (tr, o) :=
                      run (RDSExportMachine.def "role" None) (JObject [])
                          fuel RDSExportMachine.RDSExportStatusTask d'
                          [Success (Examples.rds_status "COMPLETE")] in
                    (poll :: Slept 1800 :: tr, o).
Proof.
  apply (C7_rds_poll_outcomes (JObject []) "role" None Examples.exporting
           (JString "acb-1") (Examples.rds_status "STARTING") "STARTING").
  - reflexivity.
  - reflexivity.
Defined.

(** C6 as stated does not hold for the DynamoDB machine: on the status
    [PENDING], which is none of the four, the execution is over after
    the poll, in the [Fail] state [DDBExportFailed]. *)
Lemma C6_counterexample :
  ~ (forall keyArn ctx d id out s fuel,
        lookup "$.Export.ExportArn" d = Some id ->
        lookup "$.ExportDescription.ExportStatus" out = Some (JString s) ->
        s <> "COMPLETE" -> s <> "COMPLETED" ->
        s <> "FAILED" -> s <> "CANCELED" ->
        snd (run (DDBExportMachine.def keyArn) ctx fuel
                 DDBExportMachine.DDBExportStatusTask d [Success out])
        = None).
Proof.
  intros H.
  specialize (H "key" (JObject []) Examples.ddb_exporting
                (JString "export-1") (Examples.ddb_status "PENDING")
                "PENDING" 3%nat eq_refl eq_refl).
  assert (E : snd (run (DDBExportMachine.def "key") (JObject []) 3
                       DDBExportMachine.DDBExportStatusTask
                       Examples.ddb_exporting
                       [Success (Examples.ddb_status "PENDING")])
              = Some (FailedState DDBExportMachine.DDBExportFailed))
    by reflexivity.
  rewrite H in E; discriminate.
Qed.

(** C6, amended: after a successful status poll, the RDS and Aurora loop
    ends the execution exactly on [COMPLETE], with success, and on
    [FAILED] and [CANCELED], in the [Fail] state [RDSExportFailed], and
    on any other status sleeps 1800 seconds and polls again; the DynamoDB
    loop sleeps 1800 seconds and polls again exactly on [IN_PROGRESS],
    and ends the execution on any other status: with success on
    [COMPLETED], in the [Fail] state [DDBExportFailed] otherwise. *)
Theorem C6_polling_ends_only_on_terminal_status
  (ctx : json) (roleArn : string) (encryptionKey : option string)
  (keyArn : string) (d id out : json) (s : string)
  (answers : list Response) (fuel : nat) :
  (lookup "$.Export.ExportTaskIdentifier" d = Some id ->
   lookup "$.ExportTasks[0].Status" out = Some (JString s) ->
   let r := run (RDSExportMachine.def roleArn encryptionKey) ctx (3 + fuel)
                RDSExportMachine.RDSExportStatusTask d
                (Success out :: answers) in
   let poll := Called "rds" "describeExportTasks"
                 (JObject [("ExportTaskIdentifier", id)]) (Success out) in
   (s = "COMPLETE" ->
    exists d', r = ([poll],
                    Some (Succeeded RDSExportMachine.RDSExportSucceed d')))
   /\ (s = "FAILED" \/ s = "CANCELED" ->
       r = ([poll], Some (FailedState RDSExportMachine.RDSExportFailed)))
   /\ (s <> "COMPLETE" -> s <> "FAILED" -> s <> "CANCELED" ->
       exists d' tr o,
         run (RDSExportMachine.def roleArn encryptionKey) ctx fuel
             RDSExportMachine.RDSExportStatusTask d' answers = (tr, o)
         /\ lookup "$.Export.ExportTaskIdentifier" d' = Some id
         /\ r = (poll :: Slept 1800 :: tr, o)))
  /\ (lookup "$.Export.ExportArn" d = Some id ->
      lookup "$.ExportDescription.ExportStatus" out = Some (JString s) ->
      let r := run (DDBExportMachine.def keyArn) ctx (3 + fuel)
                   DDBExportMachine.DDBExportStatusTask d
                   (Success out :: answers) in
      let poll := Called "dynamodb" "describeExport"
                    (JObject [("ExportArn", id)]) (Success out) in
      (s = "COMPLETED" ->
       exists d', r = ([poll],
                       Some (Succeeded DDBExportMachine.DDBExportSucceed d')))
      /\ (s = "IN_PROGRESS" ->
          exists d' tr o,
            run (DDBExportMachine.def keyArn) ctx fuel
                DDBExportMachine.DDBExportStatusTask d' answers = (tr, o)
            /\ lookup "$.Export.ExportArn" d' = Some id
            /\ r = (poll :: Slept 1800 :: tr, o))
      /\ (s <> "COMPLETED" -> s <> "IN_PROGRESS" ->
          r = ([poll],
               Some (FailedState DDBExportMachine.DDBExportFailed)))).
Proof.
  split.
  - intros Hid Hs.
    destruct (rds_poll_run ctx roleArn encryptionKey d id out s answers Hid Hs)
      as (d' & _ & Hid' & R).
    cbv zeta. rewrite (R fuel). cbv zeta. split; [|split].
    + intros ->. simpl. eauto.
    + intros [->| ->]; reflexivity.
    + intros N1 N2 N3.
      destruct (String.eqb_spec s "COMPLETE"); [contradiction|].
      destruct (String.eqb_spec s "FAILED"); [contradiction|].
      destruct (String.eqb_spec s "CANCELED"); [contradiction|]. simpl.
      destruct (run (RDSExportMachine.def roleArn encryptionKey) ctx fuel
                    RDSExportMachine.RDSExportStatusTask d' answers)
        as [tr o] eqn:E.
      exists d', tr, o. rewrite E. auto.
  - intros Hid Hs.
    destruct (ddb_poll_run ctx keyArn d id out s answers Hid Hs)
      as (d' & _ & Hid' & R).
    cbv zeta. rewrite (R fuel). cbv zeta. split; [|split].
    + intros ->. simpl. eauto.
    + intros ->. simpl.
      destruct (run (DDBExportMachine.def keyArn) ctx fuel
                    DDBExportMachine.DDBExportStatusTask d' answers)
        as [tr o] eqn:E.
      exists d', tr, o. rewrite E. auto.
    + intros N1 N2.
      destruct (String.eqb_spec s "COMPLETED"); [contradiction|].
      destruct (String.eqb_spec s "IN_PROGRESS"); [contradiction|].
      reflexivity.
Qed.

Lemma C6_witness :
  (exists d',
      run (RDSExportMachine.def "role" None) (JObject []) 3
          RDSExportMachine.RDSExportStatusTask Examples.any_exporting
          [Success (Examples.any_status "COMPLETE")]
      = ([Called "rds" "describeExportTasks"
            (JObject [("ExportTaskIdentifier", JString "export-1")])
            (Success (Examples.any_status "COMPLETE"))],
         Some (Succeeded RDSExportMachine.RDSExportSucceed d')))
  /\ run (RDSExportMachine.def "role" None) (JObject []) 3
         RDSExportMachine.RDSExportStatusTask Examples.any_exporting
         [Success (Examples.any_status "CANCELED")]
     = ([Called "rds" "describeExportTasks"
           (JObject [("ExportTaskIdentifier", JString "export-1")])
           (Success (Examples.any_status "CANCELED"))],
        Some (FailedState RDSExportMachine.RDSExportFailed))
  /\ (exists tr o,
        run (RDSExportMachine.def "role" None) (JObject []) 6
            RDSExportMachine.RDSExportStatusTask Examples.any_exporting
            [Success (Examples.any_status "PENDING");
             Success (Examples.any_status "COMPLETE")]
        = (Called "rds" "describeExportTasks"
             (JObject [("ExportTaskIdentifier", JString "export-1")])
             (Success (Examples.any_status "PENDING"))
           :: Slept 1800 :: tr, o))
  /\ (exists d',
        run (DDBExportMachine.def "key") (JObject []) 3
            DDBExportMachine.DDBExportStatusTask Examples.any_exporting
            [Success (Examples.any_status "COMPLETED")]
        = ([Called "dynamodb" "describeExport"
              (JObject [("ExportArn", JString "export-1")])
              (Success (Examples.any_status "COMPLETED"))],
           Some (Succeeded DDBExportMachine.DDBExportSucceed d')))
  /\ (exists tr o,
        run (DDBExportMachine.def "key") (JObject []) 6
            DDBExportMachine.DDBExportStatusTask Examples.any_exporting
            [Success (Examples.any_status "IN_PROGRESS");
             Success (Examples.any_status "COMPLETED")]
        = (Called "dynamodb" "describeExport"
             (JObject [("ExportArn", JString "export-1")])
             (Success (Examples.any_status "IN_PROGRESS"))
           :: Slept 1800 :: tr, o))
  /\ run (DDBExportMachine.def "key") (JObject []) 3
         DDBExportMachine.DDBExportStatusTask Examples.any_exporting
         [Success (Examples.any_status "PENDING")]
     = ([Called "dynamodb" "describeExport"
           (JObject [("ExportArn", JString "export-1")])
           (Success (Examples.any_status "PENDING"))],
        Some (FailedState DDBExportMachine.DDBExportFailed)).
Proof.
  pose proof (fun s answers fuel =>
                C6_polling_ends_only_on_terminal_status
                  (JObject []) "role" None "key" Examples.any_exporting
                  (JString "export-1") (Examples.any_status s) s
                  answers fuel) as T.
  split; [|split; [|split; [|split; [|split]]]].
  - destruct (T "COMPLETE" [] 0%nat) as [R _].
    destruct (R eq_refl eq_refl) as (R1 & _).
    exact (R1 eq_refl).
  - destruct (T "CANCELED" [] 0%nat) as [R _].
    destruct (R eq_refl eq_refl) as (_ & R2 & _).
    apply R2. right. reflexivity.
  - destruct (T "PENDING" [Success (Examples.any_status "COMPLETE")] 3%nat)
      as [R _].
    destruct (R eq_refl eq_refl) as (_ & _ & R3).
    destruct R3 as (d' & tr & o & _ & _ & E); try discriminate.
    exists tr, o. exact E.
  - destruct (T "COMPLETED" [] 0%nat) as [_ D].
    destruct (D eq_refl eq_refl) as (D1 & _).
    exact (D1 eq_refl).
  - destruct (T "IN_PROGRESS" [Success (Examples.any_status "COMPLETED")]
                3%nat) as [_ D].
    destruct (D eq_refl eq_refl) as (_ & D2 & _).
    destruct (D2 eq_refl) as (d' & tr & o & _ & _ & E).
    exists tr, o. exact E.
  - destruct (T "PENDING" [] 0%nat) as [_ D].
    destruct (D eq_refl eq_refl) as (_ & _ & D3).
    apply D3; discriminate.
Defined.

End PollingTheorems.

(* ================================================================== *)
(** * The EBS export machine: which paths delete the volume *)
(* ================================================================== *)

Section EBSFacts.
Import ASL EBSBackupMachine.
Variable tags : list (string * string).
Variable jqs : list (string * string).
Variable jobDefinitionArn : string.
Variable ctx : json.
Let machine := def tags jqs jobDefinitionArn.

Lemma ready_rules_other (d : json) (s : string) (l : list (string * string)) :
  lookup "$.Ready.State" d = Some (JString s) ->
  s <> "available" -> s <> "creating" ->
  first_rule
    (map (fun e =>
            (and_ (stringEquals "$.Ready.State" "available")
                  (stringEquals "$.AvailabilityZone" (fst e)),
             EBSBatchJobTask (fst e) (snd e))) l
     ++ [(stringEquals "$.Ready.State" "creating", EBSReadyWait)]) d
  = Some None.
Proof.
  intros H Na Nc. induction l as [|e l IH]; simpl.
  - rewrite H. destruct (String.eqb_spec s "creating"); [contradiction|].
    reflexivity.
  - rewrite H. destruct (String.eqb_spec s "available"); [contradiction|].
    exact IH.
Qed.

(** A polled state that is neither [available] nor [creating] ends the
    execution in the [Fail] state [EBSReadyFailed], with no request. *)
Lemma ready_otherwise_run (d : json) (s : string) (answers : list Response)
  (fuel : nat) :
  lookup "$.Ready.State" d = Some (JString s) ->
  s <> "available" -> s <> "creating" ->
  run machine ctx (2 + fuel) EBSReadyChoice d answers
  = ([], Some (FailedState EBSReadyFailed)).
Proof.
  intros H Na Nc.
  change (2 + fuel)%nat with (Datatypes.S (Datatypes.S fuel)).
  rewrite run_step. unfold step. cbn [machine def ebsreadychoice].
  rewrite (ready_rules_other d s jqs H Na Nc).
  rewrite run_step. reflexivity.
Qed.

Lemma ready_rules_targets (d : json) (s' : state) (l : list (string * string)) :
  first_rule
    (map (fun e =>
            (and_ (stringEquals "$.Ready.State" "available")
                  (stringEquals "$.AvailabilityZone" (fst e)),
             EBSBatchJobTask (fst e) (snd e))) l
     ++ [(stringEquals "$.Ready.State" "creating", EBSReadyWait)]) d
  = Some (Some s') ->
  (exists az jq, s' = EBSBatchJobTask az jq) \/ s' = EBSReadyWait.
Proof.
  induction l as [|e l IH]; simpl.
  - destruct (lookup "$.Ready.State" d) as [[t| | |]|]; try discriminate.
    destruct (String.eqb t "creating"); intros [= <-]. now right.
  - destruct (match lookup "$.Ready.State" d with
              | Some (JString s) => Some (String.eqb s "available")
              | Some _ => Some false
              | None => None
              end) as [[|]|]; try discriminate; [|exact IH].
    destruct (match lookup "$.AvailabilityZone" d with
              | Some (JString s) => Some (String.eqb s (fst e))
              | Some _ => Some false
              | None => None
              end) as [[|]|]; try discriminate; [|exact IH].
    intros [= <-]. left. eauto.
Qed.

Lemma task_step_shape (s : state) (t : TaskProps state) (d : json)
  (answers : list Response) :
  match step_task ctx s t d answers with
  | Next s' d' evs rest =>
      (s' = next t \/ exists c, In c (catch t) /\ s' = handler c)
      /\ (exists args a failed,
             evs = failed ++ [Called (service t) (action t) args a])
  | Done o evs => exists e, o = Aborted s e
  | Blocked _ => True
  end.
Proof.
  destruct (step_task_cases ctx s t d answers)
    as [[_ ->] | (args & evs & Hs & [[-> F] | (a & rest & failed & -> & F & ->)])];
    [eauto | exact I |].
  destruct a as [out|e c].
  - destruct (task_result ctx t d out); eauto 10.
  - destruct (first_catcher e (catch t)) as [k|] eqn:K; [|eauto].
    destruct (store _ _ d); [|eauto]. split; [|eauto 10].
    right. exists k. split; [|reflexivity].
    clear -K. induction (catch t) as [|c0 l IH]; simpl in *; [discriminate|].
    destruct (matches_any e (catch_errors c0)); [injection K as <-; auto | auto].
Qed.

(** Every execution that ends after [EBSCleanupResult], in [EBSSucceed]
    or in [EBSFail], has sent the delete request. *)
Lemma cleanup_on_all_paths (fuel : nat) :
  forall s d answers tr o,
    before_cleanup s = true ->
    run machine ctx fuel s d answers = (tr, Some o) ->
    after_cleanup o = true ->
    issued "ec2" "deleteVolume" tr = true.
Proof.
  induction fuel as [|fuel IH]; intros s d answers tr o Hs; [discriminate|].
  rewrite run_step. unfold step.
  destruct s; try discriminate; cbn [machine def].
  all: try match goal with
    | |- context [step_task ctx ?s ?t ?d0 ?a0] =>
        pose proof (task_step_shape s t d0 a0) as Sh;
        destruct (step_task ctx s t d0 a0) as [s' d' evs rest|o' evs|evs];
        [ destruct Sh as [Hn (args & a & failed & ->)];
          cbn [next catch handler service action] in *
        | destruct Sh as [e ->]; intros [= <- <-]; discriminate
        | discriminate ]
    end.
  - (* EBSRestoreTask *)
    destruct Hn as [->|(c & [] & _)].
    destruct (run machine ctx fuel EBSReadyTask d' rest) as [tr' o'] eqn:R.
    intros [= <- ->] Ho. rewrite issued_app.
    rewrite (IH EBSReadyTask _ _ _ _ eq_refl R Ho). apply orb_true_r.
  - (* EBSReadyTask *)
    destruct (run machine ctx fuel s' d' rest) as [tr' o'] eqn:R.
    intros [= <- ->] Ho. rewrite issued_app.
    assert (B : before_cleanup s' = true)
      by (destruct Hn as [->|(c & [<-|[]] & ->)]; reflexivity).
    rewrite (IH s' _ _ _ _ B R Ho). apply orb_true_r.
  - (* EBSReadyChoice *)
    unfold ebsreadychoice.
    destruct (first_rule _ d) as [[s'|]|] eqn:E.
    + apply ready_rules_targets in E.
      destruct (run machine ctx fuel s' d answers) as [tr' o'] eqn:R.
      intros [= <- ->] Ho. simpl.
      assert (B : before_cleanup s' = true)
        by (destruct E as [(az & jq & ->) | ->]; reflexivity).
      apply (IH s' _ _ _ _ B R Ho).
    + destruct fuel as [|fuel']; [discriminate|].
      rewrite run_step. cbn [step machine def]. intros [= <- <-]; discriminate.
    + intros [= <- <-]; discriminate.
  - (* EBSReadyWait *)
    destruct (run machine ctx fuel EBSReadyTask d answers) as [tr' o'] eqn:R.
    intros [= <- ->] Ho. simpl.
    apply (IH EBSReadyTask _ _ _ _ eq_refl R Ho).
  - (* EBSBatchJobTask *)
    destruct (run machine ctx fuel s' d' rest) as [tr' o'] eqn:R.
    intros [= <- ->] Ho. rewrite issued_app.
    assert (B : before_cleanup s' = true)
      by (destruct Hn as [->|(c & [<-|[]] & ->)]; reflexivity).
    rewrite (IH s' _ _ _ _ B R Ho). apply orb_true_r.
  - (* EBSCleanupTask *)
    destruct (run machine ctx fuel s' d' rest) as [tr' o'] eqn:R.
    intros [= <- ->] Ho. rewrite issued_app.
    rewrite issued_self. reflexivity.
Qed.
End EBSFacts.

(* ================================================================== *)
(** * The outer workflow: when the recovery point is deleted *)
(* ================================================================== *)

Section OuterFacts.
Import ASL BackupActionsMachine.
Variable autoDelete : bool.
Variable ebs rds ddb : string.
Variable ctx : json.
Let machine := def autoDelete ebs rds ddb.

Lemma delete_input (out vault arn : json) :
  lookup "$.Output.BackupVaultName" out = Some vault ->
  lookup "$.Output.SnapshotArn" out = Some arn ->
  task_input ctx deleteSnapshotTask out
  = Some (JObject [("BackupVaultName", vault); ("RecoveryPointArn", arn)]).
Proof.
  intros Ev Ea.
  unfold task_input. cbn [inputPath parameters deleteSnapshotTask].
  revert Ev Ea. paths.
  destruct out as [| |fields|]; try (simpl; discriminate).
  rewrite !get_cons_key.
  destruct (assoc "Output" fields) as [o'|]; try discriminate.
  intros E1 E2. cbn [eval]. paths. cbn in *. rewrite E1, E2. reflexivity.
Qed.

(** From [acbSuccessState] on: the delete request when the flag is set,
    nothing otherwise. *)
Lemma finish_run fuel out answers tr o :
  lookup "$.Output.BackupVaultName" out <> None ->
  lookup "$.Output.SnapshotArn" out <> None ->
  run machine ctx fuel (acbSuccessState autoDelete) out answers = (tr, Some o) ->
  issued "backup" "deleteRecoveryPoint" tr = autoDelete
  /\ succeeded "states" "startExecution.sync:2" tr = false
  /\ forall sv ac args a, In (Called sv ac args a) tr ->
       sv = "backup" /\ ac = "deleteRecoveryPoint" /\
       exists vault arn,
         lookup "$.Output.BackupVaultName" out = Some vault
         /\ lookup "$.Output.SnapshotArn" out = Some arn
         /\ args = JObject [("BackupVaultName", vault); ("RecoveryPointArn", arn)].
Proof.
  intros Hv Ha. unfold acbSuccessState. subst machine. destruct autoDelete.
  - destruct fuel as [|fuel]; [discriminate|]. rewrite run_step.
    destruct (lookup "$.Output.BackupVaultName" out) as [vault|] eqn:Ev; [|congruence].
    destruct (lookup "$.Output.SnapshotArn" out) as [arn|] eqn:Ea; [|congruence].
    change (step (def true ebs rds ddb) ctx DeleteSnapshotTask out answers)
      with (step_task ctx DeleteSnapshotTask deleteSnapshotTask out answers).
    pose proof (delete_input out vault arn Ev Ea) as Hin.
    destruct (step_task_cases ctx DeleteSnapshotTask deleteSnapshotTask out answers)
      as [[Hn _] | (args & evs & Hs & [[-> F] | (a & rest & failed & -> & F & ->)])];
      try congruence; try discriminate.
    rewrite Hin in Hs. injection Hs as <-.
    assert (T : forall tr', 
               (failed ++ [Called "backup" "deleteRecoveryPoint"
                  (JObject [("BackupVaultName", vault); ("RecoveryPointArn", arn)]) a],
                Some o) = (tr', Some o) -> 
               issued "backup" "deleteRecoveryPoint" tr' = true /\
               succeeded "states" "startExecution.sync:2" tr' = false /\
               (forall (sv ac : string) (args : json) (a : Response),
                 In (Called sv ac args a) tr' ->
                 sv = "backup" /\ ac = "deleteRecoveryPoint" /\
                 (exists vault0 arn0 : json,
                   Some vault = Some vault0 /\ Some arn = Some arn0 /\
                   args = JObject [("BackupVaultName", vault0); ("RecoveryPointArn", arn0)]))).
    { intros tr' [= <-]. 
      pose proof (answered_calls _ _ _ a _ F) as C.
      split; [apply issued_self|]. split.
      - eapply succeeded_other; [exact C | reflexivity].
      - intros sv ac args a' Hin'. 
        destruct (in_calls _ _ _ _ _ _ _ _ C Hin') as (-> & -> & ->).
        eauto 10. }
    cbn [service action deleteSnapshotTask] in *.
    destruct a as [out'|e c].
    + change (task_result ctx deleteSnapshotTask out out') with (Some out').
      cbv beta iota. destruct fuel as [|fuel]; [simpl; discriminate|].
      rewrite run_step. cbn [step def next deleteSnapshotTask].
      rewrite List.app_nil_r.
      intros [= <- <-]. apply (T _ eq_refl).
    + cbn [first_catcher catch deleteSnapshotTask].
      intros [= <- <-]. apply (T _ eq_refl).
  - destruct fuel as [|fuel]; [discriminate|]. rewrite run_step.
    cbn [step def]. intros [= <- <-]. repeat split; try reflexivity.
    all: intros; contradiction.
Qed.

Lemma snapshot_type_step (d : json) (answers : list Response) :
  (exists e, step machine ctx SnapshotType d answers = Done (Aborted SnapshotType e) [])
  \/ (exists s arn,
        machine s = Task (startExecution autoDelete arn)
        /\ step machine ctx SnapshotType d answers = Next s d [] answers).
Proof.
  cbv [step machine def first_rule holds].
  destruct (lookup "$.ResourceType" d) as [[t| | |]|];
    try (left; eexists; reflexivity).
  destruct (String.eqb t "EBS");
    [right; exists RunEBSBackupMachine, ebs; split; reflexivity|].
  destruct (String.eqb t "RDS");
    [right; exists RunRDSExportMachine, rds; split; reflexivity|].
  destruct (String.eqb t "Aurora");
    [right; exists RunRDSExportMachine, rds; split; reflexivity|].
  destruct (String.eqb t "DynamoDB");
    [right; exists RunDDBExportMachine, ddb; split; reflexivity|].
  left; eexists; reflexivity.
Qed.

Lemma delete_iff_exported fuel input answers tr o :
  run machine ctx fuel MetadataTask input answers = (tr, Some o) ->
  (forall args out,
      In (Called "states" "startExecution.sync:2" args (Success out)) tr ->
      lookup "$.Output.BackupVaultName" out <> None
      /\ lookup "$.Output.SnapshotArn" out <> None) ->
  issued "backup" "deleteRecoveryPoint" tr
  = autoDelete && succeeded "states" "startExecution.sync:2" tr
  /\ forall args a,
      In (Called "backup" "deleteRecoveryPoint" args a) tr ->
      exists input' out vault arn,
        In (Called "states" "startExecution.sync:2" input' (Success out)) tr
        /\ lookup "$.Output.BackupVaultName" out = Some vault
        /\ lookup "$.Output.SnapshotArn" out = Some arn
        /\ args = JObject [("BackupVaultName", vault);
                           ("RecoveryPointArn", arn)].
Proof.
  destruct fuel as [|f1]; [discriminate|]. rewrite run_step.
  change (step machine ctx MetadataTask input answers)
    with (step_task ctx MetadataTask metadataTask input answers).
  destruct (plain_task_cases ctx MetadataTask metadataTask input input answers)
    as [[evs ->] | [(failed & out1 & rest1 & F1 & ->) | (failed & e & c & F1 & ->)]];
    try reflexivity; try discriminate.
  2:{ intros [= <- <-] _. pose proof (answered_calls _ _ _ (Failure e c) _ F1) as C.
      rewrite (issued_other _ _ _ _ _ _ C), (succeeded_other _ _ _ _ _ _ C),
        andb_false_r by reflexivity.
      split; [reflexivity|]. intros args a H.
      destruct (in_calls _ _ _ _ _ _ _ _ C H) as (? & _). discriminate. }
  pose proof (answered_calls _ _ _ (Success out1) _ F1) as C1.
  cbn [service action next metadataTask] in *.
  set (evs1 := failed ++ [Called "lambda" "invoke" input (Success out1)]) in *.
  destruct (run machine ctx f1 SnapshotType out1 rest1) as [tr1 o1] eqn:R1.
  intros [= <- ->].
  destruct f1 as [|f2]; [discriminate|]. rewrite run_step in R1.
  destruct (snapshot_type_step out1 rest1) as [[e E] | (s2 & arn & Es2 & E)];
    rewrite E in R1.
  { injection R1 as <- <-. intros _. rewrite List.app_nil_r.
    rewrite (issued_other _ _ _ _ _ _ C1), (succeeded_other _ _ _ _ _ _ C1),
      andb_false_r by reflexivity.
    split; [reflexivity|]. intros args a H.
    destruct (in_calls _ _ _ _ _ _ _ _ C1 H) as (? & _). discriminate. }
  destruct (run machine ctx f2 s2 out1 rest1) as [tr2 o2] eqn:R2.
  injection R1 as <- ->. simpl app.
  destruct f2 as [|f3]; [discriminate|]. rewrite run_step in R2.
  unfold step in R2. rewrite Es2 in R2.
  destruct (plain_task_cases ctx s2 (startExecution autoDelete arn) out1
              (JObject [("Input", out1); ("StateMachineArn", JString arn)])
              rest1)
    as [[evs E2] | [(failed2 & out2 & rest2 & F2 & E2) | (failed2 & e & c & F2 & E2)]];
    try reflexivity; rewrite E2 in R2; try discriminate.
  - destruct (run machine ctx f3 (next (startExecution autoDelete arn)) out2 rest2)
      as [tr3 o3] eqn:R3.
    injection R2 as <- ->.
    pose proof (answered_calls _ _ _ (Success out2) _ F2) as C2.
    cbn [service action next startExecution] in *.
    intros WF.
    destruct (WF (JObject [("Input", out1); ("StateMachineArn", JString arn)]) out2)
      as [Hv Ha].
    { apply in_or_app. right. apply in_or_app. left.
      apply in_or_app. right. left. reflexivity. }
    destruct (finish_run f3 out2 rest2 tr3 o Hv Ha R3) as (I3 & S3 & A3).
    rewrite (issued_app _ _ evs1), (succeeded_app _ _ evs1).
    rewrite (issued_app _ _ _ tr3), (succeeded_app _ _ _ tr3), I3, S3.
    rewrite (issued_other _ _ _ _ _ _ C1), (succeeded_other _ _ _ _ _ _ C1)
      by reflexivity.
    rewrite (issued_other _ _ _ _ _ _ C2) by reflexivity.
    rewrite succeeded_self. simpl. rewrite andb_true_r. split; [reflexivity|].
    intros args a H.
    apply in_app_or in H as [H|H];
      [destruct (in_calls _ _ _ _ _ _ _ _ C1 H) as (? & _); discriminate|].
    apply in_app_or in H as [H|H];
      [destruct (in_calls _ _ _ _ _ _ _ _ C2 H) as (? & _); discriminate|].
    destruct (A3 _ _ _ _ H) as (_ & _ & vault & arn' & Ev & Ea & ->).
    exists (JObject [("Input", out1); ("StateMachineArn", JString arn)]),
      out2, vault, arn'.
    repeat split; auto.
    apply in_or_app. right. apply in_or_app. left.
    apply in_or_app. right. left. reflexivity.
  - injection R2 as <- <-. intros _.
    pose proof (answered_calls _ _ _ (Failure e c) _ F2) as C2.
    cbn [service action next startExecution] in *.
    assert (F2' : Forall (fun e0 => exists e' c0,
                     e0 = Called "states" "startExecution.sync:2"
                            (JObject [("Input", out1); ("StateMachineArn", JString arn)])
                            (Failure e' c0))
                    (failed2 ++ [Called "states" "startExecution.sync:2"
                            (JObject [("Input", out1); ("StateMachineArn", JString arn)])
                            (Failure e c)])).
    { apply Forall_app. split; [exact F2|]. repeat constructor. eauto. }
    rewrite (issued_app _ _ evs1), (succeeded_app _ _ evs1).
    rewrite (issued_other _ _ _ _ _ _ C1), (succeeded_other _ _ _ _ _ _ C1)
      by reflexivity.
    rewrite (issued_other _ _ _ _ _ _ C2) by reflexivity.
    rewrite (succeeded_failures _ _ _ _ _ _ F2'). simpl.
    rewrite andb_false_r. split; [reflexivity|].
    intros args a H.
    apply in_app_or in H as [H|H];
      [destruct (in_calls _ _ _ _ _ _ _ _ C1 H) as (? & _); discriminate|].
    destruct (in_calls _ _ _ _ _ _ _ _ C2 H) as (? & _); discriminate.
Qed.

(** Without the flag nothing is requested from [acbSuccessState] on. *)
Lemma finish_without_flag fuel out answers :
  autoDelete = false ->
  fst (run machine ctx fuel (acbSuccessState autoDelete) out answers) = [].
Proof.
  intros E. subst machine. rewrite E. unfold acbSuccessState.
  destruct fuel; reflexivity.
Qed.

(** At any moment of an execution, finished or not: a delete request has
    only been sent with the flag set and after a [startExecution] task
    has succeeded. *)
Lemma delete_needs_export fuel input answers :
  let tr := fst (run machine ctx fuel MetadataTask input answers) in
  issued "backup" "deleteRecoveryPoint" tr = true ->
  autoDelete = true /\ succeeded "states" "startExecution.sync:2" tr = true.
Proof.
  cbv zeta.
  destruct fuel as [|f1]; [discriminate|]. rewrite run_step.
  change (step machine ctx MetadataTask input answers)
    with (step_task ctx MetadataTask metadataTask input answers).
  destruct (step_task_cases ctx MetadataTask metadataTask input answers)
    as [[_ ->] | (args & evs & Hin & [[-> F] | (a & rest & failed & -> & F & ->)])];
    [discriminate | |].
  { simpl fst. now rewrite (issued_failures _ _ _ _ _ _ F). }
  injection Hin as <-. cbn [service action metadataTask] in *.
  pose proof (answered_calls _ _ _ a _ F) as C1.
  set (evs1 := failed ++ [Called "lambda" "invoke" input a]) in *.
  assert (N1 : issued "backup" "deleteRecoveryPoint" evs1 = false)
    by (apply (issued_other _ _ _ _ _ _ C1); reflexivity).
  destruct a as [out1|e c];
    [|cbn [first_catcher catch metadataTask]; simpl fst; congruence].
  change (task_result ctx metadataTask input out1) with (Some out1).
  cbn [next metadataTask].
  destruct (run machine ctx f1 SnapshotType out1 rest) as [tr1 o1] eqn:R1.
  simpl fst. rewrite issued_app, N1. simpl orb.
  destruct f1 as [|f2]; [injection R1 as <- <-; discriminate|].
  rewrite run_step in R1.
  destruct (snapshot_type_step out1 rest)
    as [[e E] | (s2 & arn & Es2 & E)]; fold machine in E; rewrite E in R1.
  { injection R1 as <- <-. discriminate. }
  destruct (run machine ctx f2 s2 out1 rest) as [tr2 o2] eqn:R2.
  injection R1 as <- <-. simpl app.
  destruct f2 as [|f3]; [injection R2 as <- <-; discriminate|].
  rewrite run_step in R2. unfold step in R2. fold machine in Es2.
  rewrite Es2 in R2.
  destruct (step_task_cases ctx s2 (startExecution autoDelete arn) out1 rest)
    as [[_ E2] | (args & evs & Hin & [[E2 F2] | (a & rest2 & failed2 & -> & F2 & E2)])];
    rewrite E2 in R2.
  { injection R2 as <- <-. discriminate. }
  { injection R2 as <- <-. cbn [service action startExecution] in F2.
    now rewrite (issued_failures _ _ _ _ _ _ F2). }
  cbn [service action startExecution] in *.
  pose proof (answered_calls _ _ _ a _ F2) as C2.
  assert (N2 : issued "backup" "deleteRecoveryPoint"
                 (failed2 ++ [Called "states" "startExecution.sync:2" args a])
               = false)
    by (apply (issued_other _ _ _ _ _ _ C2); reflexivity).
  destruct a as [out2|e c].
  - change (task_result ctx (startExecution autoDelete arn) out1 out2)
      with (Some out2) in R2.
    cbn [next startExecution] in R2.
    pose proof (finish_without_flag f3 out2 rest2) as Fin.
    destruct (run machine ctx f3 (acbSuccessState autoDelete) out2 rest2)
      as [tr3 o3].
    injection R2 as <- <-.
    rewrite issued_app, N2. simpl orb. intros I3.
    rewrite (succeeded_app _ _ evs1), (succeeded_app _ _ _ tr3), succeeded_self.
    rewrite orb_true_r. split; [|reflexivity].
    destruct autoDelete; [reflexivity|].
    simpl in Fin. rewrite Fin in I3 by reflexivity. discriminate.
  - cbn [first_catcher catch startExecution] in R2.
    injection R2 as <- <-. congruence.
Qed.
End OuterFacts.

(* ================================================================== *)
(** * What an export execution hands on *)
(* ================================================================== *)

Section Keeping.
Import ASL.
Context {S : Type}.
Variable def : S -> State S.
Variable ctx : json.
Variable k : string.

(** Every task writes its result elsewhere, and so does every catcher,
    unless it replaces the document by the error and hands it to a state
    that stops on it. *)
Hypothesis tasks_write_elsewhere :
  forall s t, def s = Task t ->
    elsewhere k (resultPath t)
    /\ forall c, In c (catch t) ->
         elsewhere k (catch_resultPath c)
         \/ (catch_resultPath c = "$"
             /\ stops_on_error def ctx (handler c)).

Lemma store_elsewhere (path : string) (r d d' : json) :
  elsewhere k path -> store path r d = Some d' ->
  get [Key k] d' = get [Key k] d.
Proof.
  intros (k' & q & P & N). unfold store. rewrite P.
  destruct d as [| |fields|]; try discriminate. simpl.
  destruct (put q r _); [|discriminate]. intros [= <-]. simpl.
  rewrite assoc_set_other by congruence. reflexivity.
Qed.

Lemma first_catcher_in (e : string) (cs : list (Catcher S)) c :
  first_catcher e cs = Some c -> In c cs.
Proof.
  induction cs as [|c0 l IH]; simpl; [discriminate|].
  destruct (matches_any e (catch_errors c0)); [intros [= <-]; auto | auto].
Qed.

(** An execution that succeeds hands the field [k] of its input on to
    its output. *)
Lemma succeeded_keeps (fuel : nat) :
  forall s d answers tr s' out,
    run def ctx fuel s d answers = (tr, Some (Succeeded s' out)) ->
    get [Key k] out = get [Key k] d.
Proof.
  induction fuel as [|fuel IH]; intros s d answers tr s' out; [discriminate|].
  rewrite run_step. unfold step.
  destruct (def s) as [t|rules otherwise|secs s1| |] eqn:D.
  - destruct (tasks_write_elsewhere s t D) as [Hr Hc].
    destruct (step_task_cases ctx s t d answers)
      as [[_ ->] | (args & evs & _ & [[-> _] | (a & rest & failed & -> & _ & ->)])];
      try discriminate.
    destruct a as [o|e cause].
    + destruct (task_result ctx t d o) as [d'|] eqn:T; [|discriminate].
      destruct (run def ctx fuel (next t) d' rest) as [tr' o'] eqn:R.
      intros [= <- ->]. rewrite (IH _ _ _ _ _ _ R).
      unfold task_result in T.
      destruct (resultSelector t) as [sel|];
        [destruct (eval ctx o sel); [|discriminate]|];
        eapply store_elsewhere; eauto.
    + destruct (first_catcher e (catch t)) as [c|] eqn:C; [|discriminate].
      destruct (store (catch_resultPath c) (error_output e cause) d)
        as [d'|] eqn:T; [|discriminate].
      destruct (run def ctx fuel (handler c) d' rest) as [tr' o'] eqn:R.
      intros [= <- ->].
      destruct (Hc c (first_catcher_in _ _ _ C)) as [He | [Hp Hstop]].
      * rewrite (IH _ _ _ _ _ _ R). eapply store_elsewhere; eauto.
      * rewrite Hp in T. injection T as <-.
        destruct fuel as [|fuel']; [discriminate|].
        rewrite run_step in R.
        destruct (Hstop e cause rest) as (err & evs & E).
        rewrite E in R. discriminate.
  - destruct (first_rule rules d) as [[s1|]|]; [| |discriminate].
    + destruct (run def ctx fuel s1 d answers) as [tr' o'] eqn:R.
      intros [= <- ->]. apply (IH _ _ _ _ _ _ R).
    + destruct otherwise as [s1|]; [|discriminate].
      destruct (run def ctx fuel s1 d answers) as [tr' o'] eqn:R.
      intros [= <- ->]. apply (IH _ _ _ _ _ _ R).
  - destruct (run def ctx fuel s1 d answers) as [tr' o'] eqn:R.
    intros [= <- ->]. apply (IH _ _ _ _ _ _ R).
  - intros [= <- <- <-]. reflexivity.
  - discriminate.
Qed.

End Keeping.

Section ExportsKeep.
Import ASL.
Variable ctx : json.

Lemma rds_keeps roleArn key (k : string) fuel s d answers tr s' out :
  k <> "Export" -> k <> "Status" ->
  run (RDSExportMachine.def roleArn key) ctx fuel s d answers
  = (tr, Some (Succeeded s' out)) ->
  get [Key k] out = get [Key k] d.
Proof.
  intros N1 N2. apply succeeded_keeps.
  intros s0 t D.
  destruct s0; try discriminate; injection D as <-; cbn [resultPath catch].
  all: split; [eexists _, _; split; [vm_compute; reflexivity | congruence]
              | intros c []].
Qed.

Lemma ddb_keeps keyArn (k : string) fuel s d answers tr s' out :
  k <> "Export" -> k <> "Status" ->
  run (DDBExportMachine.def keyArn) ctx fuel s d answers
  = (tr, Some (Succeeded s' out)) ->
  get [Key k] out = get [Key k] d.
Proof.
  intros N1 N2. apply succeeded_keeps.
  intros s0 t D.
  destruct s0; try discriminate; injection D as <-; cbn [resultPath catch].
  all: split; [eexists _, _; split; [vm_compute; reflexivity | congruence]
              | intros c []].
Qed.

Lemma ebs_keeps tags jqs jobdef (k : string) fuel s d answers tr s' out :
  ~ In k ["Restore"; "Ready"; "JobResult"; "Error"; "DeleteVolume";
          "DetachVolume"] ->
  run (EBSBackupMachine.def tags jqs jobdef) ctx fuel s d answers
  = (tr, Some (Succeeded s' out)) ->
  get [Key k] out = get [Key k] d.
Proof.
  intros N. apply succeeded_keeps.
  intros s0 t D.
  destruct s0; try discriminate; injection D as <-; cbn [resultPath catch].
  all: split;
    [eexists _, _; split;
     [vm_compute; reflexivity | intros <-; apply N; simpl; tauto]|].
  all: intros c H; simpl in H;
    repeat match type of H with
           | _ \/ _ => destruct H as [<-|H]
           | False => destruct H
           end.
  - right. split; [reflexivity|]. intros e cause answers'.
    eexists _, _. reflexivity.
  - left. eexists _, _. split; [vm_compute; reflexivity|].
    intros <-; apply N; simpl; tauto.
  - right. split; [reflexivity|]. intros e cause answers'.
    eexists _, _. reflexivity.
Qed.

(** The output of an export execution that succeeded on the record of the
    metadata Lambda still names the vault and the snapshot. *)
Lemma succeeded_export_names_job (desc out d : json) :
  lookup "$.Output" desc = Some out ->
  lookup "$.BackupVaultName" d <> None ->
  lookup "$.SnapshotArn" d <> None ->
  (exists tags jqs jobdef fuel answers tr s',
      run (EBSBackupMachine.def tags jqs jobdef) ctx fuel
          EBSBackupMachine.start d answers = (tr, Some (Succeeded s' out)))
  \/ (exists roleArn key fuel answers tr s',
        run (RDSExportMachine.def roleArn key) ctx fuel
            RDSExportMachine.start d answers = (tr, Some (Succeeded s' out)))
  \/ (exists keyArn fuel answers tr s',
        run (DDBExportMachine.def keyArn) ctx fuel
            DDBExportMachine.start d answers = (tr, Some (Succeeded s' out))) ->
  lookup "$.Output.BackupVaultName" desc <> None
  /\ lookup "$.Output.SnapshotArn" desc <> None.
Proof.
  intros Ho Hv Ha H.
  assert (K : forall k, In k ["BackupVaultName"; "SnapshotArn"] ->
                        get [Key k] out = get [Key k] d).
  { intros k Hk.
    destruct H as [(tags & jqs & jobdef & fuel & answers & tr & s' & R)
                  | [(roleArn & key & fuel & answers & tr & s' & R)
                    | (keyArn & fuel & answers & tr & s' & R)]].
    - eapply ebs_keeps; [|exact R]. simpl in *. intuition congruence.
    - eapply rds_keeps; [| |exact R]; simpl in Hk; intuition congruence.
    - eapply ddb_keeps; [| |exact R]; simpl in Hk; intuition congruence. }
  revert Ho Hv Ha. paths.
  destruct desc as [| |fields|]; try (simpl; discriminate).
  rewrite !get_cons_key. destruct (assoc "Output" fields); [|discriminate].
  intros [= ->]. rewrite !K by (simpl; auto). auto.
Qed.

End ExportsKeep.

(* ================================================================== *)
(** * Properties of the workflows *)
(* ================================================================== *)

Section WorkflowTheorems.
Import ASL.

(** C1 fails on the code: the volume is restored, [describeVolumes]
    answers the state [error], and the execution ends in the [Fail]
    state [EBSReadyFailed] having sent [createVolume] but no
    [deleteVolume]. *)
Theorem C1_volume_left_behind_on_unexpected_state :
  exists tr,
    run (EBSBackupMachine.def [("backup", "true")] Examples.queues "jobdef")
        (JObject []) 4 EBSBackupMachine.start Examples.metadata
        [Success Examples.created; Success (Examples.volumes "error")]
    = (tr, Some (FailedState EBSBackupMachine.EBSReadyFailed))
    /\ succeeded "ec2" "createVolume" tr = true
    /\ issued "ec2" "deleteVolume" tr = false.
Proof.
  eexists. split; [vm_compute; reflexivity|]. split; reflexivity.
Qed.

(** C2: at any moment of an execution of the outer workflow, the
    [deleteRecoveryPoint] request has only been sent if the flag is set
    and a [startExecution] task has succeeded.  In an execution that has
    ended, where every description of a succeeded export execution
    carries the vault name and the snapshot ARN in its output (as the
    output of the three export machines does), the request has been sent
    if and only if the flag is set and a [startExecution] task has
    succeeded; and a request that has been sent names the vault and the
    recovery point of that output. *)
Theorem C2_delete_iff_export_succeeded_and_flag
  (autoDelete : bool) (ebs rds ddb : string) (ctx : json) :
  (forall fuel input answers,
      let tr := fst (run (BackupActionsMachine.def autoDelete ebs rds ddb)
                         ctx fuel BackupActionsMachine.start input answers) in
      issued "backup" "deleteRecoveryPoint" tr = true ->
      autoDelete = true
      /\ succeeded "states" "startExecution.sync:2" tr = true)
  /\ (forall fuel input answers tr o,
        run (BackupActionsMachine.def autoDelete ebs rds ddb) ctx fuel
            BackupActionsMachine.start input answers = (tr, Some o) ->
        (forall args out,
            In (Called "states" "startExecution.sync:2" args (Success out)) tr ->
            lookup "$.Output.BackupVaultName" out <> None
            /\ lookup "$.Output.SnapshotArn" out <> None) ->
        (issued "backup" "deleteRecoveryPoint" tr = true
         <-> autoDelete = true
             /\ succeeded "states" "startExecution.sync:2" tr = true)
        /\ forall args a,
            In (Called "backup" "deleteRecoveryPoint" args a) tr ->
            exists input' out vault arn,
              In (Called "states" "startExecution.sync:2" input'
                         (Success out)) tr
              /\ lookup "$.Output.BackupVaultName" out = Some vault
              /\ lookup "$.Output.SnapshotArn" out = Some arn
              /\ args = JObject [("BackupVaultName", vault);
                                 ("RecoveryPointArn", arn)]).
Proof.
  split.
  - intros fuel input answers. apply delete_needs_export.
  - intros fuel input answers tr o R WF.
    destruct (delete_iff_exported autoDelete ebs rds ddb ctx fuel input
                answers tr o R WF) as [E A].
    split; [|exact A]. rewrite E. apply andb_true_iff.
Qed.

Lemma C2_witness :
  let tr := fst (run (BackupActionsMachine.def true "ebs" "rds" "ddb")
                     (JObject []) 5 BackupActionsMachine.start (JObject [])
                     [Success Examples.metadata; Success Examples.exported;
                      Success (JObject [])]) in
  (issued "backup" "deleteRecoveryPoint" tr = true ->
   true = true /\ succeeded "states" "startExecution.sync:2" tr = true)
  /\ (issued "backup" "deleteRecoveryPoint" tr = true
      <-> true = true /\ succeeded "states" "startExecution.sync:2" tr = true)
  /\ forall args a,
      In (Called "backup" "deleteRecoveryPoint" args a) tr ->
      exists input' out vault arn,
        In (Called "states" "startExecution.sync:2" input' (Success out)) tr
        /\ lookup "$.Output.BackupVaultName" out = Some vault
        /\ lookup "$.Output.SnapshotArn" out = Some arn
        /\ args = JObject [("BackupVaultName", vault);
                           ("RecoveryPointArn", arn)].
Proof.
  split.
  - apply (proj1 (C2_delete_iff_export_succeeded_and_flag
                    true "ebs" "rds" "ddb" (JObject []))).
  - apply (proj2 (C2_delete_iff_export_succeeded_and_flag
                    true "ebs" "rds" "ddb" (JObject []))
             5%nat (JObject [])
             [Success Examples.metadata; Success Examples.exported;
              Success (JObject [])] _
             (Succeeded BackupActionsMachine.SuccessState (JObject []))).
    + vm_compute. reflexivity.
    + intros args out H. vm_compute in H.
      destruct H as [H|[H|[H|[]]]]; try discriminate.
      injection H as <- <-. split; discriminate.
Defined.

End WorkflowTheorems.

(* ================================================================== *)
(** * The metadata resolver: errors and edge cases *)
(* ================================================================== *)

Section HandlerEdges.
Import SnapshotMetadata.

Ltac run_handler :=
  cbv [invoke metadataHandler checkBucketOwner await send suspend assert
       log get_locals set_tags then_ bind ret throw settle jobs locals calls
       initial fold_left app].


(** [fetch] only adds to the requests sent. *)
Lemma fetch_calls (w : World) (ev : BackupEvent) (s : HState) r s' :
  fetch w ev s = (r, s') -> exists more, calls s' = calls s ++ more.
Proof.
  unfold fetch.
  destruct (resourceType ev =? "EBS").
  { cbv [await send suspend log set_tags bind ret throw settle jobs locals calls].
    destruct (ec2_describeTags w _); intros [= <- <-]; simpl; eauto. }
  destruct (resourceType ev =? "Aurora").
  { cbv [send log then_ bind]. intros [= <- <-]. simpl.
    rewrite <- List.app_assoc. eauto. }
  destruct (resourceType ev =? "RDS").
  { cbv [send log then_ bind]. intros [= <- <-]. simpl.
    rewrite <- List.app_assoc. eauto. }
  destruct (resourceType ev =? "DynamoDB").
  { cbv [await send suspend log set_tags bind ret throw settle jobs locals calls].
    destruct (ddb_listTagsOfResource w _); intros [= <- <-]; simpl; eauto. }
  cbv [throw]. intros [= <- <-]. exists []. now rewrite List.app_nil_r.
Qed.

(** X1: an invocation that returns has found the bucket named by [BUCKET]
    among the buckets that [listBuckets] answers, names that bucket in
    [S3BucketName], and has sent [listBuckets] before any other
    request. *)
Theorem returned_bucket_is_owned (w : World) (ev : BackupEvent) md st :
  invoke w ev = (Return md, st) ->
  exists b bs more,
    env_BUCKET w = Some b
    /\ s3_listBuckets w = Fulfilled bs
    /\ In b bs
    /\ S3BucketName md = b
    /\ calls st = S3_listBuckets :: more.
Proof.
  intros H. apply invoke_return in H.
  destruct H as (_ & _ & _ & _ & v & b & t & bs & _ & Eb & El & Ex & _ & F & ->).
  destruct (fetch_calls _ _ _ _ _ F) as [more C].
  exists b, bs, more. repeat split; auto.
  apply existsb_exists in Ex. destruct Ex as (y & Hy & E).
  apply String.eqb_eq in E. now subst.
Qed.

Lemma returned_bucket_is_owned_witness :
  exists md st,
    invoke Examples.world (Examples.ebs_event 1700000000) = (Return md, st)
    /\ exists b bs more,
        env_BUCKET Examples.world = Some b
        /\ s3_listBuckets Examples.world = Fulfilled bs
        /\ In b bs
        /\ S3BucketName md = b
        /\ calls st = S3_listBuckets :: more.
Proof.
  eexists _, _. split; [vm_compute; reflexivity|].
  apply (returned_bucket_is_owned Examples.world
           (Examples.ebs_event 1700000000)).
  vm_compute. reflexivity.
Defined.


(** X2: when the event passes the validation and the bucket check does not
    pass (the bucket is not in the list, [BUCKET] is not set, or
    [listBuckets] is rejected), the invocation throws, the message naming
    the bucket or the rejection itself, and [listBuckets] is the only
    request sent: no tag or snapshot request follows, whatever the
    resource type. *)
Theorem bucket_check_failure_stops_before_fetch
  (w : World) (ev : BackupEvent) (v : string) :
  state ev = "COMPLETED" ->
  env_VALIDAZS w = Some v ->
  vault_name_ok (backupVaultName ev) = true ->
  ARN_validate (resourceArn ev) = true ->
  ARN_validate (recoveryPointArn ev) = true ->
  (forall b bs, env_BUCKET w = Some b -> s3_listBuckets w = Fulfilled bs ->
                ~ In b bs) ->
  invoke w ev
  = (Throw match s3_listBuckets w with
           | Rejected code => ServiceError code
           | Fulfilled _ =>
               Error ("Backup bucket "
                      ++ match env_BUCKET w with
                         | Some b => b
                         | None => "undefined"
                         end
                      ++ " is not owned by this account.")
           end, listed).
Proof.
  intros Hs Hv H1 H2 H3 Hb.
  run_handler. rewrite Hs, Hv, H1, H2, H3. cbv beta iota zeta.
  rewrite String.eqb_refl. cbv beta iota zeta.
  destruct (env_BUCKET w) as [b|];
    destruct (s3_listBuckets w) as [bs|code]; cbv beta iota zeta;
    try reflexivity.
  destruct (existsb (String.eqb b) bs) eqn:E; [|reflexivity].
  exfalso. apply existsb_exists in E. destruct E as (y & Hy & E).
  apply String.eqb_eq in E. subst y. exact (Hb b bs eq_refl eq_refl Hy).
Qed.

Lemma bucket_check_failure_stops_before_fetch_witness :
  invoke Scenarios.sniped (Examples.ebs_event 1700000000)
  = (Throw (Error "Backup bucket backup-bucket is not owned by this account."),
     listed).
Proof.
  apply (bucket_check_failure_stops_before_fetch Scenarios.sniped
           (Examples.ebs_event 1700000000) "us-east-1a,us-east-1b");
    try reflexivity.
  intros b bs [= <-] [= <-] [H|[]]. discriminate.
Defined.

(** X3: for a completed job, a vault name outside
    [[a-zA-Z0-9-_]{2,50}], a resource ARN or a recovery-point ARN that
    [ARN.validate] refuses, or a missing [VALIDAZS] makes the invocation
    throw before any request is sent: an [AssertionError] when
    [VALIDAZS] is set, a [TypeError] when it is not. *)
Theorem invalid_event_throws_before_any_request
  (w : World) (ev : BackupEvent) :
  state ev = "COMPLETED" ->
  env_VALIDAZS w = None
  \/ vault_name_ok (backupVaultName ev) = false
  \/ ARN_validate (resourceArn ev) = false
  \/ ARN_validate (recoveryPointArn ev) = false ->
  exists e,
    invoke w ev = (Throw e, initial)
    /\ (env_VALIDAZS w <> None -> e = AssertionError)
    /\ (env_VALIDAZS w = None -> exists m, e = TypeError m).
Proof.
  intros Hs H. run_handler. rewrite Hs, String.eqb_refl. cbv beta iota zeta.
  destruct (env_VALIDAZS w) as [v|]; cbv beta iota zeta.
  2:{ eexists. split; [reflexivity|]. split; [congruence | eauto]. }
  exists AssertionError. split; [|split; [reflexivity | discriminate]].
  destruct (vault_name_ok (backupVaultName ev)); cbv beta iota zeta;
    [|reflexivity].
  destruct (ARN_validate (resourceArn ev)); cbv beta iota zeta;
    [|reflexivity].
  destruct (ARN_validate (recoveryPointArn ev)); cbv beta iota zeta;
    [|reflexivity].
  destruct H as [H|[H|[H|H]]]; discriminate.
Qed.

Lemma invalid_event_throws_before_any_request_witness :
  exists e,
    invoke Examples.world (Scenarios.event "DynamoDB" "v" 1700000000)
    = (Throw e, initial)
    /\ (env_VALIDAZS Examples.world <> None -> e = AssertionError)
    /\ (env_VALIDAZS Examples.world = None -> exists m, e = TypeError m).
Proof.
  apply (invalid_event_throws_before_any_request Examples.world
           (Scenarios.event "DynamoDB" "v" 1700000000)).
  - reflexivity.
  - right. left. reflexivity.
Defined.

Lemma eqb_neq_false (a b : string) : a <> b -> (a =? b) = false.
Proof. intros N. now apply String.eqb_neq. Qed.

(** X4: a completed, valid job of a resource type other than [EBS],
    [Aurora], [RDS] and [DynamoDB] makes the invocation throw
    [Invalid resourceType: <type>], after [listBuckets] and with no other
    request. *)
Theorem unsupported_resource_type_throws_after_bucket_check
  (w : World) (ev : BackupEvent) (v b : string) (bs : list string) :
  state ev = "COMPLETED" ->
  env_VALIDAZS w = Some v ->
  vault_name_ok (backupVaultName ev) = true ->
  ARN_validate (resourceArn ev) = true ->
  ARN_validate (recoveryPointArn ev) = true ->
  env_BUCKET w = Some b ->
  s3_listBuckets w = Fulfilled bs ->
  In b bs ->
  resourceType ev <> "EBS" -> resourceType ev <> "Aurora" ->
  resourceType ev <> "RDS" -> resourceType ev <> "DynamoDB" ->
  invoke w ev
  = (Throw (Error ("Invalid resourceType: " ++ resourceType ev)), listed).
Proof.
  intros Hs Hv H1 H2 H3 Hb Hl Hin N1 N2 N3 N4.
  assert (Ex : existsb (String.eqb b) bs = true).
  { apply existsb_exists. exists b. split; [exact Hin | apply String.eqb_refl]. }
  run_handler. rewrite Hs, Hv, H1, H2, H3, Hb, Hl. cbv beta iota zeta.
  rewrite String.eqb_refl, Ex. cbv beta iota zeta.
  unfold fetch.
  rewrite (eqb_neq_false _ _ N1), (eqb_neq_false _ _ N2),
    (eqb_neq_false _ _ N3), (eqb_neq_false _ _ N4).
  reflexivity.
Qed.

Lemma unsupported_resource_type_throws_after_bucket_check_witness :
  invoke Examples.world (Scenarios.event "EFS" "vault" 1700000000)
  = (Throw (Error "Invalid resourceType: EFS"), listed).
Proof.
  apply (unsupported_resource_type_throws_after_bucket_check Examples.world
           (Scenarios.event "EFS" "vault" 1700000000)
           "us-east-1a,us-east-1b" "backup-bucket" ["logs"; "backup-bucket"]);
    try reflexivity; try discriminate.
  simpl. auto.
Defined.


(** X5: for [EBS] and [DynamoDB] the tag request is awaited: a returning
    invocation has sent exactly [listBuckets] and the tag request, its
    [Tags] are the tags that request answered, its [Engine] is empty and
    no reaction is left to run. *)
Theorem awaited_tags_are_returned (w : World) (ev : BackupEvent) md st :
  invoke w ev = (Return md, st) ->
  (resourceType ev = "EBS" ->
   let id := JS.index (JS.split "/" (resourceArn ev)) 1 in
   ec2_describeTags w id = Fulfilled (Tags md)
   /\ Engine md = ""
   /\ calls st = [S3_listBuckets; EC2_describeTags id]
   /\ jobs st = [])
  /\ (resourceType ev = "DynamoDB" ->
      ddb_listTagsOfResource w (resourceArn ev) = Fulfilled (Tags md)
      /\ Engine md = ""
      /\ calls st = [S3_listBuckets; DDB_listTagsOfResource (resourceArn ev)]
      /\ jobs st = []).
Proof.
  intros H. apply invoke_return in H.
  destruct H as (_ & _ & _ & _ & v & b & t & bs & _ & _ & _ & _ & _ & F & ->).
  split; intros Ht; unfold fetch in F; rewrite Ht in F; simpl String.eqb in F;
    cbv [await send suspend log set_tags bind ret throw settle jobs locals
         calls listed fold_left app] in F.
  - cbv zeta.
    destruct (ec2_describeTags w (JS.index (JS.split "/" (resourceArn ev)) 1))
      as [tg|code]; [|discriminate].
    injection F as <-. repeat split.
  - destruct (ddb_listTagsOfResource w (resourceArn ev)) as [tg|code];
      [|discriminate].
    injection F as <-. repeat split.
Qed.

Lemma awaited_tags_are_returned_witness :
  exists md st,
    invoke Examples.world (Scenarios.event "DynamoDB" "vault" 1700000000)
    = (Return md, st)
    /\ ddb_listTagsOfResource Examples.world
         "arn:aws:dynamodb:us-east-1:123456789012:table/orders"
       = Fulfilled (Tags md)
    /\ Engine md = ""
    /\ calls st = [S3_listBuckets;
                   DDB_listTagsOfResource
                     "arn:aws:dynamodb:us-east-1:123456789012:table/orders"]
    /\ jobs st = [].
Proof.
  eexists _, _. split; [vm_compute; reflexivity|].
  apply (proj2 (awaited_tags_are_returned Examples.world
                  (Scenarios.event "DynamoDB" "vault" 1700000000) _ _
                  ltac:(vm_compute; reflexivity))).
  reflexivity.
Defined.

(** X6: for [EBS] and [DynamoDB] a rejected tag request fails the
    invocation with that rejection, after two requests. *)
Theorem rejected_tag_request_is_thrown
  (w : World) (ev : BackupEvent) (v b code : string) (bs : list string) :
  state ev = "COMPLETED" ->
  env_VALIDAZS w = Some v ->
  vault_name_ok (backupVaultName ev) = true ->
  ARN_validate (resourceArn ev) = true ->
  ARN_validate (recoveryPointArn ev) = true ->
  env_BUCKET w = Some b ->
  s3_listBuckets w = Fulfilled bs ->
  In b bs ->
  (resourceType ev = "EBS"
   /\ ec2_describeTags w (JS.index (JS.split "/" (resourceArn ev)) 1)
      = Rejected code)
  \/ (resourceType ev = "DynamoDB"
      /\ ddb_listTagsOfResource w (resourceArn ev) = Rejected code) ->
  exists st,
    invoke w ev = (Throw (ServiceError code), st)
    /\ List.length (calls st) = 2%nat
    /\ jobs st = [].
Proof.
  intros Hs Hv H1 H2 H3 Hb Hl Hin H.
  assert (Ex : existsb (String.eqb b) bs = true).
  { apply existsb_exists. exists b. split; [exact Hin | apply String.eqb_refl]. }
  run_handler. rewrite Hs, Hv, H1, H2, H3, Hb, Hl. cbv beta iota zeta.
  rewrite String.eqb_refl, Ex. cbv beta iota zeta.
  unfold fetch.
  destruct H as [[Ht E] | [Ht E]]; rewrite Ht; simpl String.eqb;
    cbv [await send suspend log set_tags bind ret throw settle jobs locals
         calls fold_left app]; rewrite E; cbv beta iota zeta;
    eexists; (split; [reflexivity|]); split; reflexivity.
Qed.

Lemma rejected_tag_request_is_thrown_witness :
  exists st,
    invoke Scenarios.ec2_down (Examples.ebs_event 1700000000)
    = (Throw (ServiceError "UnauthorizedOperation"), st)
    /\ List.length (calls st) = 2%nat
    /\ jobs st = [].
Proof.
  apply (rejected_tag_request_is_thrown Scenarios.ec2_down
           (Examples.ebs_event 1700000000) "us-east-1a,us-east-1b"
           "backup-bucket" "UnauthorizedOperation" ["logs"; "backup-bucket"]);
    try reflexivity.
  - simpl. auto.
  - left. split; reflexivity.
Defined.


Lemma ebs_request (w : World) (ev : BackupEvent) md st :
  resourceType ev = "EBS" ->
  invoke w ev = (Return md, st) ->
  calls st = [S3_listBuckets;
              EC2_describeTags (JS.index (JS.split "/" (resourceArn ev)) 1)].
Proof.
  intros Ht H. apply invoke_return in H.
  destruct H as (_ & _ & _ & _ & v & b & t & bs & _ & _ & _ & _ & _ & F & _).
  unfold fetch in F; rewrite Ht in F; simpl String.eqb in F;
    cbv [await send suspend log set_tags bind ret throw settle jobs locals
         calls listed fold_left app] in F.
  destruct (ec2_describeTags w (JS.index (JS.split "/" (resourceArn ev)) 1))
    as [tg|code]; [|discriminate].
  now injection F as <-.
Qed.

Lemma second_segment (pre rest : string) :
  JS.contains "/" pre = false ->
  JS.index (JS.split "/" (pre ++ "/" ++ rest)) 1
  = hd_error (JS.split "/" rest).
Proof.
  intros H. change (pre ++ "/" ++ rest)%string with (pre ++ String "/" rest)%string.
  rewrite split_app, (split_without _ _ H). simpl.
  destruct (JS.split "/" rest); reflexivity.
Qed.

(** X7: the resource id of the [describeTags] filter is the second
    ['/']-separated segment of the resource ARN: the volume id for an ARN
    [...:volume/vol-x], and [undefined] for an ARN without ['/'], in which
    case the request is sent all the same. *)
Theorem ebs_tags_are_requested_for_the_second_segment
  (w : World) (ev : BackupEvent) md st :
  resourceType ev = "EBS" ->
  invoke w ev = (Return md, st) ->
  (forall pre id rest,
      resourceArn ev = (pre ++ "/" ++ id ++ rest)%string ->
      JS.contains "/" pre = false ->
      JS.contains "/" id = false ->
      rest = "" \/ (exists r, rest = ("/" ++ r)%string) ->
      calls st = [S3_listBuckets; EC2_describeTags (Some id)])
  /\ (JS.contains "/" (resourceArn ev) = false ->
      calls st = [S3_listBuckets; EC2_describeTags None]).
Proof.
  intros Ht H. rewrite (ebs_request w ev md st Ht H). split.
  - intros pre id rest E Hp Hi Hr. rewrite E, (second_segment _ _ Hp).
    destruct Hr as [->|[r ->]].
    + rewrite append_nil_r, (split_without _ _ Hi). reflexivity.
    + change (id ++ "/" ++ r)%string with (id ++ String "/" r)%string.
      rewrite split_app, (split_without _ _ Hi). reflexivity.
  - intros Hn. rewrite (split_without _ _ Hn). reflexivity.
Qed.

Lemma ebs_tags_are_requested_for_the_second_segment_witness :
  exists md st,
    invoke Examples.world (Examples.ebs_event 1700000000) = (Return md, st)
    /\ calls st = [S3_listBuckets; EC2_describeTags (Some "vol-0123")].
Proof.
  eexists _, _. split; [vm_compute; reflexivity|].
  apply (proj1 (ebs_tags_are_requested_for_the_second_segment Examples.world
                  (Examples.ebs_event 1700000000) _ _ eq_refl
                  ltac:(vm_compute; reflexivity))
           "arn:aws:ec2:us-east-1:123456789012:volume" "vol-0123" "");
    try reflexivity.
  left. reflexivity.
Defined.

(** X8: a creation date whose time, computed as the handler computes
    it, is outside the range of [Date] never lets the invocation return;
    for [RDS] and [Aurora] the [RangeError] of [toISOString] is thrown
    once the three requests have been sent. *)
Theorem invalid_creation_date_is_thrown_after_the_requests
  (w : World) (ev : BackupEvent) (v b : string) (bs : list string) :
  state ev = "COMPLETED" ->
  env_VALIDAZS w = Some v ->
  vault_name_ok (backupVaultName ev) = true ->
  ARN_validate (resourceArn ev) = true ->
  ARN_validate (recoveryPointArn ev) = true ->
  env_BUCKET w = Some b ->
  s3_listBuckets w = Fulfilled bs ->
  In b bs ->
  JSDate.ofSecondsNanos (creationDate_seconds ev) (creationDate_nanos ev)
  = None ->
  (forall md st, invoke w ev <> (Return md, st))
  /\ (resourceType ev = "Aurora" \/ resourceType ev = "RDS" ->
      exists st c,
        invoke w ev = (Throw (RangeError "Invalid time value"), st)
        /\ calls st = [S3_listBuckets; c;
                       RDS_listTagsForResource (resourceArn ev)]).
Proof.
  intros Hs Hv H1 H2 H3 Hb Hl Hin Hd. split.
  - intros md st H. apply invoke_return in H.
    destruct H as (_ & _ & _ & _ & v' & b' & t & bs' & _ & _ & _ & _ & D & _).
    congruence.
  - intros Ht.
    assert (Ex : existsb (String.eqb b) bs = true).
    { apply existsb_exists. exists b. split; [exact Hin | apply String.eqb_refl]. }
    destruct (fetch_rds w ev listed Ht) as (c & r & F).
    run_handler. rewrite Hs, Hv, H1, H2, H3, Hb, Hl. cbv beta iota zeta.
    rewrite String.eqb_refl, Ex. cbv beta iota zeta.
    unfold listed in F. rewrite F, Hd. cbv beta iota zeta.
    eexists _, c. split; reflexivity.
Qed.

Lemma invalid_creation_date_is_thrown_after_the_requests_witness :
  (forall md st,
      invoke Examples.world
        (Scenarios.event_at "RDS" "vault" 8640000000000 600000)
      <> (Return md, st))
  /\ exists st c,
      invoke Examples.world
        (Scenarios.event_at "RDS" "vault" 8640000000000 600000)
      = (Throw (RangeError "Invalid time value"), st)
      /\ calls st
         = [S3_listBuckets; c;
            RDS_listTagsForResource
              "arn:aws:dynamodb:us-east-1:123456789012:table/orders"].
Proof.
  destruct (invalid_creation_date_is_thrown_after_the_requests Examples.world
              (Scenarios.event_at "RDS" "vault" 8640000000000 600000)
              "us-east-1a,us-east-1b" "backup-bucket"
              ["logs"; "backup-bucket"]) as [N T];
    try reflexivity.
  - simpl. auto.
  - split; [exact N|]. apply T. right. reflexivity.
Defined.

Lemma append_inv_tail (a b c : string) :
  (a ++ c)%string = (b ++ c)%string -> a = b.
Proof.
  revert b. induction a as [|x a IH]; intros [|y b] E; simpl in E.
  - reflexivity.
  - exfalso. apply (f_equal String.length) in E. simpl in E.
    rewrite length_append in E. lia.
  - exfalso. apply (f_equal String.length) in E. simpl in E.
    rewrite length_append in E. lia.
  - injection E as -> E. f_equal. auto.
Qed.

Lemma utc_day_of_Day (t1 t2 : Z) :
  JSDate.Day t1 = JSDate.Day t2 -> JSDate.utc_day t1 = JSDate.utc_day t2.
Proof.
  intros E.
  unfold JSDate.utc_day, JSDate.getUTCFullYear, JSDate.getUTCMonth,
    JSDate.getUTCDate, JSDate.DateFromTime, JSDate.MonthFromTime,
    JSDate.InLeapYear, JSDate.DayWithinYear, JSDate.YearFromTime.
  now rewrite E.
Qed.

Lemma Day_of_utc_day (t1 t2 : Z) :
  JSDate.utc_day t1 = JSDate.utc_day t2 -> JSDate.Day t1 = JSDate.Day t2.
Proof.
  unfold JSDate.utc_day, JSDate.getUTCFullYear, JSDate.getUTCMonth,
    JSDate.getUTCDate.
  intros [= Ey Em Ed].
  assert (El : JSDate.InLeapYear t1 = JSDate.InLeapYear t2)
    by (unfold JSDate.InLeapYear; now rewrite Ey).
  pose proof (MonthFromTime_range t2) as R.
  unfold JSDate.DateFromTime in Ed. rewrite Em, El in Ed.
  assert (JSDate.DayWithinYear t1 = JSDate.DayWithinYear t2).
  { assert (C : (JSDate.MonthFromTime t2 = 0 \/ JSDate.MonthFromTime t2 = 1
                 \/ JSDate.MonthFromTime t2 = 2 \/ JSDate.MonthFromTime t2 = 3
                 \/ JSDate.MonthFromTime t2 = 4 \/ JSDate.MonthFromTime t2 = 5
                 \/ JSDate.MonthFromTime t2 = 6 \/ JSDate.MonthFromTime t2 = 7
                 \/ JSDate.MonthFromTime t2 = 8 \/ JSDate.MonthFromTime t2 = 9
                 \/ JSDate.MonthFromTime t2 = 10
                 \/ JSDate.MonthFromTime t2 = 11)%Z) by lia.
    repeat (destruct C as [C|C]; [rewrite C in Ed; lia|]).
    rewrite C in Ed; lia. }
  unfold JSDate.DayWithinYear in H. rewrite Ey in H. lia.
Qed.

(** X9: for one resource ARN and one job id, two creation dates give the
    same [S3Prefix] exactly when they fall into the same UTC day, that is
    when their time values have the same quotient by 86400000. *)
Theorem prefix_changes_exactly_at_utc_midnight
  (w1 w2 : World) (ev1 ev2 : BackupEvent) md1 md2 st1 st2 (t1 t2 : Z) :
  invoke w1 ev1 = (Return md1, st1) ->
  invoke w2 ev2 = (Return md2, st2) ->
  resourceArn ev1 = resourceArn ev2 ->
  backupJobId ev1 = backupJobId ev2 ->
  JSDate.ofSecondsNanos (creationDate_seconds ev1) (creationDate_nanos ev1)
  = Some t1 ->
  JSDate.ofSecondsNanos (creationDate_seconds ev2) (creationDate_nanos ev2)
  = Some t2 ->
  (S3Prefix md1 = S3Prefix md2 <-> (t1 / 86400000 = t2 / 86400000)%Z).
Proof.
  intros R1 R2 Ea Ej D1 D2.
  apply invoke_return in R1, R2.
  destruct R1 as (_ & _ & _ & _ & v1 & b1 & t1' & bs1 & _ & _ & _ & _ & D1' & _ & ->).
  destruct R2 as (_ & _ & _ & _ & v2 & b2 & t2' & bs2 & _ & _ & _ & _ & D2' & _ & ->).
  rewrite D1 in D1'. rewrite D2 in D2'.
  injection D1' as <-. injection D2' as <-.
  cbn [S3Prefix returned]. rewrite Ea, Ej.
  change (t1 / 86400000)%Z with (JSDate.Day t1).
  change (t2 / 86400000)%Z with (JSDate.Day t2).
  split.
  - intros E. apply Day_of_utc_day. rewrite !s3_prefix_eq in E.
    apply append_inv_tail in E.
    assert (P : forall k n z,
               JS.contains "/" (String k (String "=" (JSDate.pad n z)))
               = JS.contains "/" (String k "")).
    { intros. simpl. rewrite pad_no_slash. now rewrite !orb_false_r. }
    apply last_segment_inj in E as [E Ed];
      try (simpl append; rewrite P; reflexivity).
    apply last_segment_inj in E as [E Em];
      try (simpl append; rewrite P; reflexivity).
    apply last_segment_inj in E as [E Ey];
      try (simpl append; rewrite P; reflexivity).
    simpl in Ed, Em, Ey.
    injection Ed as Ed. injection Em as Em. injection Ey as Ey.
    apply pad_inj in Ed, Em, Ey.
    unfold JSDate.utc_day. rewrite Ey, Ed. f_equal. f_equal. lia.
  - intros E. apply s3_prefix_same_day. now apply utc_day_of_Day.
Qed.

Lemma prefix_changes_exactly_at_utc_midnight_witness :
  exists md1 st1 md2 st2,
    invoke Examples.world (Examples.ebs_event_at 1700006399 999999999)
    = (Return md1, st1)
    /\ invoke Examples.world (Examples.ebs_event_at 1700006399 0)
       = (Return md2, st2)
    /\ (S3Prefix md1 = S3Prefix md2
        <-> (1700006400000 / 86400000 = 1700006399000 / 86400000)%Z)
    /\ S3Prefix md1 <> S3Prefix md2.
Proof.
  eexists _, _, _, _.
  split; [vm_compute; reflexivity|]. split; [vm_compute; reflexivity|].
  split.
  - eapply (prefix_changes_exactly_at_utc_midnight
              Examples.world Examples.world
              (Examples.ebs_event_at 1700006399 999999999)
              (Examples.ebs_event_at 1700006399 0)
              _ _ _ _ 1700006400000%Z 1700006399000%Z);
      vm_compute; reflexivity.
  - vm_compute. discriminate.
Defined.

End HandlerEdges.

(* ================================================================== *)
(** * The EBS export machine, path by path *)
(* ================================================================== *)

Section TaskRuns.
Import ASL.
Context {S : Type}.
Variable def : S -> State S.
Variable ctx : json.

(** An execution that succeeds from a task state: the task was answered
    after attempts that failed, and the execution went on from the next
    state or from the handler of a catcher. *)
Lemma run_task_succeeded (fuel : nat) (s : S) (t : TaskProps S) (d : json)
  (answers : list Response) (tr : list Event) (s' : S) (out : json) :
  def s = Task t ->
  run def ctx (Datatypes.S fuel) s d answers = (tr, Some (Succeeded s' out)) ->
  exists args failed a rest d' tr' nxt,
    task_input ctx t d = Some args
    /\ Forall (fun e => exists e' c,
                  e = Called (service t) (action t) args (Failure e' c)) failed
    /\ tr = (failed ++ [Called (service t) (action t) args a]) ++ tr'
    /\ run def ctx fuel nxt d' rest = (tr', Some (Succeeded s' out))
    /\ match a with
       | Success o => nxt = next t /\ task_result ctx t d o = Some d'
       | Failure e cause =>
           exists c,
             first_catcher e (catch t) = Some c /\ nxt = handler c
             /\ store (catch_resultPath c) (error_output e cause) d = Some d'
       end.
Proof.
  intros D. rewrite run_step. unfold step. rewrite D.
  destruct (step_task_cases ctx s t d answers)
    as [[_ ->] | (args & evs & Hin & [[-> _] | (a & rest & failed & -> & F & ->)])];
    try discriminate.
  destruct a as [o|e cause].
  - destruct (task_result ctx t d o) as [d'|] eqn:T; [|discriminate].
    destruct (run def ctx fuel (next t) d' rest) as [tr' o'] eqn:R.
    intros [= <- ->].
    exists args, failed, (Success o), rest, d', tr', (next t). auto 10.
  - destruct (first_catcher e (catch t)) as [c|] eqn:C; [|discriminate].
    destruct (store (catch_resultPath c) (error_output e cause) d)
      as [d'|] eqn:T; [|discriminate].
    destruct (run def ctx fuel (handler c) d' rest) as [tr' o'] eqn:R.
    intros [= <- ->].
    exists args, failed, (Failure e cause), rest, d', tr', (handler c).
    repeat split; eauto.
Qed.

Lemma attempts_head sv ac args rs left (a : Response) (rest : list Response) :
  exists evs r,
    attempts sv ac args rs left (a :: rest) = (Called sv ac args a :: evs, r).
Proof.
  cbn [attempts]. destruct a as [out|e c]; [eauto|].
  destruct (consume e rs left) as [left'|]; [|eauto].
  destruct (attempts sv ac args rs left' rest) as [evs r]. eauto.
Qed.

(** A task state whose request can be built sends it. *)
Lemma run_task_first_call (fuel : nat) (s : S) (t : TaskProps S)
  (d args : json) (a : Response) (answers : list Response) :
  def s = Task t ->
  task_input ctx t d = Some args ->
  exists tr o,
    run def ctx (Datatypes.S fuel) s d (a :: answers)
    = (Called (service t) (action t) args a :: tr, o).
Proof.
  intros D I. rewrite run_step. unfold step. rewrite D.
  unfold step_task. rewrite I.
  destruct (attempts_head (service t) (action t) args (retry t)
              (map maxAttempts (retry t)) a answers) as (evs & r & ->).
  destruct r as [[[out|e c] rest]|].
  - destruct (task_result ctx t d out) as [d'|];
      [|eexists _, _; reflexivity].
    destruct (run def ctx fuel (next t) d' rest) as [tr o].
    eexists _, _; reflexivity.
  - destruct (first_catcher e (catch t)) as [k|];
      [|eexists _, _; reflexivity].
    destruct (store (catch_resultPath k) (error_output e c) d) as [d'|];
      [|eexists _, _; reflexivity].
    destruct (run def ctx fuel (handler k) d' rest) as [tr o].
    eexists _, _; reflexivity.
  - eexists _, _; reflexivity.
Qed.

End TaskRuns.

Section EBSPaths.
Import ASL EBSBackupMachine.
Variable tags : list (string * string).
Variable jqs : list (string * string).
Variable jobDefinitionArn : string.
Variable ctx : json.
Let machine := def tags jqs jobDefinitionArn.

(** A field that is kept keeps what is under it. *)
Lemma get_under (k : string) (q : list segment) (d d' : json) :
  get [Key k] d' = get [Key k] d ->
  get (Key k :: q) d' = get (Key k :: q) d.
Proof.
  destruct d as [| |f|], d' as [| |f'|]; cbn [get]; try reflexivity;
    try (destruct (assoc k f'); [discriminate | reflexivity]);
    try (destruct (assoc k f); [discriminate | reflexivity]).
  destruct (assoc k f'), (assoc k f); congruence.
Qed.

(** The rules of [EBS Ready?] on a polled state and a zone. *)
Lemma ready_rules (d : json) (s az : string) (l : list (string * string)) :
  lookup "$.Ready.State" d = Some (JString s) ->
  lookup "$.AvailabilityZone" d = Some (JString az) ->
  first_rule
    (map (fun e =>
            (and_ (stringEquals "$.Ready.State" "available")
                  (stringEquals "$.AvailabilityZone" (fst e)),
             EBSBatchJobTask (fst e) (snd e))) l
     ++ [(stringEquals "$.Ready.State" "creating", EBSReadyWait)]) d
  = Some (if String.eqb s "available"
          then match find (fun e => String.eqb az (fst e)) l with
               | Some e => Some (EBSBatchJobTask az (snd e))
               | None => None
               end
          else if String.eqb s "creating" then Some EBSReadyWait else None).
Proof.
  intros Hs Ha. induction l as [|e l IH]; simpl.
  - rewrite Hs. destruct (String.eqb_spec s "available") as [->|_];
      [reflexivity|].
    destruct (String.eqb s "creating"); reflexivity.
  - rewrite Hs. destruct (String.eqb_spec s "available") as [->|N].
    + rewrite Ha. destruct (String.eqb_spec az (fst e)) as [->|_];
        [reflexivity|].
      rewrite IH. reflexivity.
    + rewrite IH. destruct (String.eqb_spec s "available"); [contradiction|].
      reflexivity.
Qed.

Lemma ready_choice_dispatch (d : json) (s az : string)
  (answers : list Response) :
  lookup "$.Ready.State" d = Some (JString s) ->
  lookup "$.AvailabilityZone" d = Some (JString az) ->
  step machine ctx EBSReadyChoice d answers
  = Next (if String.eqb s "available"
          then match find (fun e => String.eqb az (fst e)) jqs with
               | Some e => EBSBatchJobTask az (snd e)
               | None => EBSReadyFailed
               end
          else if String.eqb s "creating" then EBSReadyWait
               else EBSReadyFailed) d [] answers.
Proof.
  intros Hs Ha. unfold step. cbn [machine def ebsreadychoice].
  rewrite (ready_rules d s az jqs Hs Ha).
  destruct (String.eqb s "available").
  - destruct (find _ jqs); reflexivity.
  - destruct (String.eqb s "creating"); reflexivity.
Qed.


Lemma ready_rules_creating (d : json) (l : list (string * string)) :
  lookup "$.Ready.State" d = Some (JString "creating") ->
  first_rule
    (map (fun e =>
            (and_ (stringEquals "$.Ready.State" "available")
                  (stringEquals "$.AvailabilityZone" (fst e)),
             EBSBatchJobTask (fst e) (snd e))) l
     ++ [(stringEquals "$.Ready.State" "creating", EBSReadyWait)]) d
  = Some (Some EBSReadyWait).
Proof.
  intros H. induction l as [|e l IH]; simpl; rewrite H; simpl; auto.
Qed.

(** One poll of the restored volume. *)
Lemma ready_poll_step (d vol out : json) (s : string)
  (answers : list Response) :
  lookup "$.Restore.VolumeId" d = Some vol ->
  lookup "$.Volumes[0].State" out = Some (JString s) ->
  exists d',
    step machine ctx EBSReadyTask d (Success out :: answers)
    = Next EBSReadyChoice d'
        [Called "ec2" "describeVolumes"
           (JObject [("VolumeIds", JArray [vol])]) (Success out)]
        answers
    /\ lookup "$.Ready.State" d' = Some (JString s)
    /\ forall k, k <> "Ready" -> get [Key k] d' = get [Key k] d.
Proof.
  intros Hv Hs.
  destruct (get_key_object "Restore" [Key "VolumeId"] d vol)
    as [fields ->]; [exact Hv|].
  exists (JObject (set_field "Ready" (JObject [("State", JString s)]) fields)).
  split; [|split].
  - cbv [step machine def step_task task_input task_result
         inputPath parameters resultSelector resultPath service action
         retry catch next].
    rewrite lookup_root. cbv [eval map all_some option_map attempts].
    rewrite Hv, Hs. reflexivity.
  - paths. cbn [get]. rewrite assoc_set_same. reflexivity.
  - intros k N. cbn [get]. rewrite assoc_set_other by exact N. reflexivity.
Qed.

(** X10: when [describeVolumes] answers the state [creating], the EBS
    machine sleeps 60 seconds and goes on as an execution from
    [EBSReadyTask] does, on a document that still names the volume and
    differs from the one before in the field [Ready] only. *)
Theorem creating_volume_is_polled_again (d vol out : json)
  (answers : list Response) :
  lookup "$.Restore.VolumeId" d = Some vol ->
  lookup "$.Volumes[0].State" out = Some (JString "creating") ->
  exists d',
    lookup "$.Restore.VolumeId" d' = Some vol
    /\ (forall k, k <> "Ready" -> get [Key k] d' = get [Key k] d)
    /\ forall fuel,
        run machine ctx (3 + fuel) EBSReadyTask d (Success out :: answers)
        = let (tr, o) := run machine ctx fuel EBSReadyTask d' answers in
          (Called "ec2" "describeVolumes"
             (JObject [("VolumeIds", JArray [vol])]) (Success out)
           :: Slept 60 :: tr, o).
Proof.
  intros Hv Hs.
  destruct (ready_poll_step d vol out "creating" answers Hv Hs)
    as (d' & E & Hs' & K).
  exists d'. split; [|split; [exact K|]].
  - revert Hv. paths. intros Hv.
    rewrite (get_under "Restore" [Key "VolumeId"] d d'); [exact Hv|].
    apply K. discriminate.
  - intros fuel.
    change (3 + fuel)%nat with (Datatypes.S (Datatypes.S (Datatypes.S fuel))).
    rewrite run_step, E, run_step. unfold step at 1.
    cbn [machine def ebsreadychoice].
    rewrite (ready_rules_creating d' jqs Hs').
    rewrite run_step.
    change (step machine ctx EBSReadyWait d' answers)
      with (Next EBSReadyTask d' [Slept 60] answers).
    cbv beta iota zeta.
    destruct (run machine ctx fuel EBSReadyTask d' answers).
    reflexivity.
Qed.


(** The request of the batch job for a volume. *)
Lemma job_input (d vol : json) (bucket prefix az jq : string) :
  lookup "$.Restore.VolumeId" d = Some vol ->
  lookup "$.S3BucketName" d = Some (JString bucket) ->
  lookup "$.S3Prefix" d = Some (JString prefix) ->
  forall t, machine (EBSBatchJobTask az jq) = Task t ->
  task_input ctx t d
  = Some (JObject
            [("JobDefinition", JString jobDefinitionArn);
             ("JobName", JString ("EBSBackupJob" ++ JS.last_char az));
             ("JobQueue", JString jq);
             ("Parameters",
              JObject [("volume", vol);
                       ("s3path",
                        JString ("s3://" ++ bucket ++ "/" ++ prefix))]);
             ("RetryStrategy", JObject [("Attempts", JNumber 2)])]).
Proof.
  intros Hv Hb Hp t [= <-].
  cbv [task_input inputPath parameters]. rewrite lookup_root.
  cbn [eval map all_some option_map]. rewrite Hv, Hb, Hp.
  cbn [all_some option_map map as_string format Ascii.eqb Bool.eqb andb].
  rewrite append_nil_r. reflexivity.
Qed.


(** A task without retrier asks once. *)
Lemma attempts_once sv ac args (a : Response) (rest : list Response) :
  attempts sv ac args [] [] (a :: rest)
  = ([Called sv ac args a], Some (a, rest)).
Proof. destruct a; reflexivity. Qed.

(** X11: on an [available] volume the choice [EBS Ready?] submits the
    backup job to the queue registered for the zone of the document, with
    the volume id and [s3://<bucket>/<prefix>] as the job's parameters;
    when no queue is registered for that zone the execution ends in the
    [Fail] state [EBSReadyFailed] with no request. *)
Theorem available_volume_goes_to_the_queue_of_its_zone
  (d vol : json) (bucket prefix az : string) (a : Response)
  (answers : list Response) (fuel : nat) :
  lookup "$.Ready.State" d = Some (JString "available") ->
  lookup "$.AvailabilityZone" d = Some (JString az) ->
  lookup "$.Restore.VolumeId" d = Some vol ->
  lookup "$.S3BucketName" d = Some (JString bucket) ->
  lookup "$.S3Prefix" d = Some (JString prefix) ->
  match find (fun e => String.eqb az (fst e)) jqs with
  | Some e =>
      exists tr o,
        run machine ctx (2 + fuel) EBSReadyChoice d (a :: answers)
        = (Called "batch" "submitJob.sync"
             (JObject
                [("JobDefinition", JString jobDefinitionArn);
                 ("JobName", JString ("EBSBackupJob" ++ JS.last_char az));
                 ("JobQueue", JString (snd e));
                 ("Parameters",
                  JObject [("volume", vol);
                           ("s3path",
                            JString ("s3://" ++ bucket ++ "/" ++ prefix))]);
                 ("RetryStrategy", JObject [("Attempts", JNumber 2)])]) a
           :: tr, o)
  | None =>
      run machine ctx (2 + fuel) EBSReadyChoice d (a :: answers)
      = ([], Some (FailedState EBSReadyFailed))
  end.
Proof.
  intros Hs Ha Hv Hb Hp.
  change (2 + fuel)%nat with (Datatypes.S (Datatypes.S fuel)).
  rewrite run_step, (ready_choice_dispatch d "available" az _ Hs Ha).
  cbn [String.eqb Ascii.eqb Bool.eqb andb]. cbv beta iota zeta.
  destruct (find (fun e => String.eqb az (fst e)) jqs) as [e|].
  - destruct (machine (EBSBatchJobTask az (snd e))) as [t| | | |] eqn:D;
      try discriminate.
    pose proof (job_input d vol bucket prefix az (snd e) Hv Hb Hp t D) as I.
    destruct (run_task_first_call machine ctx fuel _ t d _ a answers D I)
      as (tr & o & ->).
    injection D as <-. eexists _, _. reflexivity.
  - rewrite run_step. reflexivity.
Qed.

(** [EBSCleanupTask] on a document that names the volume. *)
Lemma cleanup_step (d vol out : json) (answers : list Response) :
  lookup "$.Restore.VolumeId" d = Some vol ->
  exists d',
    step machine ctx EBSCleanupTask d (Success out :: answers)
    = Next EBSCleanupResult d'
        [Called "ec2" "deleteVolume" (JObject [("VolumeId", vol)])
           (Success out)] answers
    /\ forall k, k <> "DeleteVolume" -> get [Key k] d' = get [Key k] d.
Proof.
  intros Hv.
  destruct (get_key_object "Restore" [Key "VolumeId"] d vol)
    as [fields ->]; [exact Hv|].
  exists (JObject (set_field "DeleteVolume" out fields)). split.
  - cbv [step machine def step_task task_input task_result
         inputPath parameters resultSelector resultPath service action
         retry catch next].
    rewrite lookup_root. cbv [eval map all_some option_map attempts].
    rewrite Hv. reflexivity.
  - intros k N. cbn [get]. rewrite assoc_set_other by exact N. reflexivity.
Qed.

(** [EBSCleanupResult]: success exactly without a recorded error. *)
Lemma cleanup_result_run (d : json) (answers : list Response) (fuel : nat) :
  run machine ctx (2 + fuel) EBSCleanupResult d answers
  = ([], Some match get [Key "Error"] d with
              | None => Succeeded EBSSucceed d
              | Some _ => FailedState EBSFail
              end).
Proof.
  change (2 + fuel)%nat with (Datatypes.S (Datatypes.S fuel)).
  rewrite run_step. cbv [step machine def first_rule holds]. paths.
  destruct (get [Key "Error"] d); rewrite run_step; reflexivity.
Qed.

(** The job fails: the error is recorded beside the volume. *)
Lemma job_failure_step (d vol : json) (bucket prefix az jq e cause : string)
  (answers : list Response) :
  lookup "$.Restore.VolumeId" d = Some vol ->
  lookup "$.S3BucketName" d = Some (JString bucket) ->
  lookup "$.S3Prefix" d = Some (JString prefix) ->
  error_matches e "States.ALL" = true ->
  exists d' args,
    step machine ctx (EBSBatchJobTask az jq) d (Failure e cause :: answers)
    = Next EBSCleanupTask d'
        [Called "batch" "submitJob.sync" args (Failure e cause)] answers
    /\ get [Key "Error"] d' = Some (error_output e cause)
    /\ forall k, k <> "Error" -> get [Key k] d' = get [Key k] d.
Proof.
  intros Hv Hb Hp He.
  destruct (get_key_object "Restore" [Key "VolumeId"] d vol)
    as [fields E]; [exact Hv|].
  exists (JObject (set_field "Error" (error_output e cause) fields)).
  eexists. split; [|split].
  - unfold step.
    destruct (machine (EBSBatchJobTask az jq)) as [t| | | |] eqn:D;
      try discriminate.
    pose proof (job_input d vol bucket prefix az jq Hv Hb Hp t D) as I.
    injection D as <-. unfold step_task. rewrite I.
    cbn [service action retry map catch]. rewrite attempts_once.
    cbn [first_catcher matches_any existsb catch_errors]. rewrite He.
    cbn [orb catch_resultPath handler]. subst d. reflexivity.
  - cbn [get]. rewrite assoc_set_same. reflexivity.
  - intros k N. subst d. cbn [get]. rewrite assoc_set_other by exact N.
    reflexivity.
Qed.

(** X12: when the batch job fails, the error is recorded under [$.Error],
    the volume is deleted all the same, and the execution ends in the
    [Fail] state [EBSFail]. *)
Theorem failed_job_deletes_the_volume_and_fails
  (d vol out : json) (bucket prefix az jq e cause : string)
  (answers : list Response) (fuel : nat) :
  lookup "$.Restore.VolumeId" d = Some vol ->
  lookup "$.S3BucketName" d = Some (JString bucket) ->
  lookup "$.S3Prefix" d = Some (JString prefix) ->
  error_matches e "States.ALL" = true ->
  exists args,
    run machine ctx (4 + fuel) (EBSBatchJobTask az jq) d
        (Failure e cause :: Success out :: answers)
    = ([Called "batch" "submitJob.sync" args (Failure e cause);
        Called "ec2" "deleteVolume" (JObject [("VolumeId", vol)])
          (Success out)],
       Some (FailedState EBSFail)).
Proof.
  intros Hv Hb Hp He.
  destruct (job_failure_step d vol bucket prefix az jq e cause
              (Success out :: answers) Hv Hb Hp He)
    as (d1 & args & E1 & Herr & K1).
  assert (Hv1 : lookup "$.Restore.VolumeId" d1 = Some vol).
  { revert Hv. paths. intros Hv.
    rewrite (get_under "Restore" [Key "VolumeId"] d d1); [exact Hv|].
    apply K1. discriminate. }
  destruct (cleanup_step d1 vol out answers Hv1) as (d2 & E2 & K2).
  exists args.
  change (4 + fuel)%nat with (Datatypes.S (Datatypes.S (2 + fuel))).
  rewrite run_step, E1, run_step, E2, cleanup_result_run.
  rewrite (K2 "Error") by discriminate. rewrite Herr. reflexivity.
Qed.


Lemma store_root (v d : json) : store "$" v d = Some v.
Proof. reflexivity. Qed.

Lemma error_output_error (e cause : string) :
  get [Key "Error"] (error_output e cause) = Some (JString e).
Proof. reflexivity. Qed.

(** What an execution that succeeds has behind it, state by state. *)
Lemma success_needs (fuel : nat) :
  forall s d answers tr s' out,
    run machine ctx fuel s d answers = (tr, Some (Succeeded s' out)) ->
    match s with
    | EBSRestoreTask =>
        succeeded "ec2" "createVolume" tr = true
        /\ succeeded "batch" "submitJob.sync" tr = true
        /\ succeeded "ec2" "deleteVolume" tr = true
    | EBSReadyTask | EBSReadyChoice | EBSReadyWait | EBSBatchJobTask _ _ =>
        succeeded "batch" "submitJob.sync" tr = true
        /\ succeeded "ec2" "deleteVolume" tr = true
    | EBSCleanupTask | EBSForceDetach | EBSWaitDetach =>
        get [Key "Error"] d = None
        /\ succeeded "ec2" "deleteVolume" tr = true
    | EBSCleanupResult => get [Key "Error"] d = None
    | _ => True
    end.
Proof.
  induction fuel as [|fuel IH]; intros s d answers tr s' out R;
    [discriminate|].
  destruct s.
  - (* EBSRestoreTask *)
    destruct (run_task_succeeded machine ctx fuel EBSRestoreTask _ d answers tr s' out
                eq_refl R)
      as (args & failed & a & rest & d' & tr' & nxt & _ & F & -> & R' & Ha).
    cbn [service action next catch] in *.
    destruct a as [o|e cause]; [|destruct Ha as (c & [=] & _)].
    destruct Ha as [-> _]. specialize (IH _ _ _ _ _ _ R'). cbv beta iota in IH.
    destruct IH as [Hj Hd].
    rewrite !succeeded_app, Hj, Hd, !orb_true_r.
    change (succeeded "ec2" "createVolume"
              [Called "ec2" "createVolume" args (Success o)]) with true.
    cbn [orb]. auto.
  - (* EBSReadyTask *)
    destruct (run_task_succeeded machine ctx fuel EBSReadyTask _ d answers tr s' out
                eq_refl R)
      as (args & failed & a & rest & d' & tr' & nxt & _ & F & -> & R' & Ha).
    cbn [service action next catch] in *.
    destruct a as [o|e cause].
    + destruct Ha as [-> _]. specialize (IH _ _ _ _ _ _ R').
      cbv beta iota in IH. destruct IH as [Hj Hd].
      rewrite !succeeded_app, Hj, Hd, !orb_true_r. auto.
    + destruct Ha as (c & C & -> & T). cbn [first_catcher] in C.
      destruct (matches_any e _); [|discriminate]. injection C as <-.
      cbn [catch_resultPath catch_all handler] in *.
      rewrite store_root in T. injection T as <-.
      specialize (IH _ _ _ _ _ _ R'). cbv beta iota in IH.
      destruct IH as [He _]. rewrite error_output_error in He. discriminate.
  - (* EBSReadyChoice *)
    rewrite run_step in R. unfold step in R.
    cbn [machine def ebsreadychoice] in R.
    destruct (first_rule _ d) as [[s1|]|] eqn:E.
    + apply ready_rules_targets in E.
      destruct (run machine ctx fuel s1 d answers) as [tr' o'] eqn:R'.
      injection R as <- ->. specialize (IH _ _ _ _ _ _ R').
      destruct E as [(az & jq & ->) | ->]; exact IH.
    + destruct fuel as [|fuel']; [discriminate|].
      rewrite run_step in R. discriminate.
    + discriminate.
  - (* EBSReadyWait *)
    rewrite run_step in R. cbn [step machine def] in R.
    destruct (run machine ctx fuel EBSReadyTask d answers) as [tr' o'] eqn:R'.
    injection R as <- ->. exact (IH _ _ _ _ _ _ R').
  - (* EBSBatchJobTask *)
    destruct (run_task_succeeded machine ctx fuel (EBSBatchJobTask az jobQueueArn) _ d answers tr s' out
                eq_refl R)
      as (args & failed & a & rest & d' & tr' & nxt & _ & F & -> & R' & Ha).
    cbn [service action next catch] in *.
    destruct a as [o|e cause].
    + destruct Ha as [-> _]. specialize (IH _ _ _ _ _ _ R').
      cbv beta iota in IH. destruct IH as [_ Hd].
      rewrite !succeeded_app, Hd, !orb_true_r.
      change (succeeded "batch" "submitJob.sync"
                [Called "batch" "submitJob.sync" args (Success o)]) with true.
      cbn [orb]. auto.
    + destruct Ha as (c & C & -> & T). cbn [first_catcher] in C.
      destruct (matches_any e _); [|discriminate]. injection C as <-.
      cbn [catch_resultPath handler] in *.
      specialize (IH _ _ _ _ _ _ R'). cbv beta iota in IH.
      destruct IH as [He _]. revert T. paths.
      destruct d as [| |fields|]; try discriminate.
      cbn [put option_map]. intros [= <-]. cbn [get] in He.
      rewrite assoc_set_same in He. discriminate.
  - (* EBSCleanupTask *)
    destruct (run_task_succeeded machine ctx fuel EBSCleanupTask _ d answers tr s' out
                eq_refl R)
      as (args & failed & a & rest & d' & tr' & nxt & _ & F & -> & R' & Ha).
    cbn [service action next catch] in *.
    destruct a as [o|e cause].
    + destruct Ha as [-> T]. specialize (IH _ _ _ _ _ _ R').
      cbv beta iota in IH.
      rewrite !succeeded_app.
      change (succeeded "ec2" "deleteVolume"
                [Called "ec2" "deleteVolume" args (Success o)]) with true.
      rewrite ?orb_true_r. cbn [orb]. split; [|reflexivity].
      rewrite <- IH. symmetry.
      apply (store_elsewhere "Error" "$.DeleteVolume" o d d'); [|exact T].
      eexists _, _. split; [vm_compute; reflexivity | discriminate].
    + destruct Ha as (c & C & -> & T). cbn [first_catcher] in C.
      destruct (matches_any e _); [|discriminate]. injection C as <-.
      cbn [catch_resultPath handler] in *.
      rewrite store_root in T. injection T as <-.
      specialize (IH _ _ _ _ _ _ R'). cbv beta iota in IH.
      destruct IH as [He _]. rewrite error_output_error in He. discriminate.
  - (* EBSForceDetach *)
    destruct (run_task_succeeded machine ctx fuel EBSForceDetach _ d answers tr s' out
                eq_refl R)
      as (args & failed & a & rest & d' & tr' & nxt & _ & F & -> & R' & Ha).
    cbn [service action next catch] in *.
    destruct a as [o|e cause]; [|destruct Ha as (c & [=] & _)].
    destruct Ha as [-> T]. specialize (IH _ _ _ _ _ _ R').
    cbv beta iota in IH. destruct IH as [He Hd].
    rewrite !succeeded_app, Hd, !orb_true_r. split; [|reflexivity].
    rewrite <- He. symmetry.
    apply (store_elsewhere "Error" "$.DetachVolume" o d d'); [|exact T].
    eexists _, _. split; [vm_compute; reflexivity | discriminate].
  - (* EBSWaitDetach *)
    rewrite run_step in R. cbn [step machine def] in R.
    destruct (run machine ctx fuel EBSCleanupTask d answers) as [tr' o'] eqn:R'.
    injection R as <- ->. specialize (IH _ _ _ _ _ _ R').
    cbv beta iota in IH. exact IH.
  - (* EBSCleanupResult *)
    rewrite run_step in R. revert R.
    cbv [step machine def first_rule holds]. paths.
    destruct (get [Key "Error"] d); [|reflexivity].
    destruct fuel as [|fuel']; [discriminate|].
    rewrite run_step. discriminate.
  - exact I.
  - exact I.
  - exact I.
Qed.

(** X13: an execution of the EBS machine that ends in success has had
    [createVolume], [submitJob] and [deleteVolume] each answered with
    success. *)
Theorem success_means_backup_and_cleanup_succeeded
  (fuel : nat) (input : json) (answers : list Response) (tr : list Event)
  (s : state) (out : json) :
  run machine ctx fuel start input answers = (tr, Some (Succeeded s out)) ->
  succeeded "ec2" "createVolume" tr = true
  /\ succeeded "batch" "submitJob.sync" tr = true
  /\ succeeded "ec2" "deleteVolume" tr = true.
Proof. intros R. exact (success_needs fuel _ _ _ _ _ _ R). Qed.


(** The two states after a catcher that hands the error on as the whole
    document cannot build their request from it. *)
Lemma cleanup_stops_on_error (e cause : string) (answers : list Response) :
  step machine ctx EBSCleanupTask (error_output e cause) answers
  = Done (Aborted EBSCleanupTask "States.Runtime") [].
Proof. reflexivity. Qed.

Lemma detach_stops_on_error (e cause : string) (answers : list Response) :
  step machine ctx EBSForceDetach (error_output e cause) answers
  = Done (Aborted EBSForceDetach "States.Runtime") [].
Proof. reflexivity. Qed.

(** X14: when [describeVolumes] fails, the catcher hands the error output
    on as the whole document, [EBSCleanupTask] cannot read the volume id
    from it, and the execution aborts with [States.Runtime] having sent
    no [deleteVolume]. *)
Theorem failed_poll_aborts_without_cleanup
  (d vol : json) (e cause : string) (answers : list Response) (fuel : nat) :
  lookup "$.Restore.VolumeId" d = Some vol ->
  error_matches e "States.ALL" = true ->
  run machine ctx (2 + fuel) EBSReadyTask d (Failure e cause :: answers)
  = ([Called "ec2" "describeVolumes"
        (JObject [("VolumeIds", JArray [vol])]) (Failure e cause)],
     Some (Aborted EBSCleanupTask "States.Runtime")).
Proof.
  intros Hv He.
  change (2 + fuel)%nat with (Datatypes.S (Datatypes.S fuel)).
  rewrite run_step.
  assert (E : step machine ctx EBSReadyTask d (Failure e cause :: answers)
              = Next EBSCleanupTask (error_output e cause)
                  [Called "ec2" "describeVolumes"
                     (JObject [("VolumeIds", JArray [vol])])
                     (Failure e cause)] answers).
  { cbv [step machine def step_task task_input task_result
         inputPath parameters resultSelector resultPath service action
         retry catch next].
    rewrite lookup_root. cbv [eval map all_some option_map].
    rewrite Hv. rewrite attempts_once.
    cbn [first_catcher catch_all matches_any existsb catch_errors].
    rewrite He. reflexivity. }
  rewrite E, run_step, cleanup_stops_on_error. reflexivity.
Qed.

(** X15: when [deleteVolume] keeps failing with [VolumeInUse], it is asked
    four times; the catcher then hands the error output on as the whole
    document, [EBSForceDetach] cannot read the volume id from it, and the
    execution aborts with [States.Runtime]. *)
Theorem volume_in_use_aborts_before_detaching
  (d vol : json) (c1 c2 c3 c4 : string) (answers : list Response)
  (fuel : nat) :
  lookup "$.Restore.VolumeId" d = Some vol ->
  let busy c := Failure "VolumeInUse" c in
  let request := Called "ec2" "deleteVolume" (JObject [("VolumeId", vol)]) in
  run machine ctx (2 + fuel) EBSCleanupTask d
      (busy c1 :: busy c2 :: busy c3 :: busy c4 :: answers)
  = ([request (busy c1); request (busy c2); request (busy c3);
      request (busy c4)],
     Some (Aborted EBSForceDetach "States.Runtime")).
Proof.
  intros Hv busy request.
  change (2 + fuel)%nat with (Datatypes.S (Datatypes.S fuel)).
  rewrite run_step.
  assert (E : step machine ctx EBSCleanupTask d
                (busy c1 :: busy c2 :: busy c3 :: busy c4 :: answers)
              = Next EBSForceDetach (error_output "VolumeInUse" c4)
                  [request (busy c1); request (busy c2); request (busy c3);
                   request (busy c4)] answers).
  { cbv [step machine def step_task task_input task_result
         inputPath parameters resultSelector resultPath service action
         retry catch next].
    rewrite lookup_root. cbv [eval map all_some option_map].
    rewrite Hv. reflexivity. }
  rewrite E, run_step, detach_stops_on_error. reflexivity.
Qed.

(** One step from a state other than the two of the detach path, or
    from [EBSForceDetach] on the output of an error: no detach request,
    and the next state is again such a state. *)
Lemma step_without_detach (s : state) (d : json) (answers : list Response) :
  (s = EBSForceDetach -> exists e c, d = error_output e c) ->
  s <> EBSWaitDetach ->
  match step machine ctx s d answers with
  | Next s' d' evs _ =>
      issued "ec2" "detachVolume" evs = false
      /\ (s' = EBSForceDetach -> exists e c, d' = error_output e c)
      /\ s' <> EBSWaitDetach
  | Done _ evs => issued "ec2" "detachVolume" evs = false
  | Blocked evs => issued "ec2" "detachVolume" evs = false
  end.
Proof.
  intros Hd Hw.
  assert (T : forall t, machine s = Task t ->
              String.eqb "ec2" (service t) && String.eqb "detachVolume" (action t)
              = false ->
              (next t <> EBSForceDetach /\ next t <> EBSWaitDetach) ->
              (forall c, In c (catch t) ->
                 handler c <> EBSWaitDetach
                 /\ (handler c = EBSForceDetach -> catch_resultPath c = "$")) ->
              match step_task ctx s t d answers with
              | Next s' d' evs _ =>
                  issued "ec2" "detachVolume" evs = false
                  /\ (s' = EBSForceDetach -> exists e c, d' = error_output e c)
                  /\ s' <> EBSWaitDetach
              | Done _ evs => issued "ec2" "detachVolume" evs = false
              | Blocked evs => issued "ec2" "detachVolume" evs = false
              end).
  { intros t _ N [Hn1 Hn2] Hc.
    destruct (step_task_cases ctx s t d answers)
      as [[_ ->] | (args & evs & _ & [[-> F] | (a & rest & failed & -> & F & ->)])].
    - reflexivity.
    - eapply issued_failures; eauto.
    - assert (I : issued "ec2" "detachVolume"
                    (failed ++ [Called (service t) (action t) args a]) = false)
        by (eapply issued_other; [apply answered_calls; exact F | exact N]).
      destruct a as [o|e cause].
      + destruct (task_result ctx t d o); [|exact I].
        split; [exact I|]. split; [contradiction | exact Hn2].
      + destruct (first_catcher e (catch t)) as [c|] eqn:C; [|exact I].
        destruct (Hc c (first_catcher_in _ _ _ C)) as [Hh1 Hh2].
        destruct (store (catch_resultPath c) (error_output e cause) d)
          as [d'|] eqn:St; [|exact I].
        split; [exact I|]. split; [|exact Hh1].
        intros Hf. rewrite (Hh2 Hf), store_root in St. injection St as <-.
        eauto. }
  unfold step.
  destruct s; cbn [machine def]; try (exact eq_refl).
  - apply T; [reflexivity | reflexivity | split; discriminate |].
    intros c [].
  - apply T; [reflexivity | reflexivity | split; discriminate |].
    intros c [<-|[]]. split; discriminate.
  - unfold ebsreadychoice.
    destruct (first_rule _ d) as [[s1|]|] eqn:E; try reflexivity.
    + apply ready_rules_targets in E. split; [reflexivity|].
      destruct E as [(az & jq & ->) | ->]; split; discriminate.
    + split; [reflexivity|]. split; discriminate.
  - split; [reflexivity|]. split; discriminate.
  - apply T; [reflexivity | reflexivity | split; discriminate |].
    intros c [<-|[]]. split; discriminate.
  - apply T; [reflexivity | reflexivity | split; discriminate |].
    intros c [<-|[]]. split; [discriminate | reflexivity].
  - destruct (Hd eq_refl) as (e & c & ->). reflexivity.
  - contradiction.
  - cbv [first_rule holds].
    destruct (lookup "$.Error" d); (split; [reflexivity|]); split; discriminate.
Qed.

Lemma run_without_detach (fuel : nat) :
  forall s d answers,
    (s = EBSForceDetach -> exists e c, d = error_output e c) ->
    s <> EBSWaitDetach ->
    issued "ec2" "detachVolume" (fst (run machine ctx fuel s d answers))
    = false.
Proof.
  induction fuel as [|fuel IH]; intros s d answers Hd Hw; [reflexivity|].
  rewrite run_step.
  pose proof (step_without_detach s d answers Hd Hw) as St.
  destruct (step machine ctx s d answers) as [s1 d1 evs rest|o evs|evs];
    try exact St.
  destruct St as (I & Hd1 & Hw1).
  specialize (IH s1 d1 rest Hd1 Hw1).
  destruct (run machine ctx fuel s1 d1 rest) as [tr o].
  cbn [fst] in *. rewrite issued_app, I, IH. reflexivity.
Qed.

(** X16: no execution of the EBS machine from its start state ever sends
    [detachVolume], whatever the input and the answers. *)
Theorem detach_is_never_requested
  (fuel : nat) (input : json) (answers : list Response) :
  issued "ec2" "detachVolume"
    (fst (run machine ctx fuel start input answers)) = false.
Proof. apply run_without_detach; discriminate. Qed.

End EBSPaths.

Section EBSWitnesses.
Import ASL EBSBackupMachine.

Lemma creating_volume_is_polled_again_witness :
  exists d',
    lookup "$.Restore.VolumeId" d' = Some (JString "vol-0abc")
    /\ (forall k, k <> "Ready" ->
                  get [Key k] d' = get [Key k] Scenarios.restored)
    /\ forall fuel,
        run (def [] Examples.queues "jobdef") (JObject []) (3 + fuel)
            EBSReadyTask Scenarios.restored
            [Success (Examples.volumes "creating");
             Success (Examples.volumes "available")]
        = let (tr, o) :=
            run (def [] Examples.queues "jobdef") (JObject []) fuel
                EBSReadyTask d' [Success (Examples.volumes "available")] in
          (Called "ec2" "describeVolumes"
             (JObject [("VolumeIds", JArray [JString "vol-0abc"])])
             (Success (Examples.volumes "creating"))
           :: Slept 60 :: tr, o).
Proof.
  apply (creating_volume_is_polled_again [] Examples.queues "jobdef"
           (JObject []) Scenarios.restored (JString "vol-0abc")
           (Examples.volumes "creating")
           [Success (Examples.volumes "available")]);
    reflexivity.
Defined.

Lemma available_volume_goes_to_the_queue_of_its_zone_witness :
  exists tr o,
    run (def [] Examples.queues "jobdef") (JObject []) 5 EBSReadyChoice
        (Scenarios.polled "available" "us-east-1b")
        [Success Scenarios.job_done; Success (JObject [])]
    = (Called "batch" "submitJob.sync"
         (JObject
            [("JobDefinition", JString "jobdef");
             ("JobName", JString "EBSBackupJobb");
             ("JobQueue",
              JString "arn:aws:batch:us-east-1:123456789012:job-queue/b");
             ("Parameters",
              JObject
                [("volume", JString "vol-0abc");
                 ("s3path",
                  JString
                    "s3://backup-bucket/arn/aws/ec2/vol-0123/Y=2023/M=11/D=14/job-42")]);
             ("RetryStrategy", JObject [("Attempts", JNumber 2)])])
         (Success Scenarios.job_done)
       :: tr, o).
Proof.
  apply (available_volume_goes_to_the_queue_of_its_zone
           [] Examples.queues "jobdef" (JObject [])
           (Scenarios.polled "available" "us-east-1b") (JString "vol-0abc")
           "backup-bucket" "arn/aws/ec2/vol-0123/Y=2023/M=11/D=14/job-42"
           "us-east-1b" (Success Scenarios.job_done) [Success (JObject [])]
           3);
    reflexivity.
Defined.

Lemma failed_job_deletes_the_volume_and_fails_witness :
  exists args,
    run (def [] Examples.queues "jobdef") (JObject []) 4
        (EBSBatchJobTask "us-east-1b"
           "arn:aws:batch:us-east-1:123456789012:job-queue/b")
        (Scenarios.polled "available" "us-east-1b")
        [Failure "States.TaskFailed" "the job failed"; Success (JObject [])]
    = ([Called "batch" "submitJob.sync" args
          (Failure "States.TaskFailed" "the job failed");
        Called "ec2" "deleteVolume"
          (JObject [("VolumeId", JString "vol-0abc")])
          (Success (JObject []))],
       Some (FailedState EBSFail)).
Proof.
  apply (failed_job_deletes_the_volume_and_fails
           [] Examples.queues "jobdef" (JObject [])
           (Scenarios.polled "available" "us-east-1b") (JString "vol-0abc")
           (JObject []) "backup-bucket"
           "arn/aws/ec2/vol-0123/Y=2023/M=11/D=14/job-42" "us-east-1b"
           "arn:aws:batch:us-east-1:123456789012:job-queue/b"
           "States.TaskFailed" "the job failed" [] 0);
    reflexivity.
Defined.

Lemma success_means_backup_and_cleanup_succeeded_witness :
  exists tr out,
    run (def [] Examples.queues "jobdef") (JObject []) 7 start
        Examples.metadata
        [Success Examples.created; Success (Examples.volumes "available");
         Success Scenarios.job_done; Success (JObject [])]
    = (tr, Some (Succeeded EBSSucceed out))
    /\ succeeded "ec2" "createVolume" tr = true
    /\ succeeded "batch" "submitJob.sync" tr = true
    /\ succeeded "ec2" "deleteVolume" tr = true.
Proof.
  eexists _, _. split; [vm_compute; reflexivity|].
  eapply (success_means_backup_and_cleanup_succeeded
           [] Examples.queues "jobdef" (JObject []) 7 Examples.metadata
           [Success Examples.created; Success (Examples.volumes "available");
            Success Scenarios.job_done; Success (JObject [])]
           _ EBSSucceed _).
  vm_compute. reflexivity.
Defined.

Lemma failed_poll_aborts_without_cleanup_witness :
  run (def [] Examples.queues "jobdef") (JObject []) 2 EBSReadyTask
      Scenarios.restored [Failure "Ec2.Ec2Exception" "request limit exceeded"]
  = ([Called "ec2" "describeVolumes"
        (JObject [("VolumeIds", JArray [JString "vol-0abc"])])
        (Failure "Ec2.Ec2Exception" "request limit exceeded")],
     Some (Aborted EBSCleanupTask "States.Runtime")).
Proof.
  apply (failed_poll_aborts_without_cleanup
           [] Examples.queues "jobdef" (JObject []) Scenarios.restored
           (JString "vol-0abc") "Ec2.Ec2Exception" "request limit exceeded"
           [] 0);
    reflexivity.
Defined.

Lemma volume_in_use_aborts_before_detaching_witness :
  run (def [] Examples.queues "jobdef") (JObject []) 2 EBSCleanupTask
      Scenarios.restored
      [Failure "VolumeInUse" "1"; Failure "VolumeInUse" "2";
       Failure "VolumeInUse" "3"; Failure "VolumeInUse" "4"]
  = ([Called "ec2" "deleteVolume" (JObject [("VolumeId", JString "vol-0abc")])
        (Failure "VolumeInUse" "1");
      Called "ec2" "deleteVolume" (JObject [("VolumeId", JString "vol-0abc")])
        (Failure "VolumeInUse" "2");
      Called "ec2" "deleteVolume" (JObject [("VolumeId", JString "vol-0abc")])
        (Failure "VolumeInUse" "3");
      Called "ec2" "deleteVolume" (JObject [("VolumeId", JString "vol-0abc")])
        (Failure "VolumeInUse" "4")],
     Some (Aborted EBSForceDetach "States.Runtime")).
Proof.
  apply (volume_in_use_aborts_before_detaching
           [] Examples.queues "jobdef" (JObject []) Scenarios.restored
           (JString "vol-0abc") "1" "2" "3" "4" [] 0).
  reflexivity.
Defined.

End EBSWitnesses.

(* ================================================================== *)
(** * Failures of the managed exports and of the outer workflow *)
(* ================================================================== *)

Section ExportFailures.
Import ASL.
Variable ctx : json.

(** X17: in the RDS and Aurora machine a failed [startExportTask] and a
    failed [describeExportTasks] each abort the execution with the error
    of the service after that one request; the export task is named
    [acb-<execution name>] and reads the recovery point, the bucket and
    the prefix from the record. *)
Theorem rds_failures_are_not_retried
  (roleArn : string) (encryptionKey : option string)
  (d arn bucket prefix id : json) (name e cause : string)
  (answers : list Response) (fuel : nat) :
  let machine := RDSExportMachine.def roleArn encryptionKey in
  (lookup_context "$$.Execution.Name" ctx = Some (JString name) ->
   lookup "$.SnapshotArn" d = Some arn ->
   lookup "$.S3BucketName" d = Some bucket ->
   lookup "$.S3Prefix" d = Some prefix ->
   run machine ctx (1 + fuel) RDSExportMachine.RDSStartExportTask d
       (Failure e cause :: answers)
   = ([Called "rds" "startExportTask"
         (JObject
            [("ExportTaskIdentifier", JString ("acb-" ++ name));
             ("SourceArn", arn);
             ("IamRoleArn", JString roleArn);
             ("KmsKeyId", JString match encryptionKey with
                                  | Some keyArn => keyArn
                                  | None => "aws/s3"
                                  end);
             ("S3BucketName", bucket);
             ("S3Prefix", prefix)])
         (Failure e cause)],
      Some (Aborted RDSExportMachine.RDSStartExportTask e)))
  /\ (lookup "$.Export.ExportTaskIdentifier" d = Some id ->
      run machine ctx (1 + fuel) RDSExportMachine.RDSExportStatusTask d
          (Failure e cause :: answers)
      = ([Called "rds" "describeExportTasks"
            (JObject [("ExportTaskIdentifier", id)]) (Failure e cause)],
         Some (Aborted RDSExportMachine.RDSExportStatusTask e))).
Proof.
  intros machine. split.
  - intros Hn Ha Hb Hp.
    change (1 + fuel)%nat with (Datatypes.S fuel). rewrite run_step.
    cbv [step machine RDSExportMachine.def step_task task_input task_result
         inputPath parameters resultSelector resultPath service action
         retry catch next].
    rewrite lookup_root.
    cbn [eval map all_some option_map]. rewrite Hn, Ha, Hb, Hp.
    cbn [all_some option_map map as_string format Ascii.eqb Bool.eqb andb].
    rewrite append_nil_r. reflexivity.
  - intros Hid.
    change (1 + fuel)%nat with (Datatypes.S fuel). rewrite run_step.
    cbv [step machine RDSExportMachine.def step_task task_input task_result
         inputPath parameters resultSelector resultPath service action
         retry catch next].
    rewrite lookup_root.
    cbn [eval map all_some option_map]. rewrite Hid. reflexivity.
Qed.

(** X18: in the DynamoDB machine [exportTableToPointInTime] is asked up to
    four times before the execution aborts with the last error, while a
    failed [describeExport] aborts it after one request. *)
Theorem ddb_start_is_retried_and_the_poll_is_not
  (keyArn : string) (d table time bucket prefix id : json)
  (e1 e2 e3 e4 c1 c2 c3 c4 : string)
  (answers : list Response) (fuel : nat) :
  let machine := DDBExportMachine.def keyArn in
  let request :=
    Called "dynamodb" "exportTableToPointInTime"
      (JObject
         [("TableArn", table);
          ("ExportTime", time);
          ("ExportFormat", JString "DYNAMODB_JSON");
          ("S3Bucket", bucket);
          ("S3Prefix", prefix);
          ("S3SseAlgorithm", JString "KMS");
          ("S3SseKmsKeyId", JString keyArn)]) in
  (lookup "$.ResourceArn" d = Some table ->
   lookup "$.CreationDate" d = Some time ->
   lookup "$.S3BucketName" d = Some bucket ->
   lookup "$.S3Prefix" d = Some prefix ->
   error_matches e1 "States.ALL" = true ->
   error_matches e2 "States.ALL" = true ->
   error_matches e3 "States.ALL" = true ->
   run machine ctx (1 + fuel) DDBExportMachine.DDBStartExportTask d
       (Failure e1 c1 :: Failure e2 c2 :: Failure e3 c3 :: Failure e4 c4
        :: answers)
   = ([request (Failure e1 c1); request (Failure e2 c2);
       request (Failure e3 c3); request (Failure e4 c4)],
      Some (Aborted DDBExportMachine.DDBStartExportTask e4)))
  /\ (lookup "$.Export.ExportArn" d = Some id ->
      run machine ctx (1 + fuel) DDBExportMachine.DDBExportStatusTask d
          (Failure e1 c1 :: answers)
      = ([Called "dynamodb" "describeExport"
            (JObject [("ExportArn", id)]) (Failure e1 c1)],
         Some (Aborted DDBExportMachine.DDBExportStatusTask e1))).
Proof.
  intros machine request. split.
  - intros Ht Hc Hb Hp H1 H2 H3.
    change (1 + fuel)%nat with (Datatypes.S fuel). rewrite run_step.
    cbv [step machine DDBExportMachine.def step_task task_input task_result
         inputPath parameters resultSelector resultPath service action
         retry catch next].
    rewrite lookup_root.
    cbn [eval map all_some option_map]. rewrite Ht, Hc, Hb, Hp.
    cbn [all_some option_map map maxAttempts default_retry attempts consume
         retry_errors matches_any existsb].
    rewrite H1. cbn [orb]. rewrite H2. cbn [orb]. rewrite H3. cbn [orb].
    destruct (error_matches e4 "States.ALL"); reflexivity.
  - intros Hid.
    change (1 + fuel)%nat with (Datatypes.S fuel). rewrite run_step.
    cbv [step machine DDBExportMachine.def step_task task_input task_result
         inputPath parameters resultSelector resultPath service action
         retry catch next].
    rewrite lookup_root.
    cbn [eval map all_some option_map]. rewrite Hid. reflexivity.
Qed.

End ExportFailures.

Section OuterPaths.
Import ASL BackupActionsMachine.
Variable autoDelete : bool.
Variable ebs rds ddb : string.
Variable ctx : json.
Let machine := def autoDelete ebs rds ddb.

(** X19: the choice [Snapshot type] starts the EBS machine for [EBS], the
    RDS machine for [RDS] and [Aurora] and the DynamoDB machine for
    [DynamoDB], each on the whole record as input; on any other resource
    type the execution aborts with [States.NoChoiceMatched] and nothing
    is started. *)
Theorem snapshot_type_routes_by_resource_type
  (d : json) (t : string) (a : Response) (answers : list Response)
  (fuel : nat) :
  lookup "$.ResourceType" d = Some (JString t) ->
  let start_of arn :=
    Called "states" "startExecution.sync:2"
      (JObject [("Input", d); ("StateMachineArn", JString arn)]) a in
  let r := run machine ctx (2 + fuel) SnapshotType d (a :: answers) in
  (t = "EBS" -> exists tr o, r = (start_of ebs :: tr, o))
  /\ (t = "RDS" \/ t = "Aurora" -> exists tr o, r = (start_of rds :: tr, o))
  /\ (t = "DynamoDB" -> exists tr o, r = (start_of ddb :: tr, o))
  /\ (t <> "EBS" -> t <> "RDS" -> t <> "Aurora" -> t <> "DynamoDB" ->
      r = ([], Some (Aborted SnapshotType "States.NoChoiceMatched"))).
Proof.
  intros Ht start_of r.
  assert (St : step machine ctx SnapshotType d (a :: answers)
               = if String.eqb t "EBS"
                 then Next RunEBSBackupMachine d [] (a :: answers)
                 else if String.eqb t "RDS" || String.eqb t "Aurora"
                      then Next RunRDSExportMachine d [] (a :: answers)
                      else if String.eqb t "DynamoDB"
                           then Next RunDDBExportMachine d [] (a :: answers)
                           else Done (Aborted SnapshotType
                                        "States.NoChoiceMatched") []).
  { cbv [step machine def first_rule holds]. rewrite Ht.
    destruct (String.eqb t "EBS"); [reflexivity|].
    destruct (String.eqb t "RDS"); [reflexivity|].
    destruct (String.eqb t "Aurora"); [reflexivity|].
    destruct (String.eqb t "DynamoDB"); reflexivity. }
  assert (Go : forall s arn,
             machine s = Task (startExecution autoDelete arn) ->
             exists tr o,
               (let (tr, o) := run machine ctx (Datatypes.S fuel) s d
                                   (a :: answers) in
                ([] ++ tr, o))
               = (start_of arn :: tr, o)).
  { intros s arn D.
    destruct (run_task_first_call machine ctx fuel s _ d
                (JObject [("Input", d); ("StateMachineArn", JString arn)])
                a answers D) as (tr & o & ->).
    - cbv [task_input inputPath parameters startExecution].
      rewrite lookup_root. cbn [eval]. rewrite lookup_root. reflexivity.
    - eexists _, _. reflexivity. }
  subst r. change (2 + fuel)%nat with (Datatypes.S (Datatypes.S fuel)).
  rewrite run_step, St.
  split; [|split; [|split]].
  - intros ->. apply (Go RunEBSBackupMachine ebs eq_refl).
  - intros [-> | ->]; apply (Go RunRDSExportMachine rds eq_refl).
  - intros ->. apply (Go RunDDBExportMachine ddb eq_refl).
  - intros N1 N2 N3 N4.
    rewrite (proj2 (String.eqb_neq _ _) N1), (proj2 (String.eqb_neq _ _) N2),
      (proj2 (String.eqb_neq _ _) N3), (proj2 (String.eqb_neq _ _) N4).
    reflexivity.
Qed.


Lemma not_in_no_match (e : string) (l : list string) :
  ~ In e l -> ~ In "States.ALL" l -> matches_any e l = false.
Proof.
  intros N A. induction l as [|p l IH]; [reflexivity|].
  cbn [matches_any existsb]. unfold error_matches at 1.
  destruct (String.eqb_spec p e) as [->|_]; [elim N; now left|].
  destruct (String.eqb_spec p "States.ALL") as [->|_]; [elim A; now left|].
  cbn [orb andb]. apply IH; intros H; [apply N | apply A]; now right.
Qed.

(** X20: when the metadata function keeps failing with an error of its own
    (none of the four exceptions of the Lambda service), it is invoked
    four times; the workflow then aborts with that error and starts no
    export. *)
Theorem failing_lambda_is_invoked_four_times
  (input : json) (e c1 c2 c3 c4 : string) (answers : list Response)
  (fuel : nat) :
  ~ In e ["Lambda.ClientExecutionTimeoutException"; "Lambda.ServiceException";
          "Lambda.AWSLambdaException"; "Lambda.SdkClientException"] ->
  error_matches e "States.ALL" = true ->
  let invoked c := Called "lambda" "invoke" input (Failure e c) in
  run machine ctx (1 + fuel) start input
      (Failure e c1 :: Failure e c2 :: Failure e c3 :: Failure e c4
       :: answers)
  = ([invoked c1; invoked c2; invoked c3; invoked c4],
     Some (Aborted MetadataTask e)).
Proof.
  intros N A invoked.
  assert (M : matches_any e
                ["Lambda.ClientExecutionTimeoutException";
                 "Lambda.ServiceException"; "Lambda.AWSLambdaException";
                 "Lambda.SdkClientException"] = false).
  { apply not_in_no_match; [exact N|].
    intros [H|[H|[H|[H|[]]]]]; discriminate. }
  change (1 + fuel)%nat with (Datatypes.S fuel). rewrite run_step.
  cbv [step machine def start step_task task_input task_result metadataTask
       inputPath parameters resultSelector resultPath service action
       retry catch next].
  rewrite lookup_root.
  cbn [map maxAttempts default_retry attempts consume retry_errors].
  rewrite M. cbn [matches_any existsb]. rewrite A. cbn [orb option_map].
  cbn [map maxAttempts default_retry attempts consume retry_errors].
  reflexivity.
Qed.

(** X21: with the flag set, a failed [deleteRecoveryPoint] is not asked
    again: the workflow aborts with the error of the service after that
    one request. *)
Theorem failed_delete_aborts_the_workflow
  (out vault arn : json) (e cause : string) (answers : list Response)
  (fuel : nat) :
  autoDelete = true ->
  lookup "$.Output.BackupVaultName" out = Some vault ->
  lookup "$.Output.SnapshotArn" out = Some arn ->
  run machine ctx (1 + fuel) (acbSuccessState autoDelete) out
      (Failure e cause :: answers)
  = ([Called "backup" "deleteRecoveryPoint"
        (JObject [("BackupVaultName", vault); ("RecoveryPointArn", arn)])
        (Failure e cause)],
     Some (Aborted DeleteSnapshotTask e)).
Proof.
  intros Hf Hv Ha. subst machine. rewrite Hf.
  change (1 + fuel)%nat with (Datatypes.S fuel). rewrite run_step.
  change (step (def true ebs rds ddb) ctx (acbSuccessState true) out
            (Failure e cause :: answers))
    with (step_task ctx DeleteSnapshotTask deleteSnapshotTask out
            (Failure e cause :: answers)).
  unfold step_task. rewrite (delete_input ctx out vault arn Hv Ha).
  reflexivity.
Qed.

End OuterPaths.

Section RecordKept.
Import ASL.
Variable ctx : json.

(** X22: an execution of any of the three export machines that ends in
    success hands each of the eleven fields of the record on to its
    output unchanged. *)
Theorem exports_hand_the_record_on (k : string) (d out : json) :
  In k ["AvailabilityZone"; "SnapshotArn"; "SnapshotId"; "ResourceType";
        "BackupVaultName"; "ResourceArn"; "S3BucketName"; "S3Prefix";
        "CreationDate"; "Tags"; "Engine"] ->
  (exists tags jqs jobdef fuel answers tr s',
      run (EBSBackupMachine.def tags jqs jobdef) ctx fuel
          EBSBackupMachine.start d answers = (tr, Some (Succeeded s' out)))
  \/ (exists roleArn key fuel answers tr s',
        run (RDSExportMachine.def roleArn key) ctx fuel
            RDSExportMachine.start d answers = (tr, Some (Succeeded s' out)))
  \/ (exists keyArn fuel answers tr s',
        run (DDBExportMachine.def keyArn) ctx fuel
            DDBExportMachine.start d answers = (tr, Some (Succeeded s' out))) ->
  lookup ("$." ++ k) out = lookup ("$." ++ k) d.
Proof.
  intros Hk H.
  assert (K : get [Key k] out = get [Key k] d).
  { destruct H as [(tags & jqs & jobdef & fuel & answers & tr & s' & R)
                  | [(roleArn & key & fuel & answers & tr & s' & R)
                    | (keyArn & fuel & answers & tr & s' & R)]].
    - eapply ebs_keeps; [|exact R]. simpl in *. intuition congruence.
    - eapply rds_keeps; [| |exact R]; simpl in Hk; intuition congruence.
    - eapply ddb_keeps; [| |exact R]; simpl in Hk; intuition congruence. }
  simpl in Hk.
  repeat (destruct Hk as [<-|Hk]; [exact K|]). destruct Hk.
Qed.

End RecordKept.

Section WorkflowWitnesses.
Import ASL.

Lemma rds_failures_are_not_retried_witness :
  run (RDSExportMachine.def "role" None) Scenarios.context 1
      RDSExportMachine.RDSStartExportTask Examples.metadata
      [Failure "Rds.ExportTaskAlreadyExistsException" "exists"]
  = ([Called "rds" "startExportTask"
        (JObject
           [("ExportTaskIdentifier", JString "acb-run-1");
            ("SourceArn",
             JString "arn:aws:ec2:us-east-1::snapshot/snap-0123");
            ("IamRoleArn", JString "role");
            ("KmsKeyId", JString "aws/s3");
            ("S3BucketName", JString "backup-bucket");
            ("S3Prefix",
             JString
               "arn/aws/ec2/us-east-1/123456789012/volume/vol-0123/Y=2023/M=11/D=14/job-42")])
        (Failure "Rds.ExportTaskAlreadyExistsException" "exists")],
     Some (Aborted RDSExportMachine.RDSStartExportTask
             "Rds.ExportTaskAlreadyExistsException"))
  /\ run (RDSExportMachine.def "role" None) Scenarios.context 1
         RDSExportMachine.RDSExportStatusTask Examples.exporting
         [Failure "Rds.RdsException" "throttled"]
     = ([Called "rds" "describeExportTasks"
           (JObject [("ExportTaskIdentifier", JString "acb-1")])
           (Failure "Rds.RdsException" "throttled")],
        Some (Aborted RDSExportMachine.RDSExportStatusTask
                "Rds.RdsException")).
Proof.
  split.
  - apply (proj1 (rds_failures_are_not_retried Scenarios.context "role" None
                    Examples.metadata
                    (JString "arn:aws:ec2:us-east-1::snapshot/snap-0123")
                    (JString "backup-bucket")
                    (JString
                       "arn/aws/ec2/us-east-1/123456789012/volume/vol-0123/Y=2023/M=11/D=14/job-42")
                    (JString "acb-1") "run-1"
                    "Rds.ExportTaskAlreadyExistsException" "exists" [] 0));
      reflexivity.
  - apply (proj2 (rds_failures_are_not_retried Scenarios.context "role" None
                    Examples.exporting (JString "") (JString "") (JString "")
                    (JString "acb-1") "run-1" "Rds.RdsException" "throttled"
                    [] 0)).
    reflexivity.
Defined.

Lemma ddb_start_is_retried_and_the_poll_is_not_witness :
  (exists request,
      run (DDBExportMachine.def "key") Scenarios.context 1
          DDBExportMachine.DDBStartExportTask Examples.metadata
          [Failure "DynamoDb.LimitExceededException" "1";
           Failure "DynamoDb.LimitExceededException" "2";
           Failure "DynamoDb.LimitExceededException" "3";
           Failure "DynamoDb.LimitExceededException" "4"]
      = ([request (Failure "DynamoDb.LimitExceededException" "1");
          request (Failure "DynamoDb.LimitExceededException" "2");
          request (Failure "DynamoDb.LimitExceededException" "3");
          request (Failure "DynamoDb.LimitExceededException" "4")],
         Some (Aborted DDBExportMachine.DDBStartExportTask
                 "DynamoDb.LimitExceededException")))
  /\ run (DDBExportMachine.def "key") Scenarios.context 1
         DDBExportMachine.DDBExportStatusTask Examples.ddb_exporting
         [Failure "DynamoDb.DynamoDbException" "throttled"]
     = ([Called "dynamodb" "describeExport"
           (JObject [("ExportArn", JString "export-1")])
           (Failure "DynamoDb.DynamoDbException" "throttled")],
        Some (Aborted DDBExportMachine.DDBExportStatusTask
                "DynamoDb.DynamoDbException")).
Proof.
  split.
  - eexists.
    apply (proj1 (ddb_start_is_retried_and_the_poll_is_not Scenarios.context
                    "key" Examples.metadata
                    (JString "arn:aws:ec2:us-east-1:123456789012:volume/vol-0123")
                    (JString "2023-11-14T22:13:20.000Z")
                    (JString "backup-bucket")
                    (JString
                       "arn/aws/ec2/us-east-1/123456789012/volume/vol-0123/Y=2023/M=11/D=14/job-42")
                    (JString "export-1")
                    "DynamoDb.LimitExceededException"
                    "DynamoDb.LimitExceededException"
                    "DynamoDb.LimitExceededException"
                    "DynamoDb.LimitExceededException" "1" "2" "3" "4" [] 0));
      reflexivity.
  - apply (proj2 (ddb_start_is_retried_and_the_poll_is_not Scenarios.context
                    "key" Examples.ddb_exporting (JString "") (JString "")
                    (JString "") (JString "") (JString "export-1")
                    "DynamoDb.DynamoDbException" "" "" "" "throttled" "" "" ""
                    [] 0)).
    reflexivity.
Defined.

Lemma snapshot_type_routes_by_resource_type_witness :
  exists tr o,
    run (BackupActionsMachine.def true "ebs" "rds" "ddb") (JObject []) 4
        BackupActionsMachine.SnapshotType Examples.metadata
        [Success Examples.exported; Success (JObject [])]
    = (Called "states" "startExecution.sync:2"
         (JObject [("Input", Examples.metadata);
                   ("StateMachineArn", JString "ebs")])
         (Success Examples.exported) :: tr, o).
Proof.
  apply (proj1 (snapshot_type_routes_by_resource_type true "ebs" "rds" "ddb"
                  (JObject []) Examples.metadata "EBS"
                  (Success Examples.exported) [Success (JObject [])] 2
                  eq_refl)).
  reflexivity.
Defined.

Lemma failing_lambda_is_invoked_four_times_witness :
  run (BackupActionsMachine.def true "ebs" "rds" "ddb") (JObject []) 1
      BackupActionsMachine.start (JObject [])
      [Failure "Error" "1"; Failure "Error" "2"; Failure "Error" "3";
       Failure "Error" "4"]
  = ([Called "lambda" "invoke" (JObject []) (Failure "Error" "1");
      Called "lambda" "invoke" (JObject []) (Failure "Error" "2");
      Called "lambda" "invoke" (JObject []) (Failure "Error" "3");
      Called "lambda" "invoke" (JObject []) (Failure "Error" "4")],
     Some (Aborted BackupActionsMachine.MetadataTask "Error")).
Proof.
  apply (failing_lambda_is_invoked_four_times true "ebs" "rds" "ddb"
           (JObject []) (JObject []) "Error" "1" "2" "3" "4" [] 0).
  - intros [H|[H|[H|[H|[]]]]]; discriminate.
  - reflexivity.
Defined.

Lemma failed_delete_aborts_the_workflow_witness :
  run (BackupActionsMachine.def true "ebs" "rds" "ddb") (JObject []) 1
      (BackupActionsMachine.acbSuccessState true) Examples.exported
      [Failure "Backup.InvalidResourceStateException" "busy"]
  = ([Called "backup" "deleteRecoveryPoint"
        (JObject
           [("BackupVaultName", JString "vault");
            ("RecoveryPointArn",
             JString "arn:aws:ec2:us-east-1::snapshot/snap-0123")])
        (Failure "Backup.InvalidResourceStateException" "busy")],
     Some (Aborted BackupActionsMachine.DeleteSnapshotTask
             "Backup.InvalidResourceStateException")).
Proof.
  apply (failed_delete_aborts_the_workflow true "ebs" "rds" "ddb" (JObject [])
           Examples.exported (JString "vault")
           (JString "arn:aws:ec2:us-east-1::snapshot/snap-0123")
           "Backup.InvalidResourceStateException" "busy" [] 0);
    reflexivity.
Defined.

Lemma exports_hand_the_record_on_witness :
  exists tr out,
    run (EBSBackupMachine.def [] Examples.queues "jobdef") (JObject []) 7
        EBSBackupMachine.start Examples.metadata
        [Success Examples.created; Success (Examples.volumes "available");
         Success Scenarios.job_done; Success (JObject [])]
    = (tr, Some (Succeeded EBSBackupMachine.EBSSucceed out))
    /\ lookup "$.SnapshotArn" out = lookup "$.SnapshotArn" Examples.metadata.
Proof.
  eexists _, _. split; [vm_compute; reflexivity|].
  apply (exports_hand_the_record_on (JObject []) "SnapshotArn"
           Examples.metadata).
  - simpl. auto.
  - left. exists [], Examples.queues, "jobdef", 7%nat,
      [Success Examples.created; Success (Examples.volumes "available");
       Success Scenarios.job_done; Success (JObject [])].
    eexists _, _. vm_compute. reflexivity.
Defined.

End WorkflowWitnesses.

(* ================================================================== *)
(** * From the event to the requests of the export machines *)
(* ================================================================== *)

Section RecordFlow.
Import SnapshotMetadata ASL LambdaInvoke.
Variable ctx : json.

(** The fields of the payload. *)
Lemma payload_fields (md : SnapshotMetadata) :
  lookup "$.AvailabilityZone" (payload md)
  = option_map JString (AvailabilityZone md)
  /\ lookup "$.SnapshotArn" (payload md) = Some (JString (SnapshotArn md))
  /\ lookup "$.SnapshotId" (payload md) = option_map JString (SnapshotId md)
  /\ lookup "$.BackupVaultName" (payload md)
     = Some (JString (BackupVaultName md))
  /\ lookup "$.ResourceArn" (payload md) = Some (JString (ResourceArn md))
  /\ lookup "$.ResourceType" (payload md) = Some (JString (ResourceType md))
  /\ lookup "$.S3BucketName" (payload md) = Some (JString (S3BucketName md))
  /\ lookup "$.S3Prefix" (payload md) = Some (JString (S3Prefix md))
  /\ lookup "$.CreationDate" (payload md) = Some (JString (CreationDate md)).
Proof.
  unfold payload.
  destruct (AvailabilityZone md), (SnapshotId md); repeat split.
Qed.

(** [fetch] returns only for the four resource types. *)
Lemma fetch_returns (w : World) (ev : BackupEvent) (s s' : HState) :
  fetch w ev s = (Return tt, s') ->
  resourceType ev = "EBS" \/ resourceType ev = "Aurora"
  \/ resourceType ev = "RDS" \/ resourceType ev = "DynamoDB".
Proof.
  unfold fetch.
  destruct (String.eqb_spec (resourceType ev) "EBS"); [auto|].
  destruct (String.eqb_spec (resourceType ev) "Aurora"); [auto|].
  destruct (String.eqb_spec (resourceType ev) "RDS"); [auto|].
  destruct (String.eqb_spec (resourceType ev) "DynamoDB"); [auto|].
  discriminate.
Qed.

(** X23: the record that the handler returns always matches a rule of
    [Snapshot type]: the EBS machine for an [EBS] event, the DynamoDB
    machine for a [DynamoDB] event and the RDS machine otherwise, so that
    [States.NoChoiceMatched] cannot follow a successful invocation. *)
Theorem returned_record_is_routed
  (w : World) (ev : BackupEvent) md st
  (autoDelete : bool) (ebs rds ddb : string) (answers : list Response) :
  invoke w ev = (Return md, st) ->
  step (BackupActionsMachine.def autoDelete ebs rds ddb) ctx
       BackupActionsMachine.SnapshotType (payload md) answers
  = Next (if String.eqb (resourceType ev) "EBS"
          then BackupActionsMachine.RunEBSBackupMachine
          else if String.eqb (resourceType ev) "DynamoDB"
               then BackupActionsMachine.RunDDBExportMachine
               else BackupActionsMachine.RunRDSExportMachine)
         (payload md) [] answers.
Proof.
  intros H. apply invoke_return in H.
  destruct H as (_ & _ & _ & _ & v & b & t & bs & _ & _ & _ & _ & _ & F & ->).
  apply fetch_returns in F.
  cbv [step BackupActionsMachine.def first_rule holds].
  destruct (payload_fields (returned w ev (JS.split "," v) b t (locals st)))
    as (_ & _ & _ & _ & _ & -> & _).
  cbn [ResourceType returned].
  destruct F as [-> | [-> | [-> | ->]]]; reflexivity.
Qed.


(** X24: on the record that the handler returns, with [Math.random()]
    in [0, 1) and fewer than [2^32] zones in [VALIDAZS], the first
    request of the EBS machine is [createVolume] in one of the zones of
    [VALIDAZS], from the snapshot id that the handler cut off the
    recovery-point ARN, as a [gp3] volume with the tags of the stack. *)
Theorem restore_request_of_a_returned_record
  (w : World) (ev : BackupEvent) md st
  (tags jqs : list (string * string)) (jobdef : string)
  (a : Response) (answers : list Response) (fuel : nat) :
  invoke w ev = (Return md, st) ->
  JSNumber.in_unit_interval (Math_random w) = true ->
  (forall v, env_VALIDAZS w = Some v ->
             (Z.of_nat (List.length (JS.split "," v)) < 2 ^ 32)%Z) ->
  exists v az id,
    env_VALIDAZS w = Some v
    /\ In az (JS.split "," v)
    /\ snapshot_id (recoveryPointArn ev) = Some id
    /\ exists tr o,
        run (EBSBackupMachine.def tags jqs jobdef) ctx (1 + fuel)
            EBSBackupMachine.start (payload md) (a :: answers)
        = (Called "ec2" "createVolume"
             (JObject
                [("AvailabilityZone", JString az);
                 ("SnapshotId", JString id);
                 ("VolumeType", JString "gp3");
                 ("TagSpecifications",
                  JArray [JObject [("ResourceType", JString "volume");
                                   ("Tags", EBSBackupMachine.voltags tags)]])])
             a :: tr, o).
Proof.
  intros H R0 R1. apply invoke_return in H.
  destruct H as (_ & _ & _ & _ & v & b & t & bs & Ev & _ & _ & _ & _ & _ & ->).
  destruct (pick_az_member (Math_random w) (JS.split "," v) R0
              (split_length_pos _ _) (R1 v Ev)) as (az & Eaz & Hin).
  destruct (snapshot_id_spec (recoveryPointArn ev)) as (id & Eid & _).
  exists v, az, id. repeat split; auto.
  apply (run_task_first_call (EBSBackupMachine.def tags jqs jobdef) ctx fuel
           EBSBackupMachine.EBSRestoreTask _ _ _ a answers eq_refl).
  cbv [task_input inputPath parameters]. rewrite lookup_root.
  cbn [eval].
  destruct (payload_fields (returned w ev (JS.split "," v) b t (locals st)))
    as (-> & _ & -> & _).
  cbn [AvailabilityZone SnapshotId returned]. rewrite Eaz, Eid. reflexivity.
Qed.

(** X25: on the record that the handler returns, the first request of
    the RDS machine exports the recovery point of the event and the first
    request of the DynamoDB machine exports the table of the event at
    the creation date of the backup, both to the bucket of [BUCKET] under
    the prefix of the event. *)
Theorem managed_export_requests_of_a_returned_record
  (w : World) (ev : BackupEvent) md st
  (roleArn name keyArn : string) (encryptionKey : option string)
  (a : Response) (answers : list Response) (fuel : nat) :
  invoke w ev = (Return md, st) ->
  exists b t,
    env_BUCKET w = Some b
    /\ JSDate.ofSecondsNanos (creationDate_seconds ev) (creationDate_nanos ev)
       = Some t
    /\ (lookup_context "$$.Execution.Name" ctx = Some (JString name) ->
        exists tr o,
          run (RDSExportMachine.def roleArn encryptionKey) ctx (1 + fuel)
              RDSExportMachine.start (payload md) (a :: answers)
          = (Called "rds" "startExportTask"
               (JObject
                  [("ExportTaskIdentifier", JString ("acb-" ++ name));
                   ("SourceArn", JString (recoveryPointArn ev));
                   ("IamRoleArn", JString roleArn);
                   ("KmsKeyId", JString match encryptionKey with
                                        | Some key => key
                                        | None => "aws/s3"
                                        end);
                   ("S3BucketName", JString b);
                   ("S3Prefix",
                    JString (s3_prefix (resourceArn ev) t (backupJobId ev)))])
               a :: tr, o))
    /\ exists tr o,
        run (DDBExportMachine.def keyArn) ctx (1 + fuel)
            DDBExportMachine.start (payload md) (a :: answers)
        = (Called "dynamodb" "exportTableToPointInTime"
             (JObject
                [("TableArn", JString (resourceArn ev));
                 ("ExportTime", JString (JSDate.toISOString t));
                 ("ExportFormat", JString "DYNAMODB_JSON");
                 ("S3Bucket", JString b);
                 ("S3Prefix",
                  JString (s3_prefix (resourceArn ev) t (backupJobId ev)));
                 ("S3SseAlgorithm", JString "KMS");
                 ("S3SseKmsKeyId", JString keyArn)])
             a :: tr, o).
Proof.
  intros H. apply invoke_return in H.
  destruct H as (_ & _ & _ & _ & v & b & t & bs & _ & Eb & _ & _ & Et & _ & ->).
  exists b, t. split; [exact Eb|]. split; [exact Et|].
  destruct (payload_fields (returned w ev (JS.split "," v) b t (locals st)))
    as (_ & Ea & _ & _ & Er & _ & Ebk & Ep & Ec).
  cbn [SnapshotArn ResourceArn S3BucketName S3Prefix CreationDate returned]
    in Ea, Er, Ebk, Ep, Ec.
  split.
  - intros Hn.
    apply (run_task_first_call (RDSExportMachine.def roleArn encryptionKey)
             ctx fuel RDSExportMachine.RDSStartExportTask _ _ _ a answers
             eq_refl).
    cbv [task_input inputPath parameters]. rewrite lookup_root.
    cbn [eval map all_some option_map]. rewrite Ea, Ebk, Ep, Hn.
    cbn [all_some option_map map as_string format Ascii.eqb Bool.eqb andb].
    rewrite append_nil_r. reflexivity.
  - apply (run_task_first_call (DDBExportMachine.def keyArn) ctx
             fuel DDBExportMachine.DDBStartExportTask _ _ _ a answers
             eq_refl).
    cbv [task_input inputPath parameters]. rewrite lookup_root.
    cbn [eval map all_some option_map]. rewrite Er, Ebk, Ep, Ec.
    reflexivity.
Qed.

End RecordFlow.

Section ZonesAndQueues.
Import SnapshotMetadata ASL.

Lemma split_join (sep : ascii) (l : list string) :
  l <> [] ->
  Forall (fun x => JS.contains sep x = false) l ->
  JS.split sep (JS.join (String sep "") l) = l.
Proof.
  intros N F. induction F as [|x l Hx F IH]; [contradiction|].
  destruct l as [|y t].
  - cbn [JS.join String.concat]. now apply split_without.
  - change (JS.join (String sep "") (x :: y :: t))
      with (x ++ String sep (JS.join (String sep "") (y :: t)))%string.
    rewrite split_app, (split_without _ _ Hx), IH by discriminate.
    reflexivity.
Qed.

Lemma find_assign (az k v : string) (record : list (string * string)) :
  find (fun e => String.eqb az (fst e)) (BatchCE.assign k v record)
  = if String.eqb az k then Some (k, v)
    else find (fun e => String.eqb az (fst e)) record.
Proof.
  induction record as [|[k' v'] r IH]; cbn [BatchCE.assign find fst].
  - reflexivity.
  - destruct (String.eqb_spec k k') as [->|N]; cbn [find fst].
    + destruct (String.eqb az k'); reflexivity.
    + rewrite IH.
      destruct (String.eqb_spec az k') as [->|_]; [|reflexivity].
      destruct (String.eqb_spec k' k); [congruence | reflexivity].
Qed.

Lemma find_jqs (az : string) (jobQueueArn : string -> string)
  (zones : list string) :
  forall record,
    find (fun e => String.eqb az (fst e))
         (fold_left (fun record z => BatchCE.assign z (jobQueueArn z) record)
                    zones record)
    = if existsb (String.eqb az) zones then Some (az, jobQueueArn az)
      else find (fun e => String.eqb az (fst e)) record.
Proof.
  induction zones as [|z zs IH]; intros record; cbn [fold_left existsb].
  - reflexivity.
  - rewrite IH, find_assign.
    destruct (String.eqb_spec az z) as [->|_]; cbn [orb]; [|reflexivity].
    destruct (existsb (String.eqb z) zs); reflexivity.
Qed.

(** X26: with [VALIDAZS] and the job queues built from the same selection
    of subnets, fewer than [2^32] and with zones that contain no [','],
    and with [Math.random()] in [0, 1), the zone that the handler
    returns is one of these zones and has a job queue, to which
    [EBS Ready?] sends an [available] volume of that zone; without any
    subnet the handler returns the empty zone. *)
Theorem picked_zone_has_a_job_queue
  (w : World) (ev : BackupEvent) md st
  (zones : list string) (jobQueueArn : string -> string)
  (tags : list (string * string)) (jobdef : string) (ctx : json) :
  Forall (fun z => JS.contains "," z = false) zones ->
  env_VALIDAZS w = Some (Stack.VALIDAZS zones) ->
  (Z.of_nat (List.length zones) < 2 ^ 32)%Z ->
  JSNumber.in_unit_interval (Math_random w) = true ->
  invoke w ev = (Return md, st) ->
  (zones = [] -> AvailabilityZone md = Some "")
  /\ (zones <> [] ->
      exists az,
        AvailabilityZone md = Some az
        /\ In az zones
        /\ forall d answers,
            lookup "$.Ready.State" d = Some (JString "available") ->
            lookup "$.AvailabilityZone" d = Some (JString az) ->
            step (EBSBackupMachine.def tags (BatchCE.jqs zones jobQueueArn)
                    jobdef) ctx EBSBackupMachine.EBSReadyChoice d answers
            = Next (EBSBackupMachine.EBSBatchJobTask az (jobQueueArn az))
                   d [] answers).
Proof.
  intros F Ev Hn R0 H. apply invoke_return in H.
  destruct H as (_ & _ & _ & _ & v & b & t & bs & Ev' & _ & _ & _ & _ & _ & ->).
  rewrite Ev in Ev'. injection Ev' as <-.
  cbn [AvailabilityZone returned]. split.
  - intros ->. cbn [Stack.VALIDAZS JS.join String.concat JS.split].
    destruct (pick_az_member (Math_random w) [""] R0) as (a & -> & [<-|[]]);
      [simpl; lia | reflexivity | reflexivity].
  - intros N. unfold Stack.VALIDAZS. rewrite (split_join _ _ N F).
    destruct (pick_az_member (Math_random w) zones R0) as (az & -> & Hin).
    { destruct zones; [contradiction | simpl; lia]. }
    { exact Hn. }
    exists az. split; [reflexivity|]. split; [exact Hin|].
    intros d answers Hs Ha.
    rewrite (ready_choice_dispatch tags _ jobdef ctx d "available" az answers
               Hs Ha).
    cbn [String.eqb Ascii.eqb Bool.eqb andb]. cbv beta iota.
    unfold BatchCE.jqs. rewrite find_jqs.
    assert (E : existsb (String.eqb az) zones = true).
    { apply existsb_exists. exists az. split; [exact Hin|].
      apply String.eqb_refl. }
    rewrite E. reflexivity.
Qed.

End ZonesAndQueues.

Section FlowWitnesses.
Import SnapshotMetadata ASL LambdaInvoke.

Lemma returned_record_is_routed_witness :
  exists md st,
    invoke Examples.world Examples.aurora_event = (Return md, st)
    /\ step (BackupActionsMachine.def true "ebs" "rds" "ddb") (JObject [])
            BackupActionsMachine.SnapshotType (payload md) []
       = Next BackupActionsMachine.RunRDSExportMachine (payload md) [] [].
Proof.
  eexists _, _. split; [vm_compute; reflexivity|].
  eapply (returned_record_is_routed (JObject []) Examples.world
            Examples.aurora_event).
  vm_compute. reflexivity.
Defined.

Lemma restore_request_of_a_returned_record_witness :
  exists md st,
    invoke Examples.world (Examples.ebs_event 1700000000) = (Return md, st)
    /\ exists v az id,
        env_VALIDAZS Examples.world = Some v
        /\ In az (JS.split "," v)
        /\ snapshot_id "arn:aws:ec2:us-east-1::snapshot/snap-0123" = Some id
        /\ exists tr o,
            run (EBSBackupMachine.def [("backup", "true")] Examples.queues
                   "jobdef") (JObject []) 1
                EBSBackupMachine.start (payload md) [Success Examples.created]
            = (Called "ec2" "createVolume"
                 (JObject
                    [("AvailabilityZone", JString az);
                     ("SnapshotId", JString id);
                     ("VolumeType", JString "gp3");
                     ("TagSpecifications",
                      JArray
                        [JObject
                           [("ResourceType", JString "volume");
                            ("Tags",
                             EBSBackupMachine.voltags [("backup", "true")])]])])
                 (Success Examples.created) :: tr, o).
Proof.
  eexists _, _. split; [vm_compute; reflexivity|].
  eapply (restore_request_of_a_returned_record (JObject []) Examples.world
            (Examples.ebs_event 1700000000) _ _ [("backup", "true")]
            Examples.queues "jobdef" (Success Examples.created) [] 0).
  - vm_compute. reflexivity.
  - vm_compute. reflexivity.
  - intros v [= <-]. vm_compute. reflexivity.
Defined.

Lemma managed_export_requests_of_a_returned_record_witness :
  exists md st,
    invoke Examples.world
      (Scenarios.event_at "DynamoDB" "vault" 1700000000 123999900)
    = (Return md, st)
    /\ exists tr o,
        run (DDBExportMachine.def "key") Scenarios.context 1
            DDBExportMachine.start (payload md) [Success (JObject [])]
        = (Called "dynamodb" "exportTableToPointInTime"
             (JObject
                [("TableArn",
                  JString
                    "arn:aws:dynamodb:us-east-1:123456789012:table/orders");
                 ("ExportTime", JString "2023-11-14T22:13:20.124Z");
                 ("ExportFormat", JString "DYNAMODB_JSON");
                 ("S3Bucket", JString "backup-bucket");
                 ("S3Prefix",
                  JString
                    "arn/aws/dynamodb/us-east-1/123456789012/table/orders/Y=2023/M=11/D=14/job-5");
                 ("S3SseAlgorithm", JString "KMS");
                 ("S3SseKmsKeyId", JString "key")])
             (Success (JObject [])) :: tr, o).
Proof.
  eexists _, _. split; [vm_compute; reflexivity|].
  destruct (managed_export_requests_of_a_returned_record Scenarios.context
              Examples.world
              (Scenarios.event_at "DynamoDB" "vault" 1700000000 123999900)
              _ _
              "role" "run-1" "key" None (Success (JObject [])) [] 0
              ltac:(vm_compute; reflexivity))
    as (b & t & Eb & Et & _ & D).
  injection Eb as <-. vm_compute in Et. injection Et as <-.
  exact D.
Defined.

Lemma picked_zone_has_a_job_queue_witness :
  exists md st az,
    invoke Examples.world (Examples.ebs_event 1700000000) = (Return md, st)
    /\ AvailabilityZone md = Some az
    /\ In az ["us-east-1a"; "us-east-1b"]
    /\ forall d answers,
        lookup "$.Ready.State" d = Some (JString "available") ->
        lookup "$.AvailabilityZone" d = Some (JString az) ->
        step (EBSBackupMachine.def []
                (BatchCE.jqs ["us-east-1a"; "us-east-1b"]
                   (fun az => "queue-" ++ az)%string) "jobdef")
             (JObject []) EBSBackupMachine.EBSReadyChoice d answers
        = Next (EBSBackupMachine.EBSBatchJobTask az ("queue-" ++ az))
               d [] answers.
Proof.
  destruct (invoke Examples.world (Examples.ebs_event 1700000000))
    as [[md|e] st] eqn:E; [|vm_compute in E; discriminate].
  destruct (picked_zone_has_a_job_queue Examples.world
              (Examples.ebs_event 1700000000) md st
              ["us-east-1a"; "us-east-1b"]
              (fun az => "queue-" ++ az)%string [] "jobdef" (JObject []))
    as [_ H].
  - repeat constructor.
  - reflexivity.
  - reflexivity.
  - vm_compute. reflexivity.
  - exact E.
  - destruct (H ltac:(discriminate)) as (az & H1 & H2 & H3).
    exists md, st, az. auto.
Defined.

End FlowWitnesses.

(* ================================================================== *)
(** * The backup script *)
(* ================================================================== *)

Section ScriptFacts.
Import EBSBackupScript.
Variable IROOT : string.

Lemma lock_of_inj (j k : ascii) : lock_of IROOT j = lock_of IROOT k -> j = k.
Proof.
  unfold lock_of. intros E. apply append_inv_head in E.
  apply append_inv_head in E. now injection E.
Qed.

Lemma test_f_touch (p q : string) (s : Shell) :
  test_f p (touch q s) = String.eqb p q || test_f p s.
Proof.
  unfold touch, test_f. cbn [files].
  destruct (existsb (String.eqb q) (files s)) eqn:E; [|reflexivity].
  destruct (String.eqb_spec p q) as [->|_]; [|reflexivity].
  now rewrite E.
Qed.

Lemma locked_touch_other (j k : ascii) (s : Shell) :
  j <> k -> locked IROOT k (touch (lock_of IROOT j) s) = locked IROOT k s.
Proof.
  intros N. unfold locked. rewrite test_f_touch.
  destruct (String.eqb_spec (lock_of IROOT k) (lock_of IROOT j)) as [E|_];
    [|reflexivity].
  apply lock_of_inj in E. congruence.
Qed.

Lemma free_touch_other (j k : ascii) (s : Shell) :
  j <> k -> free IROOT k (touch (lock_of IROOT j) s) = free IROOT k s.
Proof.
  intros N. unfold free.
  change (test_f (lock_of IROOT k) (touch (lock_of IROOT j) s))
    with (locked IROOT k (touch (lock_of IROOT j) s)).
  rewrite (locked_touch_other j k s N). reflexivity.
Qed.

(** The loop of [getnextdev] over letters that are all different: it
    either stops at the first free letter, whose lock it has created, or
    finds none; the letters it passes are locked afterwards. *)
Lemma scan_spec (ls : list ascii) :
  NoDup ls ->
  forall s,
    let s' := scan IROOT ls s in
    blockdevs s' = blockdevs s /\ ran s' = ran s
    /\ (forall k, ~ In k ls -> locked IROOT k s' = locked IROOT k s)
    /\ (forall k, locked IROOT k s = true -> locked IROOT k s' = true)
    /\ ((exists before l after,
            ls = before ++ l :: after
            /\ Forall (fun k => free IROOT k s = false) before
            /\ free IROOT l s = true
            /\ blkdev s' = ("/dev/xvd" ++ String l "")%string
            /\ devlockfile s' = lock_of IROOT l
            /\ Forall (fun k => locked IROOT k s' = true) (before ++ [l])
            /\ Forall (fun k => locked IROOT k s' = locked IROOT k s) after)
        \/ (blkdev s' = blkdev s
            /\ Forall (fun k => free IROOT k s = false) ls
            /\ Forall (fun k => locked IROOT k s' = true) ls)).
Proof.
  induction 1 as [|l rest Hl ND IH]; intros s.
  - cbn [scan]. repeat split; auto.
  - cbn [scan]. cbv zeta.
    change (test_f (devlockfile (set_devlockfile (lock_of IROOT l) s))
                   (set_devlockfile (lock_of IROOT l) s))
      with (locked IROOT l s).
    set (s1 := set_devlockfile (lock_of IROOT l) s).
    change (devlockfile s1) with (lock_of IROOT l).
    assert (Others : forall k, In k rest -> l <> k)
      by (intros k Hk ->; contradiction).
    destruct (locked IROOT l s) eqn:L; cbn [negb].
    + (* the letter is locked *)
      destruct (IH s1) as (B & R & O & M & C).
      split; [exact B|]. split; [exact R|]. split; [|split].
      * intros k Hk. apply O. intros H. apply Hk. now right.
      * intros k Hk. apply M. exact Hk.
      * assert (Fl : free IROOT l s = false)
          by (unfold free; fold (locked IROOT l s); now rewrite L).
        assert (Ll : locked IROOT l (scan IROOT rest s1) = true)
          by (apply M; exact L).
        destruct C as [(before & x & after & -> & Fb & Fx & Eb & Ed & Lb & La)
                      | (Eb & Fr & Lr)].
        -- left. exists (l :: before), x, after. repeat split; auto.
           constructor; auto.
        -- right. repeat split; auto; constructor; auto.
    + (* the lock is created *)
      set (s2 := touch (lock_of IROOT l) s1).
      change (test_b (device_of IROOT l) s2) with (test_b (device_of IROOT l) s).
      assert (L2 : locked IROOT l s2 = true).
      { unfold locked, s2. rewrite test_f_touch, String.eqb_refl. reflexivity. }
      assert (K2 : forall k, l <> k -> locked IROOT k s2 = locked IROOT k s)
        by (intros k N; apply (locked_touch_other l k s1 N)).
      assert (F2 : forall k, l <> k -> free IROOT k s2 = free IROOT k s)
        by (intros k N; apply (free_touch_other l k s1 N)).
      assert (M2 : forall k, locked IROOT k s = true -> locked IROOT k s2 = true).
      { intros k Hk. unfold locked, s2. rewrite test_f_touch.
        change (test_f (lock_of IROOT k) s1) with (locked IROOT k s).
        rewrite Hk. apply orb_true_r. }
      destruct (test_b (device_of IROOT l) s) eqn:D; cbn [negb].
      * (* the device is there *)
        destruct (IH s2) as (B & R & O & M & C).
        split; [exact B|]. split; [exact R|]. split; [|split].
        -- intros k Hk. rewrite O by (intros H; apply Hk; now right).
           apply K2. intros ->. apply Hk. now left.
        -- intros k Hk. apply M, M2, Hk.
        -- assert (Fl : free IROOT l s = false)
             by (unfold free; rewrite D; apply andb_false_r).
           assert (Ll : locked IROOT l (scan IROOT rest s2) = true)
             by (apply M; exact L2).
           destruct C as [(before & x & after & E & Fb & Fx & Eb & Ed & Lb & La)
                         | (Eb & Fr & Lr)].
           ++ left. exists (l :: before), x, after.
              assert (Hin : forall k, In k rest -> l <> k) by exact Others.
              subst rest. repeat split; auto.
              { constructor; [exact Fl|].
                rewrite Forall_forall in *. intros k Hk.
                rewrite <- F2; [apply Fb, Hk|].
                apply Hin. apply in_or_app. now left. }
              { rewrite <- F2; [exact Fx|].
                apply Hin. apply in_or_app. right. now left. }
              { constructor; auto. }
              { rewrite Forall_forall in *. intros k Hk.
                rewrite La by exact Hk. apply K2.
                apply Hin. apply in_or_app. right. now right. }
           ++ right. repeat split; auto.
              { constructor; [exact Fl|].
                rewrite Forall_forall in *. intros k Hk.
                rewrite <- F2; [apply Fr, Hk | apply Others, Hk]. }
      * (* the letter is handed out *)
        split; [reflexivity|]. split; [reflexivity|]. split; [|split].
        -- intros k Hk. apply K2. intros ->. apply Hk. now left.
        -- exact M2.
        -- left. exists [], l, rest.
           split; [reflexivity|]. split; [constructor|].
           split; [unfold free; fold (locked IROOT l s); now rewrite L, D|].
           split; [reflexivity|]. split; [reflexivity|]. split.
           ++ repeat constructor. exact L2.
           ++ rewrite Forall_forall. intros k Hk. apply K2, Others, Hk.
Qed.


Lemma letters_NoDup : NoDup letters.
Proof.
  unfold letters.
  repeat (constructor;
          [intros H; cbn [In] in H;
           repeat (destruct H as [H|H]; [discriminate|]); exact H|]).
  constructor.
Qed.

Lemma getnextdev_spec (s : Shell) :
  blockdevs (snd (getnextdev IROOT s)) = blockdevs s
  /\ ran (snd (getnextdev IROOT s)) = ran s
  /\ (forall k, locked IROOT k s = true ->
                locked IROOT k (snd (getnextdev IROOT s)) = true)
  /\ match getnextdev IROOT s with
     | (Ok, s') =>
         exists before l after,
           letters = before ++ l :: after
           /\ Forall (fun k => free IROOT k s = false) before
           /\ free IROOT l s = true
           /\ blkdev s' = ("/dev/xvd" ++ String l "")%string
           /\ devlockfile s' = lock_of IROOT l
           /\ Forall (fun k => locked IROOT k s' = true) (before ++ [l])
           /\ Forall (fun k => locked IROOT k s' = locked IROOT k s) after
     | (Exit code, s') =>
         code = 1%Z
         /\ Forall (fun k => free IROOT k s = false) letters
         /\ Forall (fun k => locked IROOT k s' = true) letters
     | (Err, _) => False
     end.
Proof.
  unfold getnextdev. cbv zeta.
  destruct (scan_spec letters letters_NoDup (set_blkdev "" s))
    as (B & R & _ & M & C).
  destruct C as [(before & l & after & E & Fb & Fl & Eb & Ed & Lb & La)
                | (Eb & Fr & Lr)]; rewrite Eb.
  - cbn [String.eqb append snd]. repeat split; auto.
    exists before, l, after. repeat split; auto.
  - cbn [set_blkdev blkdev String.eqb snd]. repeat split; auto.
Qed.


(** X27: [getnextdev] hands out the first letter from [z] down to [f]
    that has neither a lock file nor a block device, and leaves its lock
    file behind; it ends the script with the status 1 exactly when no
    letter is free, and then every letter has a lock file. *)
Theorem getnextdev_hands_out_the_first_free_letter (s : Shell) :
  match getnextdev IROOT s with
  | (Ok, s') =>
      exists before l after,
        letters = before ++ l :: after
        /\ Forall (fun k => free IROOT k s = false) before
        /\ free IROOT l s = true
        /\ blkdev s' = ("/dev/xvd" ++ String l "")%string
        /\ devlockfile s' = lock_of IROOT l
        /\ locked IROOT l s' = true
  | (Exit code, s') =>
      code = 1%Z
      /\ Forall (fun k => free IROOT k s = false) letters
      /\ Forall (fun k => locked IROOT k s' = true) letters
  | (Err, _) => False
  end.
Proof.
  destruct (getnextdev_spec s) as (_ & _ & _ & C).
  destruct (getnextdev IROOT s) as [[| |code] s']; auto.
  destruct C as (before & l & after & E & Fb & Fl & Eb & Ed & Lb & _).
  exists before, l, after. repeat split; auto.
  rewrite Forall_forall in Lb. apply Lb. apply in_or_app. right. now left.
Qed.

Lemma device_name_inj (j k : ascii) :
  ("/dev/xvd" ++ String j "")%string = ("/dev/xvd" ++ String k "")%string ->
  j = k.
Proof. intros E. now injection E. Qed.

Lemma second_device_differs (s s1 s2 s3 : Shell) :
  getnextdev IROOT s = (Ok, s1) ->
  (forall k, locked IROOT k s1 = true -> locked IROOT k s2 = true) ->
  getnextdev IROOT s2 = (Ok, s3) ->
  exists l1 l3,
    l1 <> l3
    /\ blkdev s1 = ("/dev/xvd" ++ String l1 "")%string
    /\ blkdev s3 = ("/dev/xvd" ++ String l3 "")%string
    /\ devlockfile s1 = lock_of IROOT l1
    /\ devlockfile s3 = lock_of IROOT l3
    /\ free IROOT l1 s = true
    /\ locked IROOT l1 s3 = true
    /\ locked IROOT l3 s3 = true.
Proof.
  intros G1 K G3.
  destruct (getnextdev_spec s) as (_ & _ & _ & C1). rewrite G1 in C1.
  destruct (getnextdev_spec s2) as (_ & _ & M3 & C3). rewrite G3 in C3, M3.
  cbn [snd] in M3.
  destruct C1 as (b1 & l1 & a1 & _ & _ & F1 & Eb1 & Ed1 & Lb1 & _).
  destruct C3 as (b3 & l3 & a3 & _ & _ & F3 & Eb3 & Ed3 & Lb3 & _).
  assert (L1 : locked IROOT l1 s1 = true).
  { rewrite Forall_forall in Lb1. apply Lb1, in_or_app. right. now left. }
  assert (L3 : locked IROOT l3 s3 = true).
  { rewrite Forall_forall in Lb3. apply Lb3, in_or_app. right. now left. }
  exists l1, l3. repeat split; auto.
  intros <-. apply K in L1. unfold free in F3.
  fold (locked IROOT l1 s2) in F3. rewrite L1 in F3. discriminate.
Qed.

(** X28: as long as the lock files are kept, a later call of
    [getnextdev] hands out another device than an earlier one. *)
Theorem getnextdev_hands_out_another_device_while_the_lock_is_there
  (s s1 s2 s3 : Shell) :
  getnextdev IROOT s = (Ok, s1) ->
  (forall k, locked IROOT k s1 = true -> locked IROOT k s2 = true) ->
  getnextdev IROOT s2 = (Ok, s3) ->
  blkdev s3 <> blkdev s1.
Proof.
  intros G1 K G3.
  destruct (second_device_differs s s1 s2 s3 G1 K G3)
    as (l1 & l3 & N & -> & -> & _).
  intros E. apply device_name_inj in E. congruence.
Qed.

Lemma test_f_rm (p q : string) (s : Shell) :
  test_f p (rm q s) = negb (String.eqb p q) && test_f p s.
Proof.
  unfold rm, test_f. cbn [files].
  induction (files s) as [|x l IH]; cbn [filter existsb].
  - now rewrite andb_false_r.
  - destruct (String.eqb_spec x q) as [->|N]; cbn [negb existsb].
    + rewrite IH. destruct (String.eqb p q); reflexivity.
    + rewrite IH. destruct (String.eqb_spec p x) as [->|_]; [|reflexivity].
      destruct (String.eqb_spec x q); [contradiction | reflexivity].
Qed.

(** X29: when the volume is attached at the second attempt, the lock file
    of the first attempt, which was free before, is still there after the
    last lines of the script have run; the lock file of the device in use
    is removed. *)
Theorem failed_attach_attempt_leaves_its_lock (s s' : Shell) :
  attach IROOT [false; true] s = Some (Ok, s') ->
  exists l1 l2,
    l1 <> l2
    /\ free IROOT l1 s = true
    /\ ran s' = ran s ++ [attach_volume ("/dev/xvd" ++ String l1 "");
                          sleep 1;
                          attach_volume ("/dev/xvd" ++ String l2 "")]
    /\ locked IROOT l1 (release s') = true
    /\ locked IROOT l2 (release s') = false.
Proof.
  unfold attach, retry. cbn [until_cmd]. unfold attachvolume at 1.
  pose proof (getnextdev_spec s) as (_ & R1 & _ & C1).
  destruct (getnextdev IROOT s) as [[| |code] s1] eqn:G1;
    [|destruct C1|discriminate].
  cbn [snd] in R1. cbv beta iota. cbn [Z.eqb Pos.eqb].
  set (s1' := run_command (sleep 1)
                (run_command (attach_volume (blkdev s1)) s1)).
  unfold attachvolume.
  pose proof (getnextdev_spec s1') as (_ & R2 & _ & C2).
  destruct (getnextdev IROOT s1') as [[| |code] s2] eqn:G2;
    [|destruct C2|discriminate].
  cbn [snd] in R2. cbv beta iota. intros [= <-].
  destruct (second_device_differs s s1 s1' s2 G1 (fun k H => H) G2)
    as (l1 & l2 & N & Eb1 & Eb2 & _ & Ed2 & F1 & L1 & L2).
  exists l1, l2. split; [exact N|]. split; [exact F1|]. split; [|split].
  - cbn [run_command ran]. rewrite R2. unfold s1'. cbn [run_command ran].
    rewrite R1, Eb1, Eb2, <- !List.app_assoc. reflexivity.
  - unfold release, locked. rewrite test_f_rm.
    cbn [run_command devlockfile]. rewrite Ed2.
    change (test_f (lock_of IROOT l1) _) with (locked IROOT l1 s2).
    rewrite L1, andb_true_r.
    destruct (String.eqb_spec (lock_of IROOT l1) (lock_of IROOT l2)) as [E|_];
      [|reflexivity].
    apply lock_of_inj in E. contradiction.
  - unfold release, locked. rewrite test_f_rm.
    cbn [run_command devlockfile]. rewrite Ed2, String.eqb_refl.
    reflexivity.
Qed.

End ScriptFacts.

Section RetryFacts.
Import EBSBackupScript.

(** Attempts that fail, none of them the last one allowed: each runs the
    command and sleeps as many seconds as its number. *)
Lemma until_failures (c : Command) (max_attempts : Z) (k : nat) :
  forall (n : nat) (rest : list bool) (s : Shell),
    (Z.of_nat (n + k) <= max_attempts \/ max_attempts < Z.of_nat n)%Z ->
    exists s',
      until_cmd max_attempts (Z.of_nat n) (external c)
                (repeat false k ++ rest) s
      = until_cmd max_attempts (Z.of_nat (n + k)) (external c) rest s'
      /\ ran s' = ran s ++ flat_map (fun i => [c; sleep (Z.of_nat i)]) (seq n k).
Proof.
  induction k as [|k IH]; intros n rest s H.
  - exists s. rewrite Nat.add_0_r. cbn [repeat app seq flat_map].
    now rewrite List.app_nil_r.
  - cbn [repeat app until_cmd external].
    destruct (Z.eqb_spec (Z.of_nat n) max_attempts) as [E|_]; [lia|].
    destruct (IH (Datatypes.S n) rest
                 (run_command (sleep (Z.of_nat n)) (run_command c s)))
      as (s' & E & R); [lia|].
    exists s'.
    replace (Z.of_nat n + 1)%Z with (Z.of_nat (Datatypes.S n)) by lia.
    rewrite E, R. replace (Datatypes.S n + k)%nat with (n + Datatypes.S k)%nat
      by lia.
    split; [reflexivity|].
    cbn [run_command ran seq flat_map app]. rewrite <- !List.app_assoc.
    reflexivity.
Qed.

(** X30: [retry] runs the command until it succeeds, sleeping as many
    seconds as the number of the attempt that failed, and gives up with
    the status 1 after [max_attempts] failed attempts; with
    [max_attempts] at 0 or below it never gives up. *)
Theorem retry_backs_off_and_gives_up (c : Command) (s : Shell) :
  (forall (k : nat) (max_attempts : Z) (rest : list bool),
      (Z.of_nat k < max_attempts)%Z ->
      exists s',
        retry max_attempts (external c) (repeat false k ++ true :: rest) s
        = Some (Ok, s')
        /\ ran s' = ran s
                    ++ flat_map (fun i => [c; sleep (Z.of_nat i)]) (seq 1 k)
                    ++ [c])
  /\ (forall (m : nat) (rest : list bool),
        exists s',
          retry (Z.of_nat (Datatypes.S m)) (external c)
                (repeat false (Datatypes.S m) ++ rest) s
          = Some (Err, s')
          /\ ran s' = ran s
                      ++ flat_map (fun i => [c; sleep (Z.of_nat i)]) (seq 1 m)
                      ++ [c])
  /\ (forall (max_attempts : Z) (n : nat),
        (max_attempts <= 0)%Z ->
        retry max_attempts (external c) (repeat false n) s = None).
Proof.
  unfold retry. change 1%Z with (Z.of_nat 1). split; [|split].
  - intros k max_attempts rest H.
    destruct (until_failures c max_attempts k 1 (true :: rest) s)
      as (s' & E & R); [lia|].
    exists (run_command c s'). rewrite E. split; [reflexivity|].
    cbn [run_command ran]. rewrite R, <- List.app_assoc. reflexivity.
  - intros m rest.
    replace (repeat false (Datatypes.S m) ++ rest)
      with (repeat false m ++ false :: rest).
    2:{ change (false :: rest) with ([false] ++ rest).
        rewrite List.app_assoc. f_equal.
        change [false] with (repeat false 1). rewrite <- List.repeat_app.
        f_equal. lia. }
    destruct (until_failures c (Z.of_nat (Datatypes.S m)) m 1 (false :: rest) s)
      as (s' & E & R); [lia|].
    exists (run_command c s'). rewrite E. cbn [until_cmd external].
    replace (Z.of_nat (1 + m) =? Z.of_nat (Datatypes.S m))%Z with true
      by (symmetry; apply Z.eqb_eq; lia).
    split; [reflexivity|].
    cbn [run_command ran]. rewrite R, <- List.app_assoc. reflexivity.
  - intros max_attempts n H.
    destruct (until_failures c max_attempts n 1 [] s) as (s' & E & _); [lia|].
    rewrite List.app_nil_r in E. rewrite E. reflexivity.
Qed.

End RetryFacts.

Section ScriptWitnesses.
Import EBSBackupScript.

Lemma getnextdev_hands_out_another_device_while_the_lock_is_there_witness :
  exists s1 s3,
    getnextdev "/iroot" Scenarios.host = (Ok, s1)
    /\ getnextdev "/iroot" s1 = (Ok, s3)
    /\ blkdev s1 = "/dev/xvdx"
    /\ blkdev s3 = "/dev/xvdw"
    /\ blkdev s3 <> blkdev s1.
Proof.
  eexists _, _.
  split; [vm_compute; reflexivity|]. split; [vm_compute; reflexivity|].
  split; [reflexivity|]. split; [reflexivity|].
  eapply (getnextdev_hands_out_another_device_while_the_lock_is_there
            "/iroot" Scenarios.host _ _ _).
  - vm_compute. reflexivity.
  - intros k H. exact H.
  - vm_compute. reflexivity.
Defined.

Lemma failed_attach_attempt_leaves_its_lock_witness :
  exists s',
    attach "/iroot" [false; true] Scenarios.host = Some (Ok, s')
    /\ exists l1 l2,
        l1 <> l2
        /\ free "/iroot" l1 Scenarios.host = true
        /\ ran s' = ran Scenarios.host
                    ++ [attach_volume ("/dev/xvd" ++ String l1 "");
                        sleep 1;
                        attach_volume ("/dev/xvd" ++ String l2 "")]
        /\ locked "/iroot" l1 (release s') = true
        /\ locked "/iroot" l2 (release s') = false.
Proof.
  eexists. split; [vm_compute; reflexivity|].
  apply (failed_attach_attempt_leaves_its_lock "/iroot" Scenarios.host).
  vm_compute. reflexivity.
Defined.

Lemma retry_backs_off_and_gives_up_witness :
  (exists s',
      retry 5 (external mount) [false; false; true] Scenarios.host
      = Some (Ok, s')
      /\ ran s' = [mount; sleep 1; mount; sleep 2; mount])
  /\ (exists s',
        retry 3 (external mount) [false; false; false; true] Scenarios.host
        = Some (Err, s')
        /\ ran s' = [mount; sleep 1; mount; sleep 2; mount])
  /\ retry 0 (external mount) [false; false; false; false] Scenarios.host
     = None.
Proof.
  destruct (retry_backs_off_and_gives_up mount Scenarios.host)
    as (A & B & C).
  split; [|split].
  - apply (A 2%nat 5%Z []). reflexivity.
  - apply (B 2%nat [true]).
  - apply (C 0%Z 4%nat). reflexivity.
Defined.

End ScriptWitnesses.
